(** * ipai_mcp_finance: the finance tool execution engine

    A shallow embedding of the three MCP finance tools of the Odoo addon
    [ipai_mcp_finance] (trial balance, journal entry, BIR 2307), of the
    configuration, the registry of tools and the execution log they read
    and write, and of the HTTP controller that calls them, followed by
    the properties of the specification that were checked against them
    and by further properties of the code.

    Conventions of the embedding:
    - Python [float] is IEEE binary64, embedded as Rocq's primitive [float];
      comparisons, [abs], [+], [-] and [/] are the primitive operations, so
      NaN and the infinities behave as they do in CPython.
    - Python [str] is embedded as [string]; the embedding covers ASCII text
      ([upper] and [lower] act on the 26 letters only).
    - Python [int] is [Z]; a date is a record of year, month and day.
    - An exception is a value [Exn cls msg]; code that may raise returns a
      [result]; code that also reads or writes Odoo records runs in the
      monad [M], which threads the record store.
    - Record lookups ([browse], [search], [exists]) are evaluated against
      an explicit store, tables being lists in the order [search] returns
      them.
    - The tools read a request through typed records, which give a date
      by what [_parse_date] makes of it and an amount by what [float]
      makes of it, and the inserts are taken to succeed. The module
      [AnyRequest] embeds the execution log and the journal entry tool
      once more for requests of any shape (a date object, an amount that
      [float] refuses, keys that the records do not show) and for a
      database that refuses a record; [any_execute_typed] relates the
      two embeddings. *)

From Stdlib Require Import ZArith List String Ascii Floats Lia Bool.
From stdpp Require Import base option gmap.
Import ListNotations.

Set Warnings "-inexact-float".

Open Scope string_scope.
Open Scope Z_scope.

(* ===================================================================== *)
(** * Python runtime                                                      *)
(* ===================================================================== *)

(** ** Exceptions *)

(** The exception classes the tools raise themselves ([odoo.exceptions])
    or provoke in the Python runtime; [OtherError] stands for any other
    class, named by its [__name__]. *)
Inductive exn_class :=
  | UserError | AccessError | ValidationError
  | ValueError | TypeError
  | OtherError (name : string).

Inductive exn := Exn (cls : exn_class) (msg : string).

(** [type(e).__name__] *)
Definition type_name (e : exn) : string :=
  match e with
  | Exn UserError _ => "UserError"
  | Exn AccessError _ => "AccessError"
  | Exn ValidationError _ => "ValidationError"
  | Exn ValueError _ => "ValueError"
  | Exn TypeError _ => "TypeError"
  | Exn (OtherError n) _ => n
  end.

(** [str(e)] *)
Definition str_exn (e : exn) : string :=
  match e with Exn _ msg => msg end.

Definition exn_cls (e : exn) : exn_class :=
  match e with Exn c _ => c end.

Inductive result (A : Type) :=
  | Ok (a : A)
  | Raise (e : exn).
Arguments Ok {A} a.
Arguments Raise {A} e.

Definition rbind {A B} (r : result A) (k : A -> result B) : result B :=
  match r with
  | Ok a => k a
  | Raise e => Raise e
  end.

(** [try: r  except Exception: raise e'] *)
Definition except_reraise {A} (r : result A) (e' : exn) : result A :=
  match r with
  | Ok a => Ok a
  | Raise _ => Raise e'
  end.

(** ** Truthiness *)

(** [bool(s)] for a [str] *)
Definition truthy_str (s : string) : bool :=
  match s with EmptyString => false | _ => true end.

(** [bool(v)] for a value that is [None]/[False] or a [str] *)
Definition truthy_ostr (o : option string) : bool :=
  match o with Some s => truthy_str s | None => false end.

(** [v or d] for such a value *)
Definition or_str (o : option string) (d : string) : string :=
  match o with
  | Some s => if truthy_str s then s else d
  | None => d
  end.

(** ** Strings *)

Definition is_upper_letter (c : ascii) : bool :=
  let n := N_of_ascii c in ((65 <=? n) && (n <=? 90))%N.

Definition is_lower_letter (c : ascii) : bool :=
  let n := N_of_ascii c in ((97 <=? n) && (n <=? 122))%N.

Definition upper_char (c : ascii) : ascii :=
  if is_lower_letter c then ascii_of_N (N_of_ascii c - 32) else c.

Definition lower_char (c : ascii) : ascii :=
  if is_upper_letter c then ascii_of_N (N_of_ascii c + 32) else c.

Fixpoint map_str (f : ascii -> ascii) (s : string) : string :=
  match s with
  | EmptyString => EmptyString
  | String c r => String (f c) (map_str f r)
  end.

(** [s.upper()] and [s.lower()] *)
Definition upper (s : string) : string := map_str upper_char s.
Definition lower (s : string) : string := map_str lower_char s.

(** [needle in hay] *)
Fixpoint contains (needle hay : string) : bool :=
  match hay with
  | EmptyString => String.prefix needle EmptyString
  | String _ r => String.prefix needle hay || contains needle r
  end.

(** [s.replace(c, '')] for a one-character [c] *)
Fixpoint remove_char (c : ascii) (s : string) : string :=
  match s with
  | EmptyString => EmptyString
  | String a r =>
      if Ascii.eqb a c then remove_char c r else String a (remove_char c r)
  end.

(** [s[:n]] *)
Fixpoint str_take (n : nat) (s : string) : string :=
  match n, s with
  | S k, String c r => String c (str_take k r)
  | _, _ => EmptyString
  end.

Fixpoint repeat_char (c : ascii) (n : nat) : string :=
  match n with
  | O => EmptyString
  | S k => String c (repeat_char c k)
  end.

(** [s.ljust(w)], also what the format spec [{s:ws}] does to a [str]:
    left-justified, filled with spaces, never truncated. *)
Definition ljust (w : nat) (s : string) : string :=
  s ++ repeat_char " " (w - String.length s).

(** Zero fill on the left up to width [w], as the [0] flag of a format
    spec does for a number without sign. *)
Definition zfill (w : nat) (s : string) : string :=
  repeat_char "0" (w - String.length s) ++ s.

(** [sep.join(l)] *)
Fixpoint join (sep : string) (l : list string) : string :=
  match l with
  | [] => EmptyString
  | [s] => s
  | s :: r => s ++ sep ++ join sep r
  end.

(** [s.split('-Q')]: cut at every occurrence of the two-character
    separator, scanning from the left. *)
Fixpoint split_dash_Q (s : string) : list string :=
  match s with
  | EmptyString => [EmptyString]
  | String c r =>
      match c, r with
      | "-"%char, String "Q"%char r' => EmptyString :: split_dash_Q r'
      | _, _ =>
          match split_dash_Q r with
          | h :: t => String c h :: t
          | [] => [String c EmptyString]
          end
      end
  end.

(** ** Integers *)

Definition digit_char (d : Z) : ascii := ascii_of_N (Z.to_N (48 + d)).

(** The decimal digits of [n >= 0] put in front of [acc], least
    significant digit first; [fuel] bounds the number of further digits. *)
Fixpoint digits_acc (fuel : nat) (n : Z) (acc : string) : string :=
  let acc' := String (digit_char (n mod 10)) acc in
  match fuel with
  | O => acc'
  | S fuel' => if n <? 10 then acc' else digits_acc fuel' (n / 10) acc'
  end.

(** [str(n)] for [n >= 0]; a number has no more decimal than binary
    digits. *)
Definition str_nat (n : Z) : string :=
  digits_acc (Z.to_nat (Z.log2 n)) n EmptyString.

(** [str(n)] and the format spec [d] *)
Definition str_int (n : Z) : string :=
  if n <? 0 then String "-" (str_nat (- n)) else str_nat n.

(** [f"{n:0wd}"]: the zero fill goes between the sign and the digits. *)
Definition fmt_0d (w : nat) (n : Z) : string :=
  if n <? 0 then String "-" (zfill (w - 1) (str_int (- n)))
  else zfill w (str_int n).

Definition is_digit (c : ascii) : bool :=
  let n := N_of_ascii c in ((48 <=? n) && (n <=? 57))%N.

Definition digit_val (c : ascii) : Z := Z.of_N (N_of_ascii c) - 48.

(** The characters [int()] strips from both ends of its argument. *)
Definition is_space (c : ascii) : bool :=
  let n := N_of_ascii c in
  ((9 <=? n) && (n <=? 13) || (28 <=? n) && (n <=? 32))%N.

Fixpoint lstrip (s : string) : string :=
  match s with
  | String c r => if is_space c then lstrip r else s
  | EmptyString => EmptyString
  end.

Fixpoint rstrip (s : string) : string :=
  match s with
  | EmptyString => EmptyString
  | String c r =>
      match rstrip r with
      | EmptyString => if is_space c then EmptyString else String c EmptyString
      | r' => String c r'
      end
  end.

(** Digits of an [int()] literal after the first one: single underscores
    are allowed between digits. [after_us] says the previous character was
    an underscore. *)
Fixpoint int_digits (acc : Z) (after_us : bool) (s : string) : option Z :=
  match s with
  | EmptyString => if after_us then None else Some acc
  | String c r =>
      if is_digit c then int_digits (10 * acc + digit_val c) false r
      else if Ascii.eqb c "_" then
        if after_us then None else int_digits acc true r
      else None
  end.

Definition int_unsigned (s : string) : option Z :=
  match s with
  | String c r => if is_digit c then int_digits (digit_val c) false r else None
  | EmptyString => None
  end.

(** [int(s)] for a [str] in base 10; [None] is [ValueError]. *)
Definition py_int (s : string) : option Z :=
  match rstrip (lstrip s) with
  | String "+" r => int_unsigned r
  | String "-" r => Z.opp <$> int_unsigned r
  | t => int_unsigned t
  end.

(** ** Floats *)

(** [sum(xs)]: the items are added from the left to the start value 0.
    (CPython 3.12 and later also carry a correction term for the rounding
    errors of a sum of floats; the properties below do not depend on how
    the sum is rounded, and the sums that are evaluated are exact.) *)
Definition py_sum (xs : list float) : float :=
  fold_left PrimFloat.add xs 0%float.

(** [n / d] rounded to the nearest integer, ties to the even one ([d > 0]);
    this is how a float's exact value is rounded by the [f] presentation. *)
Definition round_half_even (n d : Z) : Z :=
  let q := n / d in
  let r := n mod d in
  if 2 * r <? d then q
  else if d <? 2 * r then q + 1
  else if Z.even q then q else q + 1.

(** The exact value [m * 2^e], times 100, rounded to an integer. *)
Definition hundredths (m : positive) (e : Z) : Z :=
  if 0 <=? e then Z.pos m * 2 ^ e * 100
  else round_half_even (Z.pos m * 100) (2 ^ (- e)).

(** A count of hundredths written with two decimals. *)
Definition fixed2 (c : Z) : string :=
  str_int (c / 100) ++ "." ++ fmt_0d 2 (c mod 100).

(** Sign and digits of [f"{x:.2f}"]. *)
Definition fmt_2f_parts (x : float) : bool * string :=
  match Prim2SF x with
  | S754_zero s => (s, "0.00")
  | S754_infinity s => (s, "inf")
  | S754_nan => (false, "nan")
  | S754_finite s m e => (s, fixed2 (hundredths m e))
  end.

(** [f"{x:0w.2f}"]: the zero fill goes between the sign and the digits. *)
Definition fmt_0_2f (w : nat) (x : float) : string :=
  let (neg, body) := fmt_2f_parts x in
  if neg then String "-" (zfill (w - 1) body) else zfill w body.

(** [f"{x:.2f}"] *)
Definition fmt_2f (x : float) : string := fmt_0_2f 0 x.

(** ** Dates *)

Record date := mkdate { year : Z; month : Z; day : Z }.

Definition isleap (y : Z) : bool :=
  (y mod 4 =? 0) && (negb (y mod 100 =? 0) || (y mod 400 =? 0)).

(** [calendar.monthrange(y, m)[1]] for [1 <= m <= 12] *)
Definition days_in_month (y m : Z) : Z :=
  if m =? 2 then (if isleap y then 29 else 28)
  else if (m =? 4) || (m =? 6) || (m =? 9) || (m =? 11) then 30
  else 31.

(** [calendar.monthrange(y, m)[1]]; a month outside 1..12 raises. *)
Definition monthrange_days (y m : Z) : result Z :=
  if (1 <=? m) && (m <=? 12) then Ok (days_in_month y m)
  else Raise (Exn ValueError ("bad month number " ++ str_int m ++ "; must be 1-12")).

(** The constructor [date(y, m, d)], which validates its arguments. *)
Definition new_date (y m d : Z) : result date :=
  if negb ((1 <=? y) && (y <=? 9999)) then
    Raise (Exn ValueError ("year " ++ str_int y ++ " is out of range"))
  else if negb ((1 <=? m) && (m <=? 12)) then
    Raise (Exn ValueError "month must be in 1..12")
  else if negb ((1 <=? d) && (d <=? days_in_month y m)) then
    Raise (Exn ValueError "day is out of range for month")
  else Ok (mkdate y m d).

(** [a <= b] on dates *)
Definition date_le (a b : date) : bool :=
  (year a <? year b)
  || (year a =? year b)
     && ((month a <? month b)
         || (month a =? month b) && (day a <=? day b)).

(** [str(d)], the ISO form *)
Definition str_date (d : date) : string :=
  fmt_0d 4 (year d) ++ "-" ++ fmt_0d 2 (month d) ++ "-" ++ fmt_0d 2 (day d).

(** ** Slices and replacements *)

(** [s[n:]] *)
Fixpoint str_drop (n : nat) (s : string) : string :=
  match n, s with
  | S k, String _ r => str_drop k r
  | _, _ => s
  end.

(** The scan of [s.replace(old, '')] from the left, for a non-empty
    [old]: [skip] counts the characters of the occurrence found last that
    are still to be dropped. *)
Fixpoint remove_from (old : string) (skip : nat) (s : string) : string :=
  match s with
  | EmptyString => EmptyString
  | String c r =>
      match skip with
      | S k => remove_from old k r
      | O =>
          if String.prefix old (String c r)
          then remove_from old (String.length old - 1) r
          else String c (remove_from old 0 r)
      end
  end.

(** [s.replace(old, '')]: every occurrence of [old], found from the left
    and without overlap, is removed. *)
Definition remove_sub (old s : string) : string :=
  match old with
  | EmptyString => s
  | _ => remove_from old 0 s
  end.

(** ** JSON values *)

(** A value that [json.loads] returns, or that a dict literal of a tool
    schema spells: objects keep the order of their keys. *)
#[local] Unset Elimination Schemes.
Inductive json :=
  | JNull
  | JBool (b : bool)
  | JInt (n : Z)
  | JFloat (x : float)
  | JStr (s : string)
  | JList (items : list json)
  | JObj (fields : list (string * json)).
#[local] Set Elimination Schemes.

(* ===================================================================== *)
(** * Records of the ledger and of the addon                              *)
(* ===================================================================== *)

(** [res.company], the fields the tools read *)
Record res_company := {
  company_name : string;
  company_vat : option string;
  fiscalyear_lock_date : option date;
  period_lock_date : option date;
}.

(** [mcp.finance.config] (models/mcp_finance_config.py) *)
Record mcp_finance_config := {
  enable_trial_balance : bool;
  enable_journal_entry : bool;
  enable_month_end : bool;
  enable_bir_tools : bool;
  enable_aging_report : bool;
  require_approval_je : bool;
  (** "JE amounts above this require escalated approval (0 = always
      require)" *)
  max_je_amount : float;
  log_all_queries : bool;
}.

(** The field defaults, used when [get_config] creates the record. *)
Definition default_config : mcp_finance_config := {|
  enable_trial_balance := true;
  enable_journal_entry := false;
  enable_month_end := false;
  enable_bir_tools := true;
  enable_aging_report := true;
  require_approval_je := true;
  max_je_amount := 0%float;
  log_all_queries := true;
|}.

Record account_journal := {
  journal_id : Z;
  journal_code : string;
  journal_company_id : Z;
  journal_name : string;
}.

Record account_account := {
  account_id : Z;
  account_code : string;
  account_name : string;
  account_company_ids : list Z;
  account_type : string;
  internal_group : string;
  (** [group_id]: id and name of the account group, when there is one *)
  account_group : option (Z * string);
}.

Record res_partner := {
  partner_id : Z;
  partner_ref : option string;
  partner_name : option string;
  partner_vat : option string;
  street : option string;
  street2 : option string;
  city : option string;
  state_name : option string;
  zip : option string;
}.

(** [account.tax], the fields the withholding scan reads *)
Record account_tax := {
  tax_name : option string;
  tax_description : option string;
  tax_amount : float;
}.

(** A line of a vendor bill ([account.move.line]) *)
Record bill_line := {
  tax_line_id : option account_tax;
  balance : float;
}.

(** A vendor bill or other move already in the ledger ([account.move]) *)
Record bill := {
  bill_company_id : Z;
  bill_move_type : string;
  bill_state : string;
  invoice_date : option date;
  bill_partner : res_partner;
  bill_name : string;
  line_ids : list bill_line;
}.

(** [mcp.finance.tool], the registry of tools *)
Record mcp_finance_tool := {
  tool_rec_id : Z;
  technical_name : string;
}.

(** ** Values a journal entry is made of *)

(** The [account] or [partner] key of a line: an [int] id or a [str]. *)
Inductive ref_value :=
  | RefId (n : Z)
  | RefStr (s : string).

(** The [analytic] key of a line: a [dict] or an [int]. *)
Inductive analytic_value :=
  | AnalyticDict (d : list (string * Z))
  | AnalyticInt (n : Z).

(** One element of [params['lines']]; [None] is an absent key. The
    amounts are what [float(...)] makes of the JSON numbers; a line with
    an amount that [float] refuses is an [AnyRequest.line_arg]. *)
Record je_line := {
  l_account : option ref_value;
  l_debit : option float;
  l_credit : option float;
  l_name : option string;
  l_label : option string;
  l_partner : option ref_value;
  l_analytic : option analytic_value;
}.

(** The [date] parameter as [_parse_date] sees it. What [json.dumps]
    makes of a [date] object, and of a key with the value [''], is in
    [AnyRequest]. *)
Inductive date_param :=
  | DateAbsent                 (** [None] or the empty string *)
  | DateValue (d : date)       (** a [date], or a string that [strptime] reads as [d] *)
  | DateInvalid (s : string).  (** a string that [strptime] rejects *)

(** The parameters of [create_journal_entry]. *)
Record je_params := {
  p_company_id : option Z;
  p_journal_code : option string;
  p_date : date_param;
  p_ref : option string;
  (** [None]: absent or not a list *)
  p_lines : option (list je_line);
  p_auto_post : option bool;
}.

(** The values of one line of the move to create. *)
Record move_line := {
  ml_account_id : Z;
  ml_name : string;
  ml_debit : float;
  ml_credit : float;
  ml_partner_id : option Z;
  ml_analytic_distribution : option (list (string * Z));
}.

Inductive move_state := Draft | Posted.

(** A move created by the tool ([account.move]) *)
Record account_move := {
  move_id : Z;
  mv_company_id : Z;
  mv_journal_id : Z;
  mv_date : date;
  mv_ref : string;
  mv_line_ids : list move_line;
  mv_state : move_state;
}.

(** The parameters of [generate_bir_2307] and of [get_trial_balance]. *)
Record bir_params := {
  b_company_id : option Z;
  b_period : option string;
  b_vendor_ids : option (list Z);
  b_output_format : option string;
}.

Record tb_params := {
  t_company_id : option Z;
  t_date_from : date_param;
  t_date_to : date_param;
  t_hierarchy : option bool;
  t_account_types : option (list string);
  t_include_zero : option bool;
}.

(** ** The execution log *)

Inductive tool_params :=
  | JeParams (p : je_params)
  | BirParams (p : bir_params)
  | TbParams (p : tb_params).

(** The summary a tool logs on success. *)
Inductive result_summary :=
  | JeSummary (move : Z) (name : string) (total_amount : float)
  | BirSummary (record_count : Z) (total_base total_tax : float)
  | TbSummary (row_count : Z).

Inductive execution_state :=
  | st_pending | st_approved | st_executed | st_rejected | st_failed.

(** [mcp.finance.tool.execution] (models/mcp_finance_tool.py) *)
Record execution := {
  ex_tool_id : Z;
  ex_company_id : Z;
  ex_user_id : Z;
  ex_parameters : option tool_params;
  ex_result : option result_summary;
  ex_error_message : option string;
  ex_execution_time_ms : Z;
  ex_state : execution_state;
}.

(** ** Environment and store *)

(** What a call reads and does not change: [self.env], the tables of the
    ledger, and the clock. *)
Record env := {
  env_company_id : Z;            (** [self.env.company.id] *)
  env_uid : Z;                   (** [self.env.user] *)
  (** [self.env.user.has_group('account.group_account_manager')] *)
  user_is_account_manager : bool;
  companies : gmap Z res_company;
  journals : list account_journal;
  (** [account.account], in the order of the model, by code *)
  accounts : list account_account;
  partners : list res_partner;
  (** the moves of the ledger that the withholding scan searches *)
  ledger_moves : list bill;
  tools : list mcp_finance_tool;
  (** the name the ledger gives the move with this id *)
  move_name : Z -> string;
  (** the rows [fetchall()] returns for the aggregate query of the trial
      balance over (company, date_from, date_to): account id, then
      [float] of the summed debit, credit and balance of the posted lines *)
  aml_totals : Z -> date -> date -> list (Z * (float * float * float));
  (** [date.today()] *)
  today : date;
  (** [int((time.time() - start_time) * 1000)] *)
  elapsed_ms : Z;
  (** [self.env.company.currency_id.name] *)
  currency_name : string;
}.

(** What a call writes. *)
Record db := {
  configs : gmap Z mcp_finance_config;
  moves : list account_move;
  executions : list execution;
}.

(** Code that reads and writes records and may raise. A raise keeps the
    writes made before it: the tools do not roll back. *)
Definition M (A : Type) : Type := db -> result A * db.

Definition ret {A} (a : A) : M A := fun s => (Ok a, s).

Definition raise {A} (e : exn) : M A := fun s => (Raise e, s).

Definition bind {A B} (c : M A) (k : A -> M B) : M B :=
  fun s =>
    match c s with
    | (Ok a, s') => k a s'
    | (Raise e, s') => (Raise e, s')
    end.

Definition lift {A} (r : result A) : M A := fun s => (r, s).

(** [try: c  except Exception as e: h e] *)
Definition try_except {A} (c : M A) (h : exn -> M A) : M A :=
  fun s =>
    match c s with
    | (Ok a, s') => (Ok a, s')
    | (Raise e, s') => h e s'
    end.

Declare Scope py_scope.
Delimit Scope py_scope with py.
Notation "x <- c ;; k" := (bind c (fun x => k))
  (at level 100, c at next level, right associativity) : py_scope.
Notation "c ;;; k" := (bind c (fun _ => k))
  (at level 100, right associativity) : py_scope.
Notation "x <~ r ;; k" := (rbind r (fun x => k))
  (at level 100, r at next level, right associativity) : py_scope.
Open Scope py_scope.

(** [if cond: raise e] *)
Definition raise_if (cond : bool) (e : exn) : M unit :=
  if cond then raise e else ret tt.

Definition rraise_if (cond : bool) (e : exn) : result unit :=
  if cond then Raise e else Ok tt.

(** [v or d] for an id from the parameters: [None] and [0] are falsy. *)
Definition or_id (o : option Z) (d : Z) : Z :=
  match o with
  | Some n => if n =? 0 then d else n
  | None => d
  end.

(** [k in d] for a key of a dict: the key is present. *)
Definition present {A} (o : option A) : bool :=
  match o with Some _ => true | None => false end.

(** [bool(d)] for a parameter dict whose keys are those that the typed
    record shows: some key is present. *)
Definition params_truthy (p : tool_params) : bool :=
  match p with
  | JeParams p =>
      present (p_company_id p) || present (p_journal_code p)
      || (match p_date p with DateAbsent => false | _ => true end)
      || present (p_ref p) || present (p_lines p) || present (p_auto_post p)
  | BirParams p =>
      present (b_company_id p) || present (b_period p)
      || present (b_vendor_ids p) || present (b_output_format p)
  | TbParams p =>
      present (t_company_id p)
      || (match t_date_from p with DateAbsent => false | _ => true end)
      || (match t_date_to p with DateAbsent => false | _ => true end)
      || present (t_hierarchy p) || present (t_account_types p)
      || present (t_include_zero p)
  end.

(* ===================================================================== *)
(** * models/mcp_finance_config.py                                        *)
(* ===================================================================== *)

Module McpFinanceConfig.

(** Get or create finance config for company. *)
Definition get_config (E : env) (company_id : option Z) : M mcp_finance_config :=
  fun s =>
    let company_id := or_id company_id (env_company_id E) in
    match configs s !! company_id with
    | Some config => (Ok config, s)
    | None =>
        (Ok default_config,
         {| configs := <[company_id := default_config]> (configs s);
            moves := moves s;
            executions := executions s |})
    end.

End McpFinanceConfig.

(** [ResCompany], the extension of [res.company] in the same file *)
Module ResCompany.



End ResCompany.

(* ===================================================================== *)
(** * models/mcp_finance_tool.py                                          *)
(* ===================================================================== *)

Module McpFinanceToolExecution.

(** [self.env['mcp.finance.tool'].search([('technical_name', '=', n)],
    limit=1)] *)
Definition search_tool (E : env) (tool_name : string) : option mcp_finance_tool :=
  find (fun t => String.eqb (technical_name t) tool_name) (tools E).

(** [self.create(vals)] on the execution log. The embedding takes the
    insert to succeed; [AnyRequest.create] does not. *)
Definition create (r : execution) : M execution :=
  fun s =>
    (Ok r,
     {| configs := configs s;
        moves := moves s;
        executions := (executions s ++ [r])%list |}).

(** Create execution log entry. The keyword defaults of the source are
    [result=None], [error=None], [execution_time_ms=0] and
    [state='executed']. The parameters are those of a typed record with
    dates that are strings, which [json.dumps] accepts;
    [AnyRequest.log_execution] is the function for any dict. *)
Definition log_execution (E : env) (tool_name : string) (company_id : Z)
    (parameters : tool_params) (result : option result_summary)
    (error : option string) (execution_time_ms : Z)
    (state : execution_state) : M (option execution) :=
  match search_tool E tool_name with
  | None => ret None
  | Some tool =>
      r <- create {|
        ex_tool_id := tool_rec_id tool;
        ex_company_id := company_id;
        ex_user_id := env_uid E;
        ex_parameters :=
          if params_truthy parameters then Some parameters else None;
        ex_result := result;
        ex_error_message := error;
        ex_execution_time_ms := execution_time_ms;
        ex_state := if truthy_ostr error then st_failed else state;
      |} ;;
      ret (Some r)
  end.

End McpFinanceToolExecution.

(** [McpFinanceTool], the registry of tools. The list [tools] of the
    environment holds the records a [search] sees, the active ones in the
    order of the model, with their id and technical name; the columns
    below are the other fields the registry reads. *)
Module McpFinanceTool.

Record tool_columns := {
  description : option string;
  category : string;
  requires_approval : bool;
  (** JSON Schema defining tool input parameters *)
  parameter_schema : option string;
}.

(** What [get_tool_schema] returns. *)
Record tool_schema := {
  schema_name : string;
  schema_description : option string;
  inputSchema : json;
}.

(** One element of the list [list_available_tools] returns. *)
Record available_tool := {
  available_name : string;
  available_description : option string;
  available_category : string;
  available_requires_approval : bool;
}.

(** The name of the configuration field that [list_available_tools]
    looks up for a tool. *)
Definition config_field_of (technical_name : string) : string :=
  "enable_"
  ++ remove_sub "generate_"
       (remove_sub "run_"
          (remove_sub "create_"
             (remove_sub "get_" technical_name))).

(** [getattr(config, field)] for a name that starts with "enable_", and
    [None] when [hasattr(config, field)] is false: a configuration record
    has five attributes of such a name, its fields. *)
Definition config_attr (config : mcp_finance_config) (field : string)
    : option bool :=
  if String.eqb field "enable_trial_balance"
  then Some (enable_trial_balance config)
  else if String.eqb field "enable_journal_entry"
  then Some (enable_journal_entry config)
  else if String.eqb field "enable_month_end"
  then Some (enable_month_end config)
  else if String.eqb field "enable_bir_tools"
  then Some (enable_bir_tools config)
  else if String.eqb field "enable_aging_report"
  then Some (enable_aging_report config)
  else None.

Section Registry.

(** The columns of the tool with a given id. *)
Variable columns : Z -> tool_columns.

(** [json.loads] *)
Variable json_loads : string -> result json.

(** Return tool schema for MCP protocol. *)
Definition get_tool_schema (E : env) (technical_name_ : string)
    : result tool_schema :=
  match McpFinanceToolExecution.search_tool E technical_name_ with
  | None => Raise (Exn UserError ("Tool not found: " ++ technical_name_))
  | Some tool =>
      let fields := columns (tool_rec_id tool) in
      schema <~
        (if truthy_ostr (parameter_schema fields)
         then json_loads (default "" (parameter_schema fields))
         else Ok (JObj [])) ;;
      Ok {| schema_name := technical_name tool;
            schema_description := description fields;
            inputSchema := schema |}
  end.

(** The loop of [list_available_tools] over the tools. *)
Fixpoint available_of (config : mcp_finance_config)
    (tools : list mcp_finance_tool) : list available_tool :=
  match tools with
  | [] => []
  | tool :: rest =>
      (* Check if tool is enabled in config *)
      let config_field := config_field_of (technical_name tool) in
      if present (config_attr config config_field)
         && negb (default true (config_attr config config_field))
      then available_of config rest
      else
        {| available_name := technical_name tool;
           available_description := description (columns (tool_rec_id tool));
           available_category := category (columns (tool_rec_id tool));
           available_requires_approval :=
             requires_approval (columns (tool_rec_id tool)) |}
        :: available_of config rest
  end.

(** List all tools available for the company. *)
Definition list_available_tools (E : env) (company_id : option Z)
    : M (list available_tool) :=
  config <- McpFinanceConfig.get_config E company_id ;;
  let tools := tools E in
  ret (available_of config tools).

End Registry.

End McpFinanceTool.

(* ===================================================================== *)
(** * The boundary of a tool                                              *)
(* ===================================================================== *)

(** What [execute] returns: the success dict of the tool, or
    [{'success': False, 'error': ..., 'error_type': ...}]. *)
Inductive envelope (A : Type) :=
  | Success (data : A)
  | Failure (error error_type : string).
Arguments Success {A} data.
Arguments Failure {A} error error_type.

(** The [try: ... except Exception as e: ...] that is the whole body of
    each tool's [execute]: the three tools differ only in the tool name
    they log under and in the code inside the [try]. *)
Definition tool_boundary {A} (E : env) (tool_name : string)
    (company_param : option Z) (params : tool_params)
    (body : M A) : M (envelope A) :=
  try_except
    (a <- body ;; ret (Success a))
    (fun e =>
       McpFinanceToolExecution.log_execution E tool_name
         (or_id company_param (env_company_id E))
         params None (Some (str_exn e)) (elapsed_ms E) st_executed ;;;
       ret (Failure (str_exn e) (type_name e))).

(* ===================================================================== *)
(** * tools/journal_entry.py                                              *)
(* ===================================================================== *)

Module JournalEntryTool.

(** Tolerance for floating point comparison *)
Definition BALANCE_TOLERANCE : float := 0.01%float.

(** The success dict of [execute]. *)
Record je_success := {
  r_move_id : Z;
  r_move_name : string;
  r_state : move_state;
  r_requires_approval : bool;
  r_total_amount : float;
  r_company : string;
  r_journal : string;
  r_line_count : Z;
  r_execution_time_ms : Z;
}.

(** Parse date string to date object. *)
Definition _parse_date (date_str : date_param) : result (option date) :=
  match date_str with
  | DateAbsent => Ok None
  | DateValue d => Ok (Some d)
  | DateInvalid s =>
      Raise (Exn UserError ("Invalid date format: " ++ s ++ ". Use YYYY-MM-DD"))
  end.

(** [lock and je_date <= lock] for a lock date that may be unset *)
Definition on_or_before (je_date : date) (lock : option date) : bool :=
  match lock with
  | Some l => date_le je_date l
  | None => false
  end.

Definition str_lock (lock : option date) : string :=
  match lock with Some l => str_date l | None => "False" end.

(** Check if the period is locked. *)
Definition _check_period_lock (E : env) (company_id : Z) (je_date : date)
    : result unit :=
  match companies E !! company_id with
  | None =>
      Raise (Exn (OtherError "MissingError")
               "Record does not exist or has been deleted.")
  | Some company =>
      (* Check fiscal year lock *)
      if on_or_before je_date (fiscalyear_lock_date company) then
        Raise (Exn UserError
                 ("Period is locked. Fiscal year lock date: "
                  ++ str_lock (fiscalyear_lock_date company)))
      (* Check period lock for non-advisers *)
      else if on_or_before je_date (period_lock_date company) then
        if negb (user_is_account_manager E) then
          Raise (Exn UserError
                   ("Period is locked for non-advisers. Lock date: "
                    ++ str_lock (period_lock_date company)))
        else Ok tt
      else Ok tt
  end.

Definition truthy_ref (r : option ref_value) : bool :=
  match r with
  | Some (RefId n) => negb (n =? 0)
  | Some (RefStr s) => truthy_str s
  | None => false
  end.

Definition str_ref (r : ref_value) : string :=
  match r with RefId n => str_int n | RefStr s => s end.

(** The account a line names: [Account.browse(id)] for an [int], else
    the first account with that code in the company; [None] when
    [account.exists()] is false. *)
Definition find_account (E : env) (company_id : Z) (account_ref : ref_value)
    : option account_account :=
  match account_ref with
  | RefId n => find (fun a => account_id a =? n) (accounts E)
  | RefStr code =>
      find (fun a => String.eqb (account_code a) code
                     && existsb (Z.eqb company_id) (account_company_ids a))
           (accounts E)
  end.

(** [('name', 'ilike', s)]: [s] occurs in the name, letter case aside. *)
Definition ilike (value : option string) (s : string) : bool :=
  match value with
  | Some v => contains (lower s) (lower v)
  | None => false
  end.

Definition find_partner (E : env) (ref : ref_value) : option res_partner :=
  match ref with
  | RefId n => find (fun p => partner_id p =? n) (partners E)
  | RefStr s =>
      find (fun p =>
              match partner_ref p with
              | Some r => String.eqb r s
              | None => false
              end
              || ilike (partner_name p) s)
           (partners E)
  end.

Definition float_or_0 (v : option float) : float :=
  match v with Some x => x | None => 0%float end.

(** The body of the loop of [_build_move_lines] for line number [i]
    (counted from 0). *)
Definition build_move_line (E : env) (company_id : Z) (i : Z) (line : je_line)
    : result move_line :=
  let ln := "Line " ++ str_int (i + 1) in
  (* Validate account *)
  if negb (truthy_ref (l_account line)) then
    Raise (Exn UserError (ln ++ ": account is required"))
  else
  match l_account line with
  | None => Raise (Exn UserError (ln ++ ": account is required"))
  | Some account_ref =>
  match find_account E company_id account_ref with
  | None =>
      Raise (Exn UserError (ln ++ ": account not found: " ++ str_ref account_ref))
  | Some account =>
      (* Get amounts *)
      let debit := float_or_0 (l_debit line) in
      let credit := float_or_0 (l_credit line) in
      if (debit <? 0)%float || (credit <? 0)%float then
        Raise (Exn UserError (ln ++ ": debit and credit must be non-negative"))
      else if (0 <? debit)%float && (0 <? credit)%float then
        Raise (Exn UserError
                 (ln ++ ": cannot have both debit and credit on same line"))
      else if (debit =? 0)%float && (credit =? 0)%float then
        Raise (Exn UserError
                 (ln ++ ": must have either debit or credit amount"))
      else
        Ok {|
          ml_account_id := account_id account;
          ml_name := or_str (l_name line) (or_str (l_label line) "/");
          ml_debit := debit;
          ml_credit := credit;
          (* Optional partner *)
          ml_partner_id :=
            match l_partner line with
            | Some ref =>
                if truthy_ref (l_partner line)
                then partner_id <$> find_partner E ref
                else None
            | None => None
            end;
          (* Optional analytic *)
          ml_analytic_distribution :=
            match l_analytic line with
            | Some (AnalyticDict ((_ :: _) as d)) => Some d
            | Some (AnalyticInt n) =>
                if n =? 0 then None else Some [(str_int n, 100)]
            | _ => None
            end;
        |}
  end
  end.

Fixpoint build_from (E : env) (company_id : Z) (i : Z) (lines : list je_line)
    : result (list move_line) :=
  match lines with
  | [] => Ok []
  | line :: rest =>
      move_line <~ build_move_line E company_id i line ;;
      move_lines <~ build_from E company_id (i + 1) rest ;;
      Ok (move_line :: move_lines)
  end.

(** Build and validate move line values. *)
Definition _build_move_lines (E : env) (lines : list je_line) (company_id : Z)
    : result (list move_line) :=
  build_from E company_id 0 lines.

(** Validate that debits equal credits. *)
Definition _validate_balance (move_lines : list move_line) : result unit :=
  let total_debit := py_sum (map ml_debit move_lines) in
  let total_credit := py_sum (map ml_credit move_lines) in
  let diff := abs (total_debit - total_credit) in
  if (BALANCE_TOLERANCE <? diff)%float then
    Raise (Exn ValidationError
             ("Journal entry is not balanced. "
              ++ "Total debit: " ++ fmt_2f total_debit
              ++ ", Total credit: " ++ fmt_2f total_credit
              ++ ", Difference: " ++ fmt_2f diff))
  else Ok tt.

(** [self.env['account.move'].with_company(company_id).create(vals)]:
    the move enters the store in draft. The embedding takes the insert,
    and [action_post] below, to succeed. *)
Definition create_move (company_id journal : Z) (je_date : date) (ref : string)
    (move_lines : list move_line) : M account_move :=
  fun s =>
    let move := {|
      move_id := Z.of_nat (length (moves s)) + 1;
      mv_company_id := company_id;
      mv_journal_id := journal;
      mv_date := je_date;
      mv_ref := ref;
      mv_line_ids := move_lines;
      mv_state := Draft;
    |} in
    (Ok move,
     {| configs := configs s;
        moves := (moves s ++ [move])%list;
        executions := executions s |}).

Definition set_posted (m : account_move) : account_move := {|
  move_id := move_id m;
  mv_company_id := mv_company_id m;
  mv_journal_id := mv_journal_id m;
  mv_date := mv_date m;
  mv_ref := mv_ref m;
  mv_line_ids := mv_line_ids m;
  mv_state := Posted;
|}.

(** [move.action_post()] *)
Definition action_post (move : account_move) : M account_move :=
  fun s =>
    (Ok (set_posted move),
     {| configs := configs s;
        moves := map (fun m => if move_id m =? move_id move
                               then set_posted m else m) (moves s);
        executions := executions s |}).

(** The approval decision of [execute], from the configuration and the
    total debit. *)
Definition requires_approval_of (config : mcp_finance_config)
    (total_amount : float) : bool :=
  let requires_approval := false in
  let requires_approval :=
    if require_approval_je config then true else requires_approval in
  let requires_approval :=
    if (0 <? max_je_amount config)%float
       && (max_je_amount config <? total_amount)%float
    then true else requires_approval in
  requires_approval.

Definition required_str (v : option string) (msg : string) : M string :=
  match v with
  | Some (String _ _ as s) => ret s
  | _ => raise (Exn UserError msg)
  end.

(** The code inside the [try] of [execute]. *)
Definition execute_body (E : env) (params : je_params) : M je_success :=
  (* Validate parameters *)
  let company_id := or_id (p_company_id params) (env_company_id E) in
  company <-
    match companies E !! company_id with
    | Some company => ret company
    | None => raise (Exn UserError ("Company not found: " ++ str_int company_id))
    end ;;
  (* Check tool is enabled *)
  config <- McpFinanceConfig.get_config E (Some company_id) ;;
  raise_if (negb (enable_journal_entry config))
    (Exn AccessError "Journal Entry tool is disabled for this company") ;;;
  (* Validate required fields *)
  code <- required_str (p_journal_code params) "journal_code is required" ;;
  parsed <- lift (_parse_date (p_date params)) ;;
  je_date <-
    match parsed with
    | Some d => ret d
    | None => raise (Exn UserError "date is required (YYYY-MM-DD)")
    end ;;
  ref <- required_str (p_ref params) "ref (reference/memo) is required" ;;
  lines <-
    match p_lines params with
    | Some ((_ :: _) as lines) => ret lines
    | _ => raise (Exn UserError "lines is required and must be a list")
    end ;;
  let auto_post := default false (p_auto_post params) in
  (* Check period lock *)
  lift (_check_period_lock E company_id je_date) ;;;
  (* Find journal *)
  journal <-
    match find (fun j => String.eqb (journal_code j) code
                         && (journal_company_id j =? company_id))
               (journals E) with
    | Some journal => ret journal
    | None => raise (Exn UserError ("Journal not found: " ++ code))
    end ;;
  (* Validate and build lines *)
  move_lines <- lift (_build_move_lines E lines company_id) ;;
  (* Check balance *)
  lift (_validate_balance move_lines) ;;;
  (* Calculate total for approval threshold *)
  let total_amount := py_sum (map ml_debit move_lines) in
  (* Determine if approval required *)
  let requires_approval := requires_approval_of config total_amount in
  (* Force draft if approval required *)
  let auto_post := if requires_approval then false else auto_post in
  (* Create move *)
  move <- create_move company_id (journal_id journal) je_date ref move_lines ;;
  (* Auto-post if allowed *)
  move <- (if auto_post && negb requires_approval
           then action_post move else ret move) ;;
  let execution_time := elapsed_ms E in
  (* Log execution *)
  let state := if requires_approval then st_pending else st_executed in
  McpFinanceToolExecution.log_execution E "create_journal_entry" company_id
    (JeParams params)
    (Some (JeSummary (move_id move) (move_name E (move_id move)) total_amount))
    None execution_time state ;;;
  ret {|
    r_move_id := move_id move;
    r_move_name := move_name E (move_id move);
    r_state := mv_state move;
    r_requires_approval := requires_approval;
    r_total_amount := total_amount;
    r_company := company_name company;
    r_journal := journal_name journal;
    r_line_count := Z.of_nat (length move_lines);
    r_execution_time_ms := execution_time;
  |}.

(** Execute journal entry creation. *)
Definition execute (E : env) (params : je_params) : M (envelope je_success) :=
  tool_boundary E "create_journal_entry" (p_company_id params)
    (JeParams params) (execute_body E params).

(** Return MCP tool schema for registration. *)
Definition get_tool_schema : json :=
  JObj
    [ ("name", JStr "create_journal_entry");
      ("description",
       JStr "Create a journal entry with double-entry validation. By default, entries are created in draft state and require human approval.");
      ("inputSchema",
       JObj
         [ ("type", JStr "object");
           ("properties",
            JObj
              [ ("company_id",
                 JObj
                   [ ("type", JStr "integer");
                     ("description",
                      JStr "Company ID (optional, defaults to current company)") ]);
                ("journal_code",
                 JObj
                   [ ("type", JStr "string");
                     ("description",
                      JStr "Journal code (e.g., MISC, BANK, CASH, STJ)") ]);
                ("date",
                 JObj
                   [ ("type", JStr "string");
                     ("format", JStr "date");
                     ("description", JStr "Journal entry date (YYYY-MM-DD)") ]);
                ("ref",
                 JObj
                   [ ("type", JStr "string");
                     ("description", JStr "Reference/memo for the entry") ]);
                ("lines",
                 JObj
                   [ ("type", JStr "array");
                     ("description",
                      JStr "Journal entry lines (debits must equal credits)");
                     ("items",
                      JObj
                        [ ("type", JStr "object");
                          ("properties",
                           JObj
                             [ ("account",
                                JObj
                                  [ ("type", JList [JStr "string"; JStr "integer"]);
                                    ("description", JStr "Account code or ID") ]);
                               ("debit",
                                JObj
                                  [ ("type", JStr "number");
                                    ("description",
                                     JStr "Debit amount (0 if credit line)") ]);
                               ("credit",
                                JObj
                                  [ ("type", JStr "number");
                                    ("description",
                                     JStr "Credit amount (0 if debit line)") ]);
                               ("name",
                                JObj
                                  [ ("type", JStr "string");
                                    ("description", JStr "Line description/label") ]);
                               ("partner",
                                JObj
                                  [ ("type", JList [JStr "string"; JStr "integer"]);
                                    ("description",
                                     JStr "Partner reference or ID (optional)") ]);
                               ("analytic",
                                JObj
                                  [ ("type", JList [JStr "object"; JStr "integer"]);
                                    ("description",
                                     JStr "Analytic distribution or account ID") ]) ]);
                          ("required", JList [JStr "account"]) ]) ]);
                ("auto_post",
                 JObj
                   [ ("type", JStr "boolean");
                     ("default", JBool false);
                     ("description",
                      JStr "Auto-post the entry (only if approval not required)") ]) ]);
           ("required",
            JList [JStr "journal_code"; JStr "date"; JStr "ref"; JStr "lines"]) ]) ].

End JournalEntryTool.

(* ===================================================================== *)
(** * tools/bir_compliance.py                                             *)
(* ===================================================================== *)

Module BirComplianceTool.

(** BIR 2307 field positions for DAT format *)
Definition BIR_2307_FIELDS : list (string * nat) :=
  [ ("returning_period", 6%nat);
    ("seq_no", 10%nat);
    ("tin", 9%nat);
    ("branch_code", 4%nat);
    ("vendor_name", 50%nat);
    ("vendor_address", 100%nat);
    ("atc", 5%nat);
    ("tax_rate", 5%nat);
    ("income_payment", 14%nat);
    ("tax_withheld", 14%nat) ].

(** One element of [data['records']]. *)
Record withholding_record := {
  vendor_tin : string;
  vendor_name : string;
  vendor_address : string;
  atc : string;
  tax_rate : float;
  base_amount : float;
  tax_amount_withheld : float;
  bill_ref : string;
  bill_date : option date;
}.

(** [{'records': ..., 'totals': {'base': ..., 'tax': ...}}] *)
Record withholding_data := {
  records : list withholding_record;
  totals_base : float;
  totals_tax : float;
}.

Definition quarter_months (quarter : Z) : result (Z * Z) :=
  match quarter with
  | 1 => Ok (1, 3)
  | 2 => Ok (4, 6)
  | 3 => Ok (7, 9)
  | 4 => Ok (10, 12)
  | _ => Raise (Exn (OtherError "KeyError") (str_int quarter))
  end.

Definition int_or_raise (s : string) : result Z :=
  match py_int s with
  | Some n => Ok n
  | None =>
      Raise (Exn ValueError
               ("invalid literal for int() with base 10: '" ++ s ++ "'"))
  end.

(** [a, b = period.split('-Q')] *)
Definition unpack_split (period : string) : result (string * string) :=
  match split_dash_Q period with
  | [a; b] => Ok (a, b)
  | [] | [_] => Raise (Exn ValueError "not enough values to unpack")
  | _ => Raise (Exn ValueError "too many values to unpack (expected 2)")
  end.

(** The code inside the [try] of [_parse_quarter]. *)
Definition parse_quarter_try (period : string) : result (date * date) :=
  parts <~ unpack_split period ;;
  let '(year, quarter) := parts in
  year <~ int_or_raise year ;;
  quarter <~ int_or_raise quarter ;;
  if (quarter <? 1) || (4 <? quarter) then
    Raise (Exn ValueError "Quarter must be 1-4")
  else
    (* Quarter start/end dates *)
    months <~ quarter_months quarter ;;
    let '(start_month, end_month) := months in
    date_from <~ new_date year start_month 1 ;;
    (* End of quarter *)
    date_to <~
      (if end_month =? 12 then new_date year 12 31
       else
         last_day <~ monthrange_days year end_month ;;
         new_date year end_month last_day) ;;
    Ok (date_from, date_to).

(** Parse YYYY-QN to date range. *)
Definition _parse_quarter (period : string) : result (date * date) :=
  except_reraise (parse_quarter_try period)
    (Exn UserError
       ("Invalid period format: " ++ period ++ ". Use YYYY-QN (e.g., 2025-Q4)")).

(** The first filter of [_get_withholding_data]: the line has a tax whose
    description contains "withholding", letter case aside. *)
Definition by_description (l : bill_line) : bool :=
  match tax_line_id l with
  | Some tax =>
      match tax_description tax with
      | Some d => truthy_str d && contains "withholding" (lower d)
      | None => false
      end
  | None => false
  end.

(** The second filter: the line has a tax whose name contains "EWT" or
    "WC". *)
Definition by_name (l : bill_line) : bool :=
  match tax_line_id l with
  | Some tax =>
      match tax_name tax with
      | Some n => truthy_str n && (contains "EWT" n || contains "WC" n)
      | None => false
      end
  | None => false
  end.

(** The withholding tax lines of one bill. *)
Definition wht_lines_of (b : bill) : list bill_line :=
  let wht_lines := List.filter by_description (line_ids b) in
  match wht_lines with
  | [] =>
      (* Also check for EWT (Expanded Withholding Tax) codes *)
      List.filter by_name (line_ids b)
  | _ => wht_lines
  end.

(** Format partner address for BIR. *)
Definition _format_address (partner : res_partner) : string :=
  let parts :=
    [ or_str (street partner) "";
      or_str (street2 partner) "";
      or_str (city partner) "";
      or_str (state_name partner) "";
      or_str (zip partner) "" ] in
  str_take 100 (join ", " (List.filter truthy_str parts)).

(** Get Alpha Tax Code for withholding tax. *)
Definition _get_atc (tax : option account_tax) : string :=
  match tax with
  | None => "WC010"  (* Default *)
  | Some tax =>
      let name := upper (or_str (tax_name tax) "") in
      if contains "PROFESSIONAL" name || contains "WC010" name then "WC010"
      else if contains "RENTAL" name || contains "WC020" name then "WC020"
      else if contains "SERVICE" name || contains "WC100" name then "WC100"
      else if contains "GOODS" name || contains "WC120" name then "WC120"
      else "WC010"  (* Default to professional fees *)
  end.

(** The record made of one withholding line of a bill. *)
Definition record_of (b : bill) (wht_line : bill_line) : withholding_record :=
  let partner := bill_partner b in
  let tax := tax_line_id wht_line in
  let tax_rate :=
    match tax with Some t => abs (tax_amount t) | None => 0%float end in
  let tax_amount := abs (balance wht_line) in
  let base_amount :=
    if (0 <? tax_rate)%float then (tax_amount / tax_rate * 100)%float
    else 0%float in
  {| vendor_tin := or_str (partner_vat partner) "";
     vendor_name := or_str (partner_name partner) "";
     vendor_address := _format_address partner;
     atc := _get_atc tax;
     tax_rate := tax_rate;
     base_amount := base_amount;
     tax_amount_withheld := tax_amount;
     bill_ref := bill_name b;
     bill_date := invoice_date b |}.

(** The search domain of [_get_withholding_data]. *)
Definition in_domain (company_id : Z) (date_from date_to : date)
    (vendor_ids : option (list Z)) (b : bill) : bool :=
  (bill_company_id b =? company_id)
  && String.eqb (bill_move_type b) "in_invoice"
  && String.eqb (bill_state b) "posted"
  && match invoice_date b with
     | Some d => date_le date_from d && date_le d date_to
     | None => false
     end
  && match vendor_ids with
     | Some ((_ :: _) as ids) =>
         existsb (Z.eqb (partner_id (bill_partner b))) ids
     | _ => true
     end.

(** Get withholding tax data from vendor bills. *)
Definition _get_withholding_data (E : env) (company_id : Z)
    (date_from date_to : date) (vendor_ids : option (list Z))
    : withholding_data :=
  let bills :=
    List.filter (in_domain company_id date_from date_to vendor_ids)
           (ledger_moves E) in
  let records :=
    flat_map (fun b => map (record_of b) (wht_lines_of b)) bills in
  {| records := records;
     totals_base := fold_left PrimFloat.add (map base_amount records) 0%float;
     totals_tax :=
       fold_left PrimFloat.add (map tax_amount_withheld records) 0%float |}.

Definition CRLF : string :=
  String (ascii_of_N 13) (String (ascii_of_N 10) EmptyString).

(** The ten formatted fields of the line for the record with sequence
    number [seq], in the order of the f-string that builds the line. *)
Definition dat_fields (returning_period : string) (seq : Z)
    (record : withholding_record) : list string :=
  (* Format TIN (remove dashes, pad to 9 chars) *)
  let tin := ljust 9 (str_take 9 (remove_char "-" (vendor_tin record))) in
  (* Format amounts (14 chars, 2 decimal places, right-aligned) *)
  let base := remove_char "." (fmt_0_2f 14 (base_amount record)) in
  let tax := remove_char "." (fmt_0_2f 14 (tax_amount_withheld record)) in
  [ ljust 6 returning_period;
    fmt_0d 10 seq;
    ljust 9 tin;
    ljust 4 "0000";  (* Branch code *)
    ljust 50 (str_take 50 (vendor_name record));
    ljust 100 (str_take 100 (vendor_address record));
    ljust 5 (atc record);
    fmt_0_2f 5 (tax_rate record);
    ljust 14 base;
    ljust 14 tax ].

(** One line of the DAT file: the fields one after the other. *)
Definition dat_line (returning_period : string) (seq : Z)
    (record : withholding_record) : string :=
  join "" (dat_fields returning_period seq record).

(** [enumerate(records, seq)] mapped to the lines *)
Fixpoint dat_lines (returning_period : string) (seq : Z)
    (records : list withholding_record) : list string :=
  match records with
  | [] => []
  | record :: rest =>
      dat_line returning_period seq record
      :: dat_lines returning_period (seq + 1) rest
  end.

(** Generate BIR DAT file format: the content and the file name. *)
Definition _generate_dat (data : withholding_data) (period : string)
    (company : res_company) : result (string * string) :=
  (* Parse period for header *)
  parts <~ unpack_split period ;;
  let '(year, quarter) := parts in
  (* Use last month of quarter *)
  quarter <~ int_or_raise quarter ;;
  let quarter_end_month := quarter * 3 in
  let returning_period := fmt_0d 2 quarter_end_month ++ year in
  let lines := dat_lines returning_period 1 (records data) in
  let content := join CRLF lines in
  let filename :=
    "BIR2307_" ++ or_str (company_vat company) "TIN" ++ "_" ++ period ++ ".dat" in
  Ok (content, filename).

(** What [_generate_xlsx] writes into the worksheet. *)
Inductive cell :=
  | CellInt (n : Z)
  | CellStr (s : string)
  | CellNum (x : float)
  | CellDate (d : option date).

Inductive cell_format := no_format | header_format | money_format | date_format.

Definition worksheet : Type := list (Z * Z * cell * cell_format).

Definition headers : list string :=
  [ "Seq"; "Vendor TIN"; "Vendor Name"; "Address";
    "ATC"; "Tax Rate"; "Base Amount"; "Tax Withheld";
    "Bill Reference"; "Bill Date" ].

Fixpoint header_cells (col : Z) (hs : list string) : worksheet :=
  match hs with
  | [] => []
  | h :: rest => (0, col, CellStr h, header_format) :: header_cells (col + 1) rest
  end.

Definition row_cells (row : Z) (record : withholding_record) : worksheet :=
  [ (row, 0, CellInt row, no_format);
    (row, 1, CellStr (vendor_tin record), no_format);
    (row, 2, CellStr (vendor_name record), no_format);
    (row, 3, CellStr (vendor_address record), no_format);
    (row, 4, CellStr (atc record), no_format);
    (row, 5, CellNum (tax_rate record), no_format);
    (row, 6, CellNum (base_amount record), money_format);
    (row, 7, CellNum (tax_amount_withheld record), money_format);
    (row, 8, CellStr (bill_ref record), no_format);
    (row, 9, CellDate (bill_date record), date_format) ].

Fixpoint data_cells (row : Z) (records : list withholding_record) : worksheet :=
  match records with
  | [] => []
  | record :: rest => (row_cells row record ++ data_cells (row + 1) rest)%list
  end.

Definition xlsx_cells (data : withholding_data) : worksheet :=
  let total_row := Z.of_nat (length (records data)) + 2 in
  (header_cells 0 headers
   ++ data_cells 1 (records data)
   ++ [ (total_row, 5, CellStr "TOTALS:", header_format);
        (total_row, 6, CellNum (totals_base data), money_format);
        (total_row, 7, CellNum (totals_tax data), money_format) ])%list.

(** The success dict of [execute]. *)
Record bir_success := {
  r_file_content : string;
  r_filename : string;
  r_record_count : Z;
  r_total_base : float;
  r_total_tax : float;
  r_company : string;
  r_period : string;
  r_output_format : string;
  r_execution_time_ms : Z;
}.

Section Libraries.

(** The [xlsxwriter] package, when it can be imported: the bytes of
    the workbook that holds the worksheet. *)
Variable xlsxwriter : option (worksheet -> string).

(** [base64.b64encode(content).decode('utf-8')] *)
Variable b64encode : string -> string.

(** Generate Excel format with headers. *)
Definition _generate_xlsx (data : withholding_data) (period : string)
    (company : res_company) : result (string * string) :=
  match xlsxwriter with
  | None =>
      Raise (Exn UserError "xlsxwriter library required for Excel export")
  | Some workbook =>
      let content := workbook (xlsx_cells data) in
      let filename :=
        "BIR2307_" ++ or_str (company_vat company) "TIN"
        ++ "_" ++ period ++ ".xlsx" in
      Ok (content, filename)
  end.

(** Generate PDF format (stub - would use report engine). *)
Definition _generate_pdf (data : withholding_data) (period : string)
    (company : res_company) : result (string * string) :=
  (* For now, return Excel - PDF would use QWeb report *)
  _generate_xlsx data period company.

(** The code inside the [try] of [execute]. *)
Definition execute_body (E : env) (params : bir_params) : M bir_success :=
  let company_id := or_id (b_company_id params) (env_company_id E) in
  company <-
    match companies E !! company_id with
    | Some company => ret company
    | None =>
        raise (Exn UserError ("Company not found: " ++ str_int company_id))
    end ;;
  (* Check tool is enabled *)
  config <- McpFinanceConfig.get_config E (Some company_id) ;;
  raise_if (negb (enable_bir_tools config))
    (Exn AccessError "BIR Compliance tools are disabled for this company") ;;;
  (* Parse period *)
  period <-
    match b_period params with
    | Some (String _ _ as period) => ret period
    | _ =>
        raise (Exn UserError
                 "period is required (YYYY-QN format, e.g., 2025-Q4)")
    end ;;
  range <- lift (_parse_quarter period) ;;
  let '(date_from, date_to) := range in
  let vendor_ids := b_vendor_ids params in
  let output_format := lower (default "dat" (b_output_format params)) in
  raise_if (negb (String.eqb output_format "dat"
                  || String.eqb output_format "xlsx"
                  || String.eqb output_format "pdf"))
    (Exn UserError
       ("Invalid output_format: " ++ output_format
        ++ ". Use dat, xlsx, or pdf")) ;;;
  (* Get withholding tax data *)
  let data := _get_withholding_data E company_id date_from date_to vendor_ids in
  (* Generate output *)
  file <- lift (if String.eqb output_format "dat"
                then _generate_dat data period company
                else if String.eqb output_format "xlsx"
                then _generate_xlsx data period company
                else _generate_pdf data period company) ;;
  let '(content, filename) := file in
  let file_content := b64encode content in
  let execution_time := elapsed_ms E in
  (* Log execution *)
  McpFinanceToolExecution.log_execution E "generate_bir_2307" company_id
    (BirParams params)
    (Some (BirSummary (Z.of_nat (length (records data)))
                      (totals_base data) (totals_tax data)))
    None execution_time st_executed ;;;
  ret {|
    r_file_content := file_content;
    r_filename := filename;
    r_record_count := Z.of_nat (length (records data));
    r_total_base := totals_base data;
    r_total_tax := totals_tax data;
    r_company := company_name company;
    r_period := period;
    r_output_format := output_format;
    r_execution_time_ms := execution_time;
  |}.

(** Execute BIR 2307 generation. *)
Definition execute (E : env) (params : bir_params) : M (envelope bir_success) :=
  tool_boundary E "generate_bir_2307" (b_company_id params)
    (BirParams params) (execute_body E params).

End Libraries.

(** Return MCP tool schema for registration. *)
Definition get_tool_schema : json :=
  JObj
    [ ("name", JStr "generate_bir_2307");
      ("description",
       JStr "Generate Philippine BIR Form 2307 (Certificate of Creditable Tax Withheld at Source) for vendor payments with withholding tax.");
      ("inputSchema",
       JObj
         [ ("type", JStr "object");
           ("properties",
            JObj
              [ ("company_id",
                 JObj
                   [ ("type", JStr "integer");
                     ("description",
                      JStr "Company ID (optional, defaults to current company)") ]);
                ("period",
                 JObj
                   [ ("type", JStr "string");
                     ("pattern", JStr "^\d{4}-Q[1-4]$");
                     ("description",
                      JStr "Reporting period in YYYY-QN format (e.g., 2025-Q4)") ]);
                ("vendor_ids",
                 JObj
                   [ ("type", JStr "array");
                     ("items", JObj [ ("type", JStr "integer") ]);
                     ("description",
                      JStr "Filter to specific vendor IDs (optional, all if not specified)") ]);
                ("output_format",
                 JObj
                   [ ("type", JStr "string");
                     ("enum", JList [JStr "dat"; JStr "xlsx"; JStr "pdf"]);
                     ("default", JStr "dat");
                     ("description",
                      JStr "Output format: dat (BIR upload), xlsx (Excel), pdf") ]) ]);
           ("required", JList [JStr "period"]) ]) ].

End BirComplianceTool.

(* ===================================================================== *)
(** * tools/trial_balance.py                                              *)
(* ===================================================================== *)

Module TrialBalanceTool.

(** The values of [totals_by_account] and the running [totals]:
    [{'debit': ..., 'credit': ..., 'balance': ...}]. *)
Record amounts := {
  a_debit : float;
  a_credit : float;
  a_balance : float;
}.

Definition zero_amounts : amounts :=
  {| a_debit := 0%float; a_credit := 0%float; a_balance := 0%float |}.

(** The hierarchy keys of a row. *)
Record hierarchy_info := {
  group_id : option Z;
  group_name : option string;
  level : Z;
}.

(** One element of [result['accounts']]. *)
Record tb_row := {
  row_account_id : Z;
  row_code : string;
  row_name : string;
  row_account_type : string;
  row_internal_group : string;
  row_debit : float;
  row_credit : float;
  row_balance : float;
  row_hierarchy : option hierarchy_info;
}.

(** [{'accounts': rows, 'totals': totals, 'currency': ...}] *)
Record trial_balance := {
  tb_accounts : list tb_row;
  tb_totals : amounts;
  tb_currency : string;
}.

Definition _parse_date (date_str : date_param) : result (option date) :=
  match date_str with
  | DateAbsent => Ok None
  | DateValue d => Ok (Some d)
  | DateInvalid s =>
      Raise (Exn UserError ("Invalid date format: " ++ s ++ ". Use YYYY-MM-DD"))
  end.

(** [len(code.split('.'))] *)
Fixpoint dot_segments (code : string) : Z :=
  match code with
  | EmptyString => 1
  | String c r => if Ascii.eqb c "." then 1 + dot_segments r else dot_segments r
  end.

(** The dict comprehension over the fetched rows: a later row with the
    same account id replaces an earlier one. *)
Definition totals_by_account_of (rows : list (Z * (float * float * float)))
    : gmap Z amounts :=
  fold_left
    (fun m row =>
       let '(id, (d, c, b)) := row in
       <[id := {| a_debit := d; a_credit := c; a_balance := b |}]> m)
    rows ∅.

(** The amounts of an account: its entry in [totals_by_account], or
    zeros. *)
Definition amounts_of (totals_by_account : gmap Z amounts)
    (account : account_account) : amounts :=
  default zero_amounts (totals_by_account !! account_id account).

(** The row of an account. *)
Definition make_row (hierarchy : bool) (account : account_account)
    (amounts_ : amounts) : tb_row := {|
  row_account_id := account_id account;
  row_code := account_code account;
  row_name := account_name account;
  row_account_type := account_type account;
  row_internal_group := internal_group account;
  row_debit := a_debit amounts_;
  row_credit := a_credit amounts_;
  row_balance := a_balance amounts_;
  (* Add hierarchy info *)
  row_hierarchy :=
    if hierarchy then
      Some {| group_id := fst <$> account_group account;
              group_name := snd <$> account_group account;
              level := if contains "." (account_code account)
                       then dot_segments (account_code account)
                       else 1 |}
    else None;
|}.

(** The loop of [_get_trial_balance] over the accounts, from the rows
    and totals accumulated so far. *)
Fixpoint build_rows (totals_by_account : gmap Z amounts)
    (hierarchy include_zero : bool)
    (accounts : list account_account)
    (rows : list tb_row) (totals : amounts) : list tb_row * amounts :=
  match accounts with
  | [] => (rows, totals)
  | account :: rest =>
      let amounts_ := amounts_of totals_by_account account in
      (* Skip zero balances if not requested *)
      if negb include_zero && (a_balance amounts_ =? 0)%float then
        build_rows totals_by_account hierarchy include_zero rest rows totals
      else
        let row := make_row hierarchy account amounts_ in
        build_rows totals_by_account hierarchy include_zero rest
          (rows ++ [row])%list
          {| a_debit := (a_debit totals + a_debit amounts_)%float;
             a_credit := (a_credit totals + a_credit amounts_)%float;
             a_balance := (a_balance totals + a_balance amounts_)%float |}
  end.

(** The accounts [Account.search(domain, order='code')] returns. *)
Definition search_accounts (E : env) (company_id : Z)
    (account_types : list string) : list account_account :=
  List.filter (fun a =>
            existsb (Z.eqb company_id) (account_company_ids a)
            && match account_types with
               | [] => true
               | _ => existsb (String.eqb (account_type a)) account_types
               end)
         (accounts E).

(** Build trial balance data. *)
Definition _get_trial_balance (E : env) (company_id : Z)
    (date_from date_to : date) (hierarchy : bool)
    (account_types : list string) (include_zero : bool) : trial_balance :=
  (* Get accounts for company *)
  let accounts := search_accounts E company_id account_types in
  (* Get move line totals per account *)
  let totals_by_account :=
    totals_by_account_of (aml_totals E company_id date_from date_to) in
  (* Build result rows *)
  let '(rows, totals) :=
    build_rows totals_by_account hierarchy include_zero accounts
      [] zero_amounts in
  {| tb_accounts := rows;
     tb_totals := totals;
     tb_currency := currency_name E |}.

(** The success dict of [execute]. *)
Record tb_success := {
  r_data : trial_balance;
  r_company : string;
  r_date_from : string;
  r_date_to : string;
  r_account_count : Z;
  r_execution_time_ms : Z;
}.

(** The code inside the [try] of [execute]. *)
Definition execute_body (E : env) (params : tb_params) : M tb_success :=
  (* Validate and parse parameters *)
  let company_id := or_id (t_company_id params) (env_company_id E) in
  company <-
    match companies E !! company_id with
    | Some company => ret company
    | None => raise (Exn UserError ("Company not found: " ++ str_int company_id))
    end ;;
  (* Check tool is enabled *)
  config <- McpFinanceConfig.get_config E (Some company_id) ;;
  raise_if (negb (enable_trial_balance config))
    (Exn AccessError "Trial Balance tool is disabled for this company") ;;;
  (* Parse dates *)
  date_from <- lift (_parse_date (t_date_from params)) ;;
  date_to <- lift (_parse_date (t_date_to params)) ;;
  let date_to := default (today E) date_to in
  (* Default to fiscal year start *)
  date_from <-
    match date_from with
    | Some d => ret d
    | None => lift (new_date (year date_to) 1 1)
    end ;;
  raise_if (negb (date_le date_from date_to))
    (Exn UserError "date_from must be before date_to") ;;;
  let hierarchy := default true (t_hierarchy params) in
  let account_types := default [] (t_account_types params) in
  let include_zero := default false (t_include_zero params) in
  (* Build query *)
  let result :=
    _get_trial_balance E company_id date_from date_to
      hierarchy account_types include_zero in
  let execution_time := elapsed_ms E in
  (* Log execution *)
  (if log_all_queries config then
     McpFinanceToolExecution.log_execution E "get_trial_balance" company_id
       (TbParams params)
       (Some (TbSummary (Z.of_nat (length (tb_accounts result)))))
       None execution_time st_executed ;;;
     ret tt
   else ret tt) ;;;
  ret {|
    r_data := result;
    r_company := company_name company;
    r_date_from := str_date date_from;
    r_date_to := str_date date_to;
    r_account_count := Z.of_nat (length (tb_accounts result));
    r_execution_time_ms := execution_time;
  |}.

(** Execute trial balance query. *)
Definition execute (E : env) (params : tb_params) : M (envelope tb_success) :=
  tool_boundary E "get_trial_balance" (t_company_id params)
    (TbParams params) (execute_body E params).

(** Return MCP tool schema for registration. *)
Definition get_tool_schema : json :=
  JObj
    [ ("name", JStr "get_trial_balance");
      ("description",
       JStr "Retrieve trial balance for a company with optional hierarchy and filters. Returns account codes, names, debit/credit totals, and running balances.");
      ("inputSchema",
       JObj
         [ ("type", JStr "object");
           ("properties",
            JObj
              [ ("company_id",
                 JObj
                   [ ("type", JStr "integer");
                     ("description",
                      JStr "Company ID (optional, defaults to current company)") ]);
                ("date_from",
                 JObj
                   [ ("type", JStr "string");
                     ("format", JStr "date");
                     ("description",
                      JStr "Start date (YYYY-MM-DD). Defaults to fiscal year start.") ]);
                ("date_to",
                 JObj
                   [ ("type", JStr "string");
                     ("format", JStr "date");
                     ("description",
                      JStr "End date (YYYY-MM-DD). Defaults to today.") ]);
                ("hierarchy",
                 JObj
                   [ ("type", JStr "boolean");
                     ("default", JBool true);
                     ("description", JStr "Include account hierarchy levels") ]);
                ("account_types",
                 JObj
                   [ ("type", JStr "array");
                     ("items", JObj [ ("type", JStr "string") ]);
                     ("description",
                      JStr "Filter by account types (asset, liability, equity, income, expense)") ]);
                ("include_zero",
                 JObj
                   [ ("type", JStr "boolean");
                     ("default", JBool false);
                     ("description", JStr "Include accounts with zero balance") ]) ]);
           ("required", JList []) ]) ].

End TrialBalanceTool.

(* ===================================================================== *)
(** * controllers/mcp_finance_controller.py                               *)
(* ===================================================================== *)

Module McpFinanceController.

(** [res.users], the fields the controller and the tools read: the keys
    of [api_key_ids], the company of the user, and whether the user is in
    the accounting-manager group. *)
Record res_users := {
  user_id : Z;
  api_keys : list string;
  user_company_id : Z;
  user_account_manager : bool;
}.

(** A JSON object of parameters, given by what the [params.get] calls of
    each tool read from it. *)
Record params_object := {
  as_tb : tb_params;
  as_je : je_params;
  as_bir : bir_params;
}.

(** The object [{}]. *)
Definition empty_object : params_object := {|
  as_tb := {| t_company_id := None; t_date_from := DateAbsent;
              t_date_to := DateAbsent; t_hierarchy := None;
              t_account_types := None; t_include_zero := None |};
  as_je := {| p_company_id := None; p_journal_code := None;
              p_date := DateAbsent; p_ref := None; p_lines := None;
              p_auto_post := None |};
  as_bir := {| b_company_id := None; b_period := None;
               b_vendor_ids := None; b_output_format := None |};
|}.

(** [request]: the [Authorization] header when there is one, the JSON
    object [request.jsonrequest], and the value of its [params] key when
    it has one. *)
Record http_request := {
  authorization : option string;
  jsonrequest : params_object;
  jsonrequest_params : option params_object;
}.

(** The [Response] that [_json_response] builds: the status and the data
    that is dumped as JSON. *)
Record response (A : Type) := {
  status : Z;
  data : A;
}.
Arguments status {A} r.
Arguments data {A} r.

(** Return JSON response. *)
Definition _json_response {A} (data_ : A) (status_ : Z) : response A :=
  {| status := status_; data := data_ |}.

(** The dict [{'error': ...}], or another dict. *)
Inductive or_error (A : Type) :=
  | Error (error : string)
  | Reply (a : A).
Arguments Error {A} error.
Arguments Reply {A} a.

(** The dict an [execute] returned, by the tool it comes from. *)
Inductive tool_result :=
  | TbResult (r : envelope TrialBalanceTool.tb_success)
  | JeResult (r : envelope JournalEntryTool.je_success)
  | BirResult (r : envelope BirComplianceTool.bir_success).

(** The models the tools are implemented by. *)
Inductive tool_model :=
  | trial_balance_model     (** [mcp.finance.tool.trial_balance] *)
  | journal_entry_model     (** [mcp.finance.tool.journal_entry] *)
  | bir_compliance_model.   (** [mcp.finance.tool.bir_compliance] *)

(** Map tool names to implementations *)
Definition tool_map (tool_name : string) : option tool_model :=
  if String.eqb tool_name "get_trial_balance" then Some trial_balance_model
  else if String.eqb tool_name "create_journal_entry"
  then Some journal_entry_model
  else if String.eqb tool_name "generate_bir_2307"
  then Some bir_compliance_model
  else None.

(** [env.sudo().with_user(user)]: the environment of [user], whose
    company is the company of the user. *)
Definition with_user (E : env) (user : res_users) : env := {|
  env_company_id := user_company_id user;
  env_uid := user_id user;
  user_is_account_manager := user_account_manager user;
  companies := companies E;
  journals := journals E;
  accounts := accounts E;
  partners := partners E;
  ledger_moves := ledger_moves E;
  tools := tools E;
  move_name := move_name E;
  aml_totals := aml_totals E;
  today := today E;
  elapsed_ms := elapsed_ms E;
  currency_name := currency_name E;
|}.

Section Controller.

(** [request.env], and the users in the order [search] returns them. *)
Variable E : env.
Variable users : list res_users.

(** The columns of the registry of tools. *)
Variable columns : Z -> McpFinanceTool.tool_columns.

(** The libraries of the BIR tool. *)
Variable xlsxwriter : option (BirComplianceTool.worksheet -> string).
Variable b64encode : string -> string.

(** Check MCP authentication: the user, or the error. *)
Definition _check_auth (request : http_request) : res_users + string :=
  let auth_header := default "" (authorization request) in
  if negb (String.prefix "Bearer " auth_header) then
    inr "Missing or invalid Authorization header"
  else
    let api_key := str_drop 7 auth_header in  (* Remove 'Bearer ' prefix *)
    (* Validate against user API keys *)
    match find (fun u => existsb (String.eqb api_key) (api_keys u)) users with
    | None => inr "Invalid API key"
    | Some user => inl user
    end.

(** Health check endpoint. *)
Definition health : response (list (string * string)) :=
  _json_response
    [ ("status", "healthy");
      ("module", "ipai_mcp_finance");
      ("version", "18.0.1.0.0") ]
    200.

(** List available finance tools. *)
Definition list_tools (request : http_request)
    : M (response (or_error (list McpFinanceTool.available_tool))) :=
  match _check_auth request with
  | inr error => ret (_json_response (Error error) 401)
  | inl user =>
      tools <- McpFinanceTool.list_available_tools columns
                 (with_user E user) None ;;
      ret (_json_response (Reply tools) 200)
  end.

(** [request.env[model].get_tool_schema()] *)
Definition schema_of (model : tool_model) : json :=
  match model with
  | trial_balance_model => TrialBalanceTool.get_tool_schema
  | journal_entry_model => JournalEntryTool.get_tool_schema
  | bir_compliance_model => BirComplianceTool.get_tool_schema
  end.

(** Get schema for a specific tool. *)
Definition tool_schema (request : http_request) (tool_name : string)
    : response (or_error json) :=
  match _check_auth request with
  | inr error => _json_response (Error error) 401
  | inl user =>
      match tool_map tool_name with
      | None => _json_response (Error ("Unknown tool: " ++ tool_name)) 404
      | Some model => _json_response (Reply (schema_of model)) 200
      end
  end.

(** [request.env[model].sudo().with_user(user).execute(params)] *)
Definition execute_as (user : res_users) (model : tool_model)
    (params : params_object) : M tool_result :=
  match model with
  | trial_balance_model =>
      r <- TrialBalanceTool.execute (with_user E user) (as_tb params) ;;
      ret (TbResult r)
  | journal_entry_model =>
      r <- JournalEntryTool.execute (with_user E user) (as_je params) ;;
      ret (JeResult r)
  | bir_compliance_model =>
      r <- BirComplianceTool.execute xlsxwriter b64encode
             (with_user E user) (as_bir params) ;;
      ret (BirResult r)
  end.

(** Execute a finance tool. *)
Definition execute_tool (request : http_request) (tool_name : string)
    : M (or_error tool_result) :=
  match _check_auth request with
  | inr error => ret (Error error)
  | inl user =>
      match tool_map tool_name with
      | None => ret (Error ("Unknown tool: " ++ tool_name))
      | Some model =>
          (* Get parameters from request *)
          let params := default empty_object (jsonrequest_params request) in
          (* Execute tool *)
          result <- execute_as user model params ;;
          ret (Reply result)
      end
  end.

(** Direct endpoint for trial balance. *)
Definition trial_balance (request : http_request)
    : M (or_error tool_result) :=
  match _check_auth request with
  | inr error => ret (Error error)
  | inl user =>
      let params := jsonrequest request in
      result <- execute_as user trial_balance_model params ;;
      ret (Reply result)
  end.

(** Direct endpoint for journal entry creation. *)
Definition journal_entry (request : http_request)
    : M (or_error tool_result) :=
  match _check_auth request with
  | inr error => ret (Error error)
  | inl user =>
      let params := jsonrequest request in
      result <- execute_as user journal_entry_model params ;;
      ret (Reply result)
  end.

(** Direct endpoint for BIR 2307 generation. *)
Definition bir_2307 (request : http_request)
    : M (or_error tool_result) :=
  match _check_auth request with
  | inr error => ret (Error error)
  | inl user =>
      let params := jsonrequest request in
      result <- execute_as user bir_compliance_model params ;;
      ret (Reply result)
  end.

End Controller.

End McpFinanceController.

(* ===================================================================== *)
(** * The execution log and the journal entry tool on any request         *)
(* ===================================================================== *)

(** The modules above read a request through the typed records
    [je_params], [bir_params] and [tb_params]: a date is given by what
    [_parse_date] makes of it, an amount by what [float] makes of it, a
    key with the value [None] reads as a key that is absent, and an
    insert into the execution log is taken to succeed. This module embeds
    [log_execution], the [try] of [execute] and the journal entry tool
    once more without these assumptions, for a dict of JSON values in
    which the date may also be a date object:
    - a date may be a [datetime.date] object, which [_parse_date] returns
      as it is and which [json.dumps] refuses;
    - an amount of a line may be a value that [float] refuses;
    - the dict may have keys that the typed records do not show;
    - the database refuses a record of the log whose company is in no
      row of [res.company] ([company_id] is a required many-to-one
      field).
    The functions that do not depend on these ([_check_period_lock],
    [_validate_balance], the creation and the posting of the move, the
    approval decision) are those of [JournalEntryTool]. *)
Module AnyRequest.

(** ** Requests *)

(** The [date] of a request. *)
Inductive date_arg :=
  (** [None], or a string, given by what [strptime] makes of it *)
  | DateText (p : date_param)
  (** a [datetime.date] *)
  | DateObject (d : date).

(** The exceptions of [float(v)]. *)
Inductive float_error :=
  | FloatTypeError       (** [v] is no number and no string: [None], a list *)
  | FloatValueError      (** [v] is a string that is no number *)
  | FloatOverflowError.  (** [v] is an [int] beyond the range of [float] *)

Definition float_exn (kind : float_error) (msg : string) : exn :=
  match kind with
  | FloatTypeError => Exn TypeError msg
  | FloatValueError => Exn ValueError msg
  | FloatOverflowError => Exn (OtherError "OverflowError") msg
  end.

(** The [debit] or the [credit] of a line, a JSON value. *)
Inductive amount_arg :=
  (** a number, or a string that [float] reads: [float(v)] is [x] *)
  | AmountValue (x : float)
  (** a value that [float] refuses ([None], a string that is no number,
      a list, a dict, an [int] beyond the range of [float]), with the
      message of its exception *)
  | AmountRefused (kind : float_error) (msg : string).

(** One element of [params['lines']]; [None] is an absent key. *)
Record line_arg := {
  ln_account : option ref_value;
  ln_debit : option amount_arg;
  ln_credit : option amount_arg;
  ln_name : option string;
  ln_label : option string;
  ln_partner : option ref_value;
  ln_analytic : option analytic_value;
}.

(** The dict [params] of [create_journal_entry]. *)
Record je_args := {
  q_company_id : option Z;
  q_journal_code : option string;
  q_date : date_arg;
  q_ref : option string;
  (** [None]: absent or not a list *)
  q_lines : option (list line_arg);
  q_auto_post : option bool;
  (** the dict has a key that the fields above do not show: a key that
      the tool does not read, a key with the value [None], or the key
      [date] with the value ['']; its value is a JSON value *)
  q_other_keys : bool;
}.

(** ** The parameters in the execution log *)

(** The request as the typed records give it: a date object as its date,
    an amount that [float] refuses as an absent key. This is what a
    record of the log holds for the JSON text of the dict. *)
Definition line_read (line : line_arg) : je_line := {|
  l_account := ln_account line;
  l_debit :=
    match ln_debit line with Some (AmountValue x) => Some x | _ => None end;
  l_credit :=
    match ln_credit line with Some (AmountValue x) => Some x | _ => None end;
  l_name := ln_name line;
  l_label := ln_label line;
  l_partner := ln_partner line;
  l_analytic := ln_analytic line;
|}.

Definition params_read (params : je_args) : je_params := {|
  p_company_id := q_company_id params;
  p_journal_code := q_journal_code params;
  p_date :=
    match q_date params with DateText p => p | DateObject d => DateValue d end;
  p_ref := q_ref params;
  p_lines := map line_read <$> q_lines params;
  p_auto_post := q_auto_post params;
|}.

(** What [log_execution] does with the dict [parameters]. *)
Record dict_arg := {
  (** [bool(parameters)] *)
  dict_bool : bool;
  (** [json.dumps(parameters)]: the text, given by the parameters it
      encodes, or the exception *)
  dict_dumps : result tool_params;
}.

(** The dict of a request to the journal entry tool. [json.dumps] has no
    encoding for a [datetime.date]. *)
Definition je_dict (params : je_args) : dict_arg := {|
  dict_bool :=
    params_truthy (JeParams (params_read params)) || q_other_keys params;
  dict_dumps :=
    match q_date params with
    | DateObject _ =>
        Raise (Exn TypeError "Object of type date is not JSON serializable")
    | DateText _ => Ok (JeParams (params_read params))
    end;
|}.

(** The dict of a request that the typed records give in full. *)
Definition typed_dict (params : tool_params) : dict_arg := {|
  dict_bool := params_truthy params;
  dict_dumps := Ok params;
|}.

Section Database.

(** The exception of the database for an insert into the execution log
    with a company id that is in no row of [res.company]. *)
Variable integrity_error : Z -> exn.

(** ** models/mcp_finance_tool.py *)

(** [self.create(vals)] on the execution log *)
Definition create (E : env) (r : execution) : M execution :=
  match companies E !! ex_company_id r with
  | Some _ => McpFinanceToolExecution.create r
  | None => raise (integrity_error (ex_company_id r))
  end.

(** Create execution log entry. *)
Definition log_execution (E : env) (tool_name : string) (company_id : Z)
    (parameters : dict_arg) (result : option result_summary)
    (error : option string) (execution_time_ms : Z)
    (state : execution_state) : M (option execution) :=
  match McpFinanceToolExecution.search_tool E tool_name with
  | None => ret None
  | Some tool =>
      text <- lift (if dict_bool parameters
                    then (text <~ dict_dumps parameters ;; Ok (Some text))
                    else Ok None) ;;
      r <- create E {|
        ex_tool_id := tool_rec_id tool;
        ex_company_id := company_id;
        ex_user_id := env_uid E;
        ex_parameters := text;
        ex_result := result;
        ex_error_message := error;
        ex_execution_time_ms := execution_time_ms;
        ex_state := if truthy_ostr error then st_failed else state;
      |} ;;
      ret (Some r)
  end.

(** ** The boundary of a tool *)

(** The [try: ... except Exception as e: ...] of [execute]. *)
Definition tool_boundary {A} (E : env) (tool_name : string)
    (company_param : option Z) (params : dict_arg)
    (body : M A) : M (envelope A) :=
  try_except
    (a <- body ;; ret (Success a))
    (fun e =>
       log_execution E tool_name
         (or_id company_param (env_company_id E))
         params None (Some (str_exn e)) (elapsed_ms E) st_executed ;;;
       ret (Failure (str_exn e) (type_name e))).

(** ** tools/journal_entry.py *)

(** Parse date string to date object. *)
Definition _parse_date (date_str : date_arg) : result (option date) :=
  match date_str with
  | DateText p => JournalEntryTool._parse_date p
  | DateObject d => Ok (Some d)
  end.

(** [float(line.get(key, 0))] *)
Definition float_of (v : option amount_arg) : result float :=
  match v with
  | None => Ok 0%float
  | Some (AmountValue x) => Ok x
  | Some (AmountRefused kind msg) => Raise (float_exn kind msg)
  end.

(** The body of the loop of [_build_move_lines] for line number [i]
    (counted from 0). *)
Definition build_move_line (E : env) (company_id : Z) (i : Z) (line : line_arg)
    : result move_line :=
  let ln := "Line " ++ str_int (i + 1) in
  (* Validate account *)
  if negb (JournalEntryTool.truthy_ref (ln_account line)) then
    Raise (Exn UserError (ln ++ ": account is required"))
  else
  match ln_account line with
  | None => Raise (Exn UserError (ln ++ ": account is required"))
  | Some account_ref =>
  match JournalEntryTool.find_account E company_id account_ref with
  | None =>
      Raise (Exn UserError
               (ln ++ ": account not found: "
                ++ JournalEntryTool.str_ref account_ref))
  | Some account =>
      (* Get amounts *)
      debit <~ float_of (ln_debit line) ;;
      credit <~ float_of (ln_credit line) ;;
      if (debit <? 0)%float || (credit <? 0)%float then
        Raise (Exn UserError (ln ++ ": debit and credit must be non-negative"))
      else if (0 <? debit)%float && (0 <? credit)%float then
        Raise (Exn UserError
                 (ln ++ ": cannot have both debit and credit on same line"))
      else if (debit =? 0)%float && (credit =? 0)%float then
        Raise (Exn UserError
                 (ln ++ ": must have either debit or credit amount"))
      else
        Ok {|
          ml_account_id := account_id account;
          ml_name := or_str (ln_name line) (or_str (ln_label line) "/");
          ml_debit := debit;
          ml_credit := credit;
          (* Optional partner *)
          ml_partner_id :=
            match ln_partner line with
            | Some ref =>
                if JournalEntryTool.truthy_ref (ln_partner line)
                then partner_id <$> JournalEntryTool.find_partner E ref
                else None
            | None => None
            end;
          (* Optional analytic *)
          ml_analytic_distribution :=
            match ln_analytic line with
            | Some (AnalyticDict ((_ :: _) as d)) => Some d
            | Some (AnalyticInt n) =>
                if n =? 0 then None else Some [(str_int n, 100)]
            | _ => None
            end;
        |}
  end
  end.

Fixpoint build_from (E : env) (company_id : Z) (i : Z) (lines : list line_arg)
    : result (list move_line) :=
  match lines with
  | [] => Ok []
  | line :: rest =>
      move_line <~ build_move_line E company_id i line ;;
      move_lines <~ build_from E company_id (i + 1) rest ;;
      Ok (move_line :: move_lines)
  end.

(** Build and validate move line values. *)
Definition _build_move_lines (E : env) (lines : list line_arg) (company_id : Z)
    : result (list move_line) :=
  build_from E company_id 0 lines.

(** The code inside the [try] of [execute]. *)
Definition execute_body (E : env) (params : je_args)
    : M JournalEntryTool.je_success :=
  (* Validate parameters *)
  let company_id := or_id (q_company_id params) (env_company_id E) in
  company <-
    match companies E !! company_id with
    | Some company => ret company
    | None => raise (Exn UserError ("Company not found: " ++ str_int company_id))
    end ;;
  (* Check tool is enabled *)
  config <- McpFinanceConfig.get_config E (Some company_id) ;;
  raise_if (negb (enable_journal_entry config))
    (Exn AccessError "Journal Entry tool is disabled for this company") ;;;
  (* Validate required fields *)
  code <- JournalEntryTool.required_str (q_journal_code params)
            "journal_code is required" ;;
  parsed <- lift (_parse_date (q_date params)) ;;
  je_date <-
    match parsed with
    | Some d => ret d
    | None => raise (Exn UserError "date is required (YYYY-MM-DD)")
    end ;;
  ref <- JournalEntryTool.required_str (q_ref params)
           "ref (reference/memo) is required" ;;
  lines <-
    match q_lines params with
    | Some ((_ :: _) as lines) => ret lines
    | _ => raise (Exn UserError "lines is required and must be a list")
    end ;;
  let auto_post := default false (q_auto_post params) in
  (* Check period lock *)
  lift (JournalEntryTool._check_period_lock E company_id je_date) ;;;
  (* Find journal *)
  journal <-
    match find (fun j => String.eqb (journal_code j) code
                         && (journal_company_id j =? company_id))
               (journals E) with
    | Some journal => ret journal
    | None => raise (Exn UserError ("Journal not found: " ++ code))
    end ;;
  (* Validate and build lines *)
  move_lines <- lift (_build_move_lines E lines company_id) ;;
  (* Check balance *)
  lift (JournalEntryTool._validate_balance move_lines) ;;;
  (* Calculate total for approval threshold *)
  let total_amount := py_sum (map ml_debit move_lines) in
  (* Determine if approval required *)
  let requires_approval :=
    JournalEntryTool.requires_approval_of config total_amount in
  (* Force draft if approval required *)
  let auto_post := if requires_approval then false else auto_post in
  (* Create move *)
  move <- JournalEntryTool.create_move company_id (journal_id journal)
            je_date ref move_lines ;;
  (* Auto-post if allowed *)
  move <- (if auto_post && negb requires_approval
           then JournalEntryTool.action_post move else ret move) ;;
  let execution_time := elapsed_ms E in
  (* Log execution *)
  let state := if requires_approval then st_pending else st_executed in
  log_execution E "create_journal_entry" company_id
    (je_dict params)
    (Some (JeSummary (move_id move) (move_name E (move_id move)) total_amount))
    None execution_time state ;;;
  ret {|
    JournalEntryTool.r_move_id := move_id move;
    JournalEntryTool.r_move_name := move_name E (move_id move);
    JournalEntryTool.r_state := mv_state move;
    JournalEntryTool.r_requires_approval := requires_approval;
    JournalEntryTool.r_total_amount := total_amount;
    JournalEntryTool.r_company := company_name company;
    JournalEntryTool.r_journal := journal_name journal;
    JournalEntryTool.r_line_count := Z.of_nat (length move_lines);
    JournalEntryTool.r_execution_time_ms := execution_time;
  |}.

(** Execute journal entry creation. *)
Definition execute (E : env) (params : je_args)
    : M (envelope JournalEntryTool.je_success) :=
  tool_boundary E "create_journal_entry" (q_company_id params)
    (je_dict params) (execute_body E params).

End Database.

End AnyRequest.

(* ===================================================================== *)
(** * Definitions used to state the properties                            *)
(* ===================================================================== *)

(** ** The rule table of the specification, for the Alpha Tax Code *)

(** Follows the specification: an ordered table of keywords and codes,
    read by a generic classifier. *)
Definition ATC_RULES : list (list string * string) :=
  [ (["PROFESSIONAL"; "WC010"], "WC010");
    (["RENTAL"; "WC020"], "WC020");
    (["SERVICE"; "WC100"], "WC100");
    (["GOODS"; "WC120"], "WC120") ].

Definition ATC_DEFAULT : string := "WC010".

(** The code of the first rule one of whose keywords occurs in [name]. *)
Fixpoint classify (rules : list (list string * string)) (default : string)
    (name : string) : string :=
  match rules with
  | [] => default
  | (keywords, code) :: rest =>
      if existsb (fun k => contains k name) keywords then code
      else classify rest default name
  end.

(** ** Sequences of appends to the execution log *)

(** The arguments of one call of [log_execution]. *)
Record log_call := {
  lc_tool_name : string;
  lc_company_id : Z;
  lc_parameters : tool_params;
  lc_result : option result_summary;
  lc_error : option string;
  lc_execution_time_ms : Z;
  lc_state : execution_state;
}.

Definition do_log (E : env) (c : log_call) : M (option execution) :=
  McpFinanceToolExecution.log_execution E (lc_tool_name c) (lc_company_id c)
    (lc_parameters c) (lc_result c) (lc_error c) (lc_execution_time_ms c)
    (lc_state c).

(** The store after the calls, made one after the other. *)
Definition run_log (E : env) (calls : list log_call) (s : db) : db :=
  fold_left (fun s c => snd (do_log E c s)) calls s.

(** A record with an error message is in state [failed]. *)
Definition error_implies_failed (r : execution) : Prop :=
  truthy_ostr (ex_error_message r) = true -> ex_state r = st_failed.

(** The store with one more record in the execution log. *)
Definition with_execution (s : db) (r : execution) : db :=
  {| configs := configs s;
     moves := moves s;
     executions := (executions s ++ [r])%list |}.

(** The empty store. *)
Definition empty_db : db :=
  {| configs := ∅; moves := []; executions := [] |}.

(** ** A small ledger to evaluate the tools on *)

Definition demo_company : res_company := {|
  company_name := "Demo Co";
  company_vat := Some "123456789";
  fiscalyear_lock_date := Some (mkdate 2024 12 31);
  period_lock_date := Some (mkdate 2025 3 31);
|}.

Definition demo_account (id : Z) (code name type : string)
    : account_account := {|
  account_id := id;
  account_code := code;
  account_name := name;
  account_company_ids := [1];
  account_type := type;
  internal_group := type;
  account_group := None;
|}.

Definition demo_tools : list mcp_finance_tool :=
  [ {| tool_rec_id := 1; technical_name := "get_trial_balance" |};
    {| tool_rec_id := 2; technical_name := "create_journal_entry" |};
    {| tool_rec_id := 3; technical_name := "generate_bir_2307" |} ].

(** One company with both lock dates set, one journal, three accounts,
    the three tools registered; [manager] says whether the user is in
    the accounting-manager group. *)
Definition demo_env (manager : bool) : env := {|
  env_company_id := 1;
  env_uid := 2;
  user_is_account_manager := manager;
  companies := {[ 1 := demo_company ]};
  journals :=
    [ {| journal_id := 1; journal_code := "MISC";
         journal_company_id := 1; journal_name := "Miscellaneous" |} ];
  accounts :=
    [ demo_account 1 "1010" "Cash" "asset";
      demo_account 2 "2010" "Payables" "liability";
      demo_account 3 "6010" "Expenses" "expense" ];
  partners := [];
  ledger_moves := [];
  tools := demo_tools;
  move_name := fun id => "MISC/" ++ str_int id;
  aml_totals := fun _ _ _ => [];
  today := mkdate 2025 6 30;
  elapsed_ms := 12;
  currency_name := "PHP";
|}.

Definition no_je_params : je_params := {|
  p_company_id := None;
  p_journal_code := None;
  p_date := DateAbsent;
  p_ref := None;
  p_lines := None;
  p_auto_post := None;
|}.

(** ** The trial balance *)

(** Whether [_get_trial_balance] returns a row for an account with these
    amounts. *)
Definition row_kept (include_zero : bool) (a : TrialBalanceTool.amounts)
    : bool :=
  include_zero || negb (TrialBalanceTool.a_balance a =? 0)%float.

(** The accounts, of those selected, that get a row. *)
Definition kept_accounts (totals_by_account : gmap Z TrialBalanceTool.amounts)
    (include_zero : bool) (accounts : list account_account)
    : list account_account :=
  List.filter
    (fun a => row_kept include_zero
                (TrialBalanceTool.amounts_of totals_by_account a))
    accounts.

Definition row_of (totals_by_account : gmap Z TrialBalanceTool.amounts)
    (hierarchy : bool) (a : account_account) : TrialBalanceTool.tb_row :=
  TrialBalanceTool.make_row hierarchy a
    (TrialBalanceTool.amounts_of totals_by_account a).

(** The small ledger with posted lines on its three accounts: the debits
    and credits on Cash cancel out. *)
Definition demo_tb_env : env := {|
  env_company_id := 1;
  env_uid := 2;
  user_is_account_manager := false;
  companies := {[ 1 := demo_company ]};
  journals := journals (demo_env false);
  accounts := accounts (demo_env false);
  partners := [];
  ledger_moves := [];
  tools := demo_tools;
  move_name := fun id => "MISC/" ++ str_int id;
  aml_totals := fun _ _ _ =>
    [ (1, (100, 100, 0)%float);
      (2, (0, 50, -50)%float);
      (3, (50, 0, 50)%float) ];
  today := mkdate 2025 6 30;
  elapsed_ms := 12;
  currency_name := "PHP";
|}.

(** ** Withholding lines *)

Definition demo_tax (name description : option string) : account_tax :=
  {| tax_name := name;
     tax_description := description;
     tax_amount := -2%float |}.

(** A line whose tax is described as a withholding tax. *)
Definition line_by_description : bill_line :=
  {| tax_line_id := Some (demo_tax (Some "2% Professional")
                                   (Some "Withholding Tax 2%"));
     balance := -20%float |}.

(** A line whose tax is only named as an expanded withholding tax. *)
Definition line_by_name : bill_line :=
  {| tax_line_id := Some (demo_tax (Some "EWT 1% Goods") None);
     balance := -10%float |}.

Definition demo_vendor : res_partner := {|
  partner_id := 7;
  partner_ref := None;
  partner_name := Some "ACME Supplies";
  partner_vat := Some "123-456-789";
  street := Some "1 Main St";
  street2 := None;
  city := Some "Makati";
  state_name := None;
  zip := Some "1200";
|}.

Definition demo_bill (lines : list bill_line) : bill := {|
  bill_company_id := 1;
  bill_move_type := "in_invoice";
  bill_state := "posted";
  invoice_date := Some (mkdate 2025 11 15);
  bill_partner := demo_vendor;
  bill_name := "BILL/2025/0001";
  line_ids := lines;
|}.

(** The small ledger with one posted vendor bill of two lines, the first
    taken by its description, the second only named as a withholding
    tax. *)
Definition demo_bir_env : env := {|
  env_company_id := 1;
  env_uid := 2;
  user_is_account_manager := false;
  companies := {[ 1 := demo_company ]};
  journals := [];
  accounts := [];
  partners := [demo_vendor];
  ledger_moves := [demo_bill [line_by_description; line_by_name]];
  tools := demo_tools;
  move_name := fun id => "BILL/" ++ str_int id;
  aml_totals := fun _ _ _ => [];
  today := mkdate 2026 1 5;
  elapsed_ms := 12;
  currency_name := "PHP";
|}.

(** ** Requests to the journal entry tool *)

(** A configuration with the journal entry tool enabled. *)
Definition demo_config (require_approval : bool) (max_amount : float)
    : mcp_finance_config := {|
  enable_trial_balance := true;
  enable_journal_entry := true;
  enable_month_end := false;
  enable_bir_tools := true;
  enable_aging_report := true;
  require_approval_je := require_approval;
  max_je_amount := max_amount;
  log_all_queries := true;
|}.

(** The store with this configuration for company 1, no move and an
    empty execution log. *)
Definition demo_db (config : mcp_finance_config) : db :=
  {| configs := {[ 1 := config ]}; moves := []; executions := [] |}.

Definition demo_line (account : string) (debit credit : float) : je_line := {|
  l_account := Some (RefStr account);
  l_debit := Some debit;
  l_credit := Some credit;
  l_name := None;
  l_label := None;
  l_partner := None;
  l_analytic := None;
|}.

(** A request to the MISC journal with [auto_post=true]. *)
Definition demo_request (d : date) (lines : list je_line) : je_params := {|
  p_company_id := None;
  p_journal_code := Some "MISC";
  p_date := DateValue d;
  p_ref := Some "Accrual";
  p_lines := Some lines;
  p_auto_post := Some true;
|}.

(** A balanced entry of 1000. *)
Definition balanced_lines : list je_line :=
  [ demo_line "6010" 1000 0; demo_line "2010" 0 1000 ].

(** What the loop of [_build_move_lines] checks of the amounts of a
    line. *)
Definition amounts_rejected (debit credit : float) : bool :=
  (debit <? 0)%float || (credit <? 0)%float
  || (0 <? debit)%float && (0 <? credit)%float
  || (debit =? 0)%float && (credit =? 0)%float.

(** Exactly one of the two amounts is strictly positive. *)
Definition one_side_positive (debit credit : float) : bool :=
  xorb (0 <? debit)%float (0 <? credit)%float.

(** [x] is a number: not NaN. *)
Definition is_number (x : float) : bool := (x =? x)%float.

(** ** The boundary of a tool *)

(** The call of [log_execution] in the [except] clause of [execute], for
    the exception [e]. *)
Definition failure_log_call (E : env) (tool_name : string)
    (company_param : option Z) (params : tool_params) (e : exn)
    : log_call := {|
  lc_tool_name := tool_name;
  lc_company_id := or_id company_param (env_company_id E);
  lc_parameters := params;
  lc_result := None;
  lc_error := Some (str_exn e);
  lc_execution_time_ms := elapsed_ms E;
  lc_state := st_executed;
|}.

(** ** Text and numbers in fixed-width fields *)

(** Every character of [s] passes [p]. *)
Fixpoint str_forall (p : ascii -> bool) (s : string) : bool :=
  match s with
  | EmptyString => true
  | String c r => p c && str_forall p r
  end.

Definition all_digits (s : string) : bool := str_forall is_digit s.

(** The period string of quarter [q] of year [y]. *)
Definition period_of (y q : Z) : string := fmt_0d 4 y ++ "-Q" ++ str_int q.

(** The date range of quarter [q] of year [y]: the first day of its
    first month and the last calendar day of its last month. *)
Definition quarter_range (y q : Z) : date * date :=
  (mkdate y (3 * q - 2) 1, mkdate y (3 * q) (days_in_month y (3 * q))).

(** The amount [x] in hundredths, as the [f] presentation rounds it, for
    a finite [x] that is not negative. *)
Definition cents_of (x : float) : option Z :=
  match Prim2SF x with
  | S754_zero false => Some 0
  | S754_finite false m e => Some (hundredths m e)
  | _ => None
  end.

(** [x] is finite, not negative, and has fewer than [k] digits in
    hundredths. *)
Definition fits (k : Z) (x : float) : bool :=
  match cents_of x with
  | Some c => c <? 10 ^ k
  | None => false
  end.

Definition record_fits (r : BirComplianceTool.withholding_record) : bool :=
  (String.length (BirComplianceTool.atc r) <=? 5)%nat
  && fits 4 (BirComplianceTool.tax_rate r)
  && fits 13 (BirComplianceTool.base_amount r)
  && fits 13 (BirComplianceTool.tax_amount_withheld r).

(** One line of the file as [_generate_dat] writes it, for its
    returning period, its sequence number and the record it is made of:
    the line is its ten fields one after the other, of the widths of the
    layout, and the fields are the period, the zero-filled sequence
    number, the tax id without dashes, the branch code, the name, the
    address, the Alpha Tax Code, the rate with two decimals, and for
    each of the two amounts thirteen digits that read as the amount in
    hundredths, followed by one space. The layout of the specification
    has no such space: see [documented_amount_field]. *)
Definition line_layout (returning_period : string) (seq : Z)
    (r : BirComplianceTool.withholding_record) (line : string) : Prop :=
  exists fields,
    line = join "" fields
    /\ map String.length fields = map snd BirComplianceTool.BIR_2307_FIELDS
    /\ nth 0 fields "" = returning_period
    /\ nth 1 fields "" = zfill 10 (str_nat seq)
    /\ nth 2 fields ""
       = ljust 9 (str_take 9 (remove_char "-" (BirComplianceTool.vendor_tin r)))
    /\ nth 3 fields "" = "0000"
    /\ nth 4 fields "" = ljust 50 (str_take 50 (BirComplianceTool.vendor_name r))
    /\ nth 5 fields ""
       = ljust 100 (str_take 100 (BirComplianceTool.vendor_address r))
    /\ nth 6 fields "" = ljust 5 (BirComplianceTool.atc r)
    /\ (exists c,
           cents_of (BirComplianceTool.tax_rate r) = Some c
           /\ nth 7 fields "" = zfill 5 (fixed2 c))
    /\ (exists digits,
           nth 8 fields "" = digits ++ " "
           /\ String.length digits = 13%nat
           /\ all_digits digits = true
           /\ py_int digits = cents_of (BirComplianceTool.base_amount r))
    /\ (exists digits,
           nth 9 fields "" = digits ++ " "
           /\ String.length digits = 13%nat
           /\ all_digits digits = true
           /\ py_int digits
              = cents_of (BirComplianceTool.tax_amount_withheld r)).

(** The amount field as the comment of the source and the specification
    have it, for an amount of [c] hundredths: 14 characters, the amount
    times 100 as an integer, right-aligned and zero-padded. *)
Definition documented_amount_field (c : Z) : string := zfill 14 (str_nat c).


(** The lines of the records, numbered from [seq]. *)
Fixpoint lines_layout (returning_period : string) (seq : Z)
    (rs : list BirComplianceTool.withholding_record) (lines : list string)
    : Prop :=
  match rs, lines with
  | [], [] => True
  | r :: rs', line :: lines' =>
      line_layout returning_period seq r line
      /\ lines_layout returning_period (seq + 1) rs' lines'
  | _, _ => False
  end.

(** [c] is an ASCII character. *)
Definition is_ascii (c : ascii) : bool := (N_of_ascii c <? 128)%N.

(** ** JSON objects *)

(** [d.get(key)] for a dict given by its items *)
Fixpoint assoc_get {A} (key : string) (items : list (string * A)) : option A :=
  match items with
  | [] => None
  | (k, v) :: rest => if String.eqb k key then Some v else assoc_get key rest
  end.

(** [j[key]] for an object; [None] when [j] is no object or has no such
    key. *)
Definition json_get (key : string) (j : json) : option json :=
  match j with
  | JObj fields => assoc_get key fields
  | _ => None
  end.

(** The strings of a list of strings. *)
Definition json_strings (j : json) : list string :=
  match j with
  | JList items =>
      flat_map (fun i => match i with JStr s => [s] | _ => [] end) items
  | _ => []
  end.

(** ** The keys of a request *)

(** The keys a tool schema lists as required. *)
Definition required_keys (schema : json) : list string :=
  json_strings
    (default JNull
       (json_get "required" (default JNull (json_get "inputSchema" schema)))).

(** Whether a request to the journal entry tool gives a value for a key
    of the schema: the key is there, and its value is not empty. *)
Definition je_gives (params : je_params) (key : string) : bool :=
  if String.eqb key "company_id" then present (p_company_id params)
  else if String.eqb key "journal_code" then truthy_ostr (p_journal_code params)
  else if String.eqb key "date"
  then match p_date params with DateAbsent => false | _ => true end
  else if String.eqb key "ref" then truthy_ostr (p_ref params)
  else if String.eqb key "lines"
  then match p_lines params with Some (_ :: _) => true | _ => false end
  else if String.eqb key "auto_post" then present (p_auto_post params)
  else false.

(** ** What a computation leaves as it is *)

(** The computation changes no move, and no configuration that
    exists. *)
Definition keeps_ledger {A} (c : M A) : Prop :=
  forall s,
    moves (snd (c s)) = moves s
    /\ forall k config, configs s !! k = Some config ->
                        configs (snd (c s)) !! k = Some config.

(** The computation leaves the execution log as it is. *)
Definition keeps_log {A} (c : M A) : Prop :=
  forall s, executions (snd (c s)) = executions s.

(** The computation returns after it has added one record to the
    execution log, a record that is as [Q] says for the value returned,
    or it raises and leaves the log as it is. *)
Definition logs_once {A} (Q : A -> execution -> Prop) (c : M A) : Prop :=
  forall s,
    match c s with
    | (Ok a, s') => exists r, executions s' = (executions s ++ [r])%list /\ Q a r
    | (Raise _, s') => executions s' = executions s
    end.

(** The computation returns. *)
Definition returns {A} (c : M A) : Prop :=
  forall s, exists a s', c s = (Ok a, s').

(** The computation changes no move when it raises. *)
Definition raises_before_create {A} (c : M A) : Prop :=
  forall s e s', c s = (Raise e, s') -> moves s' = moves s.

(** ** The cells of the worksheet *)

(** The row and the column of what is written into a worksheet. *)
Definition cell_positions (w : BirComplianceTool.worksheet) : list (Z * Z) :=
  map (fun c => (fst (fst (fst c)), snd (fst (fst c)))) w.

(** ** Requests to the endpoints *)

(** A user of company 1 with one API key. *)
Definition demo_user : McpFinanceController.res_users := {|
  McpFinanceController.user_id := 5;
  McpFinanceController.api_keys := ["key-5"];
  McpFinanceController.user_company_id := 1;
  McpFinanceController.user_account_manager := false;
|}.

(** A request with this [Authorization] header and the JSON object
    [{}]. *)
Definition demo_http (header : option string)
    : McpFinanceController.http_request := {|
  McpFinanceController.authorization := header;
  McpFinanceController.jsonrequest := McpFinanceController.empty_object;
  McpFinanceController.jsonrequest_params := None;
|}.

(** A registry whose tools have no description and no schema. *)
Definition demo_columns : Z -> McpFinanceTool.tool_columns :=
  fun _ => {| McpFinanceTool.description := None;
              McpFinanceTool.category := "query";
              McpFinanceTool.requires_approval := false;
              McpFinanceTool.parameter_schema := None |}.

(** A request for the BIR 2307 of the last quarter of 2025. *)
Definition demo_bir_request (output_format : option string) : bir_params := {|
  b_company_id := None;
  b_period := Some "2025-Q4";
  b_vendor_ids := None;
  b_output_format := output_format;
|}.

(** ** Requests of any shape to the journal entry tool *)

(** The exception of a database that refuses a company id. *)
Definition demo_integrity_error (company_id : Z) : exn :=
  Exn (OtherError "ForeignKeyViolation")
      ("Key (company_id)=(" ++ str_int company_id
       ++ ") is not present in table res_company").

Definition demo_line_arg (account : string) (debit credit : AnyRequest.amount_arg)
    : AnyRequest.line_arg := {|
  AnyRequest.ln_account := Some (RefStr account);
  AnyRequest.ln_debit := Some debit;
  AnyRequest.ln_credit := Some credit;
  AnyRequest.ln_name := None;
  AnyRequest.ln_label := None;
  AnyRequest.ln_partner := None;
  AnyRequest.ln_analytic := None;
|}.

(** A request to the MISC journal with [auto_post=true] and no other
    key. *)
Definition demo_args (date : AnyRequest.date_arg)
    (lines : list AnyRequest.line_arg) : AnyRequest.je_args := {|
  AnyRequest.q_company_id := None;
  AnyRequest.q_journal_code := Some "MISC";
  AnyRequest.q_date := date;
  AnyRequest.q_ref := Some "Accrual";
  AnyRequest.q_lines := Some lines;
  AnyRequest.q_auto_post := Some true;
  AnyRequest.q_other_keys := false;
|}.

(** A balanced entry of 1000. *)
Definition balanced_line_args : list AnyRequest.line_arg :=
  [ demo_line_arg "6010" (AnyRequest.AmountValue 1000) (AnyRequest.AmountValue 0);
    demo_line_arg "2010" (AnyRequest.AmountValue 0) (AnyRequest.AmountValue 1000) ].

(** The record that [log_execution] writes for a call. *)
Definition logged_record (E : env) (tool : mcp_finance_tool) (company_id : Z)
    (parameters : option tool_params) (result : option result_summary)
    (error : option string) (execution_time_ms : Z) (state : execution_state)
    : execution := {|
  ex_tool_id := tool_rec_id tool;
  ex_company_id := company_id;
  ex_user_id := env_uid E;
  ex_parameters := parameters;
  ex_result := result;
  ex_error_message := error;
  ex_execution_time_ms := execution_time_ms;
  ex_state := if truthy_ostr error then st_failed else state;
|}.

(** A request of the typed embedding as a request of any shape: its
    date is [None] or a string, [float] accepts its amounts, and it has
    no other key. *)
Definition line_arg_of (line : je_line) : AnyRequest.line_arg := {|
  AnyRequest.ln_account := l_account line;
  AnyRequest.ln_debit := AnyRequest.AmountValue <$> l_debit line;
  AnyRequest.ln_credit := AnyRequest.AmountValue <$> l_credit line;
  AnyRequest.ln_name := l_name line;
  AnyRequest.ln_label := l_label line;
  AnyRequest.ln_partner := l_partner line;
  AnyRequest.ln_analytic := l_analytic line;
|}.

Definition je_args_of (params : je_params) : AnyRequest.je_args := {|
  AnyRequest.q_company_id := p_company_id params;
  AnyRequest.q_journal_code := p_journal_code params;
  AnyRequest.q_date := AnyRequest.DateText (p_date params);
  AnyRequest.q_ref := p_ref params;
  AnyRequest.q_lines := map line_arg_of <$> p_lines params;
  AnyRequest.q_auto_post := p_auto_post params;
  AnyRequest.q_other_keys := false;
|}.

(* ===================================================================== *)
(** * Properties                                                          *)
(* ===================================================================== *)

(** ** The Alpha Tax Code *)

Section AlphaTaxCode.
Import BirComplianceTool.

Lemma get_atc_classify (tax : account_tax) :
  _get_atc (Some tax)
  = classify ATC_RULES ATC_DEFAULT (upper (or_str (tax_name tax) "")).
Proof.
  unfold _get_atc, ATC_RULES, ATC_DEFAULT; cbn [classify existsb].
  repeat rewrite orb_false_r.
  reflexivity.
Qed.

(** C9. The Alpha Tax Code of every withholding record is the result of
    the ordered keyword table applied to the upper-cased name of the
    tax of its line (PROFESSIONAL or WC010, then RENTAL or WC020, then
    SERVICE or WC100, then GOODS or WC120, else WC010); a tax named
    "Rental Income Tax" gets WC020 and one named "Misc Fee" gets the
    default WC010. *)
Theorem get_atc_ordered_keyword_table :
  (forall (b : bill) (l : bill_line),
      atc (record_of b l)
      = match tax_line_id l with
        | Some tax =>
            classify ATC_RULES ATC_DEFAULT (upper (or_str (tax_name tax) ""))
        | None => ATC_DEFAULT
        end)
  /\ (forall d a,
         _get_atc (Some {| tax_name := Some "Rental Income Tax";
                           tax_description := d; tax_amount := a |})
         = "WC020")
  /\ (forall d a,
         _get_atc (Some {| tax_name := Some "Misc Fee";
                           tax_description := d; tax_amount := a |})
         = "WC010").
Proof.
  split; [|split].
  - intros b l. cbn [record_of atc].
    destruct (tax_line_id l) as [tax|]; [apply get_atc_classify | reflexivity].
  - reflexivity.
  - reflexivity.
Qed.

(** The table is ordered: a name with keywords of two rules gets the
    code of the earlier one. *)
Example get_atc_first_rule_wins :
  _get_atc (Some {| tax_name := Some "Rental of goods";
                    tax_description := None; tax_amount := 5%float |})
  = "WC020".
Proof. reflexivity. Qed.

End AlphaTaxCode.

(** ** The execution log *)

Section ExecutionLog.
Import McpFinanceToolExecution.

Lemma log_execution_unknown_tool E c s :
  search_tool E (lc_tool_name c) = None ->
  do_log E c s = (Ok None, s).
Proof.
  intros H. unfold do_log, log_execution. rewrite H. reflexivity.
Qed.

Lemma log_execution_known_tool E c tool s :
  search_tool E (lc_tool_name c) = Some tool ->
  exists r,
    do_log E c s = (Ok (Some r), with_execution s r)
    /\ ex_error_message r = lc_error c
    /\ ex_state r
       = (if truthy_ostr (lc_error c) then st_failed else lc_state c).
Proof.
  intros H. unfold do_log, log_execution. rewrite H.
  eexists. split; [reflexivity|]. split; reflexivity.
Qed.

Lemma do_log_invariant E c s :
  Forall error_implies_failed (executions s) ->
  Forall error_implies_failed (executions (snd (do_log E c s))).
Proof.
  intros Hs.
  destruct (search_tool E (lc_tool_name c)) as [tool|] eqn:Ht.
  - destruct (log_execution_known_tool E c tool s Ht) as (r & -> & Hm & Hst).
    cbn [snd with_execution executions].
    apply Forall_app; split; [assumption|].
    constructor; [|constructor].
    intros Htruthy. rewrite Hm in Htruthy. rewrite Hst, Htruthy. reflexivity.
  - rewrite (log_execution_unknown_tool E c s Ht). assumption.
Qed.

Lemma run_log_invariant E calls : forall s,
  Forall error_implies_failed (executions s) ->
  Forall error_implies_failed (executions (run_log E calls s)).
Proof.
  induction calls as [|c calls IH]; intros s Hs; [assumption|].
  cbn [run_log fold_left]. apply IH, do_log_invariant, Hs.
Qed.

(** C10. An append to the execution log that carries a non-empty error
    message stores, for a registered tool, a record with that message
    and in state [failed], whatever state the caller passed; and a log
    whose records with an error message are all [failed] stays so under
    any sequence of appends, so that no record with an error message is
    pending, approved, executed or rejected. *)
Theorem log_execution_error_forces_failed
    (E : env) (c : log_call) (tool : mcp_finance_tool)
    (calls : list log_call) (s : db) :
  search_tool E (lc_tool_name c) = Some tool ->
  truthy_ostr (lc_error c) = true ->
  Forall error_implies_failed (executions s) ->
  (exists r,
      do_log E c s = (Ok (Some r), with_execution s r)
      /\ ex_error_message r = lc_error c
      /\ ex_state r = st_failed)
  /\ Forall (fun r => truthy_ostr (ex_error_message r) = true ->
                      ex_state r <> st_pending
                      /\ ex_state r <> st_approved
                      /\ ex_state r <> st_executed
                      /\ ex_state r <> st_rejected)
            (executions (run_log E calls s)).
Proof.
  intros Ht Herr Hs. split.
  - destruct (log_execution_known_tool E c tool s Ht) as (r & Hrun & Hm & Hst).
    exists r. rewrite Herr in Hst. auto.
  - eapply List.Forall_impl; [|apply run_log_invariant, Hs].
    intros r Hr Htruthy. rewrite (Hr Htruthy). repeat split; discriminate.
Qed.

(** A failure logged with [state='pending'] is stored as [failed]. *)
Lemma log_execution_error_forces_failed_witness :
  let c := {| lc_tool_name := "create_journal_entry";
              lc_company_id := 1;
              lc_parameters := JeParams no_je_params;
              lc_result := None;
              lc_error := Some "journal_code is required";
              lc_execution_time_ms := 3;
              lc_state := st_pending |} in
  (exists r,
      do_log (demo_env false) c empty_db
      = (Ok (Some r), with_execution empty_db r)
      /\ ex_error_message r = lc_error c
      /\ ex_state r = st_failed)
  /\ Forall (fun r => truthy_ostr (ex_error_message r) = true ->
                      ex_state r <> st_pending
                      /\ ex_state r <> st_approved
                      /\ ex_state r <> st_executed
                      /\ ex_state r <> st_rejected)
            (executions (run_log (demo_env false) [c; c] empty_db)).
Proof.
  intros c.
  apply (log_execution_error_forces_failed (demo_env false) c
           {| tool_rec_id := 2; technical_name := "create_journal_entry" |}
           [c; c] empty_db).
  - reflexivity.
  - reflexivity.
  - constructor.
Defined.

End ExecutionLog.

(** ** The trial balance *)

Section TrialBalance.
Import TrialBalanceTool.

Variable totals_by_account : gmap Z amounts.
Variables hierarchy include_zero : bool.

(** The loop appends the rows of the accounts it keeps and adds their
    amounts, in this order, to the running totals. *)
Lemma build_rows_spec (accounts : list account_account) :
  forall rows totals,
    let new :=
      map (row_of totals_by_account hierarchy)
          (kept_accounts totals_by_account include_zero accounts) in
    build_rows totals_by_account hierarchy include_zero accounts rows totals
    = ((rows ++ new)%list,
       {| a_debit := fold_left PrimFloat.add (map row_debit new) (a_debit totals);
          a_credit := fold_left PrimFloat.add (map row_credit new) (a_credit totals);
          a_balance :=
            fold_left PrimFloat.add (map row_balance new) (a_balance totals) |}).
Proof.
  induction accounts as [|a accounts IH]; intros rows totals; cbn zeta.
  - cbn. rewrite app_nil_r. destruct totals; reflexivity.
  - unfold kept_accounts. cbn [build_rows List.filter].
    fold (kept_accounts totals_by_account include_zero accounts).
    replace (negb include_zero
             && (a_balance (amounts_of totals_by_account a) =? 0)%float)
      with (negb (row_kept include_zero (amounts_of totals_by_account a)))
      by (unfold row_kept; destruct include_zero,
            (a_balance (amounts_of totals_by_account a) =? 0)%float;
          reflexivity).
    destruct (row_kept include_zero (amounts_of totals_by_account a));
      cbn [negb].
    + rewrite IH. cbn zeta. cbn [map fold_left].
      rewrite <- app_assoc. reflexivity.
    + apply IH.
Qed.

End TrialBalance.

(** C5. The totals of a trial balance are the column-wise sums, from the
    left, of the rows it returns, and these rows are those of the
    selected accounts whose aggregated balance is not zero, or of all the
    selected accounts when [include_zero] is set: the totals are computed
    after the zero-balance rows are dropped. *)
Theorem trial_balance_totals_of_returned_rows
    (E : env) (company_id : Z) (date_from date_to : date)
    (hierarchy : bool) (account_types : list string) (include_zero : bool) :
  let tb :=
    TrialBalanceTool._get_trial_balance E company_id date_from date_to
      hierarchy account_types include_zero in
  let totals_by_account :=
    TrialBalanceTool.totals_by_account_of
      (aml_totals E company_id date_from date_to) in
  TrialBalanceTool.a_debit (TrialBalanceTool.tb_totals tb)
  = py_sum (map TrialBalanceTool.row_debit (TrialBalanceTool.tb_accounts tb))
  /\ TrialBalanceTool.a_credit (TrialBalanceTool.tb_totals tb)
     = py_sum (map TrialBalanceTool.row_credit (TrialBalanceTool.tb_accounts tb))
  /\ TrialBalanceTool.a_balance (TrialBalanceTool.tb_totals tb)
     = py_sum (map TrialBalanceTool.row_balance (TrialBalanceTool.tb_accounts tb))
  /\ TrialBalanceTool.tb_accounts tb
     = map (row_of totals_by_account hierarchy)
         (kept_accounts totals_by_account include_zero
            (TrialBalanceTool.search_accounts E company_id account_types))
  /\ Forall (fun r => include_zero = true
                      \/ (TrialBalanceTool.row_balance r =? 0)%float = false)
            (TrialBalanceTool.tb_accounts tb).
Proof.
  cbn zeta. unfold TrialBalanceTool._get_trial_balance.
  rewrite build_rows_spec. cbn zeta.
  cbn [TrialBalanceTool.tb_totals TrialBalanceTool.tb_accounts
       TrialBalanceTool.a_debit TrialBalanceTool.a_credit
       TrialBalanceTool.a_balance TrialBalanceTool.zero_amounts app].
  repeat split.
  apply List.Forall_forall. intros r Hr.
  apply List.in_map_iff in Hr as (a & <- & Ha).
  apply List.filter_In in Ha as [_ Ha].
  unfold row_kept in Ha. cbn.
  destruct include_zero; [left; reflexivity|right].
  cbn in Ha. apply negb_true_iff in Ha. exact Ha.
Qed.

(** With [include_zero] unset the account whose debits and credits cancel
    out gets no row, and its 100 of debit is in no total: the totals are
    not those of the whole ledger. *)
Example trial_balance_totals_exclude_dropped_rows :
  let tb :=
    TrialBalanceTool._get_trial_balance demo_tb_env 1
      (mkdate 2025 1 1) (mkdate 2025 6 30) true [] false in
  map TrialBalanceTool.row_code (TrialBalanceTool.tb_accounts tb)
  = ["2010"; "6010"]
  /\ TrialBalanceTool.a_debit (TrialBalanceTool.tb_totals tb) = 50%float
  /\ py_sum (map (fun r => fst (fst (snd r)))
                 (aml_totals demo_tb_env 1 (mkdate 2025 1 1) (mkdate 2025 6 30)))
     = 150%float.
Proof. vm_compute. repeat split. Qed.

(** ** Withholding lines *)

Section Withholding.
Import BirComplianceTool.

Lemma no_match_filter_nil {A} (f : A -> bool) (l : list A) :
  List.filter f l = [] <-> forallb (fun x => negb (f x)) l = true.
Proof.
  induction l as [|x l IH]; cbn; [tauto|].
  destruct (f x); cbn; [split; discriminate|exact IH].
Qed.

(** C8, as the code has it. A line of a posted vendor bill in the range
    is treated as a withholding line if and only if the description of
    its tax contains "withholding" (letter case aside), or no line of the
    same bill passes that test and the name of its tax contains "EWT" or
    "WC"; the records of the extraction are those of these lines, bill by
    bill. *)
Theorem withholding_lines_fallback_per_bill
    (E : env) (company_id : Z) (date_from date_to : date)
    (vendor_ids : option (list Z)) :
  records (_get_withholding_data E company_id date_from date_to vendor_ids)
  = flat_map (fun b => map (record_of b) (wht_lines_of b))
      (List.filter (in_domain company_id date_from date_to vendor_ids)
         (ledger_moves E))
  /\ forall (b : bill) (l : bill_line),
      In l (wht_lines_of b)
      <-> In l (line_ids b)
          /\ (by_description l = true
              \/ (by_name l = true
                  /\ forallb (fun l' => negb (by_description l')) (line_ids b)
                     = true)).
Proof.
  split; [reflexivity|]. intros b l. unfold wht_lines_of.
  destruct (List.filter by_description (line_ids b)) as [|x xs] eqn:Hf.
  - pose proof (proj1 (no_match_filter_nil _ _) Hf) as Hnone.
    rewrite List.filter_In. split.
    + intros [Hin Hn]. auto.
    + intros [Hin [Hd|[Hn _]]]; [|auto].
      rewrite List.forallb_forall in Hnone. specialize (Hnone l Hin).
      rewrite Hd in Hnone. discriminate.
  - rewrite <- Hf, List.filter_In. split.
    + intros [Hin Hd]. auto.
    + intros [Hin [Hd|[_ Hnone]]]; [auto|].
      apply no_match_filter_nil in Hnone. rewrite Hnone in Hf. discriminate.
Qed.

(** C8, as it is stated, fails on a bill with a line that passes the
    description test and another that passes only the name test: the
    second is in the bill, passes the fallback test, and is not taken;
    the extraction makes one record of the two lines. *)
Lemma withholding_fallback_line_left_out :
  let b := demo_bill [line_by_description; line_by_name] in
  In line_by_name (line_ids b)
  /\ by_description line_by_name = false
  /\ by_name line_by_name = true
  /\ ~ In line_by_name (wht_lines_of b)
  /\ ~ (In line_by_name (wht_lines_of b)
        <-> by_description line_by_name = true
            \/ by_name line_by_name = true)
  /\ map tax_amount_withheld
       (records (_get_withholding_data demo_bir_env 1
                   (mkdate 2025 10 1) (mkdate 2025 12 31) None))
     = [20%float].
Proof.
  cbn zeta.
  assert (Hnot : ~ In line_by_name
                     (wht_lines_of
                        (demo_bill [line_by_description; line_by_name]))).
  { vm_compute. intros [H|[]]. discriminate H. }
  repeat split.
  - right; left; reflexivity.
  - exact Hnot.
  - intros [_ H]. apply Hnot, H. right. reflexivity.
Qed.

End Withholding.

(** ** The boundary of a tool *)

Lemma bind_ok {A B} (c : M A) (k : A -> M B) s a s1 :
  c s = (Ok a, s1) -> bind c k s = k a s1.
Proof. intros H. unfold bind. rewrite H. reflexivity. Qed.

Lemma bind_raise {A B} (c : M A) (k : A -> M B) s e s1 :
  c s = (Raise e, s1) -> bind c k s = (Raise e, s1).
Proof. intros H. unfold bind. rewrite H. reflexivity. Qed.

(** An append to the log returns, and leaves the moves and the
    configurations as they are. *)
Lemma do_log_total E c s :
  exists o,
    do_log E c s = (Ok o, snd (do_log E c s))
    /\ moves (snd (do_log E c s)) = moves s
    /\ configs (snd (do_log E c s)) = configs s.
Proof.
  unfold do_log, McpFinanceToolExecution.log_execution.
  destruct (McpFinanceToolExecution.search_tool E (lc_tool_name c)); cbn; eauto.
Qed.

Lemma tool_boundary_ok {A} E name cp params (body : M A) s a s1 :
  body s = (Ok a, s1) ->
  tool_boundary E name cp params body s = (Ok (Success a), s1).
Proof.
  intros H. unfold tool_boundary, try_except.
  rewrite (bind_ok _ _ _ _ _ H). reflexivity.
Qed.

Lemma tool_boundary_raise {A} E name cp params (body : M A) s e s1 :
  body s = (Raise e, s1) ->
  tool_boundary E name cp params body s
  = (Ok (Failure (str_exn e) (type_name e)),
     snd (do_log E (failure_log_call E name cp params e) s1)).
Proof.
  intros H. unfold tool_boundary, try_except.
  rewrite (bind_raise _ _ _ _ _ H).
  destruct (do_log_total E (failure_log_call E name cp params e) s1)
    as (o & Hlog & _).
  erewrite bind_ok; [reflexivity|exact Hlog].
Qed.

(** The boundary in the typed embedding, where [json.dumps] accepts the
    parameters and the insert into the log succeeds. Whatever the code
    inside the [try] of a tool does, [execute] then returns an envelope:
    the success envelope when the code returns, and, when it raises [e],
    the failure envelope with the message and the class name of [e],
    after a call of [log_execution] with the message. That call stores a
    record with the message, in state [failed], when the tool is
    registered and the message is not empty; it stores nothing when the
    tool is not registered. The class name is in the envelope only. For
    any dict and any database see [any_tool_boundary_raise]. *)
Theorem tool_boundary_returns_envelope {A}
    (E : env) (tool_name : string) (company_param : option Z)
    (params : tool_params) (body : M A) (s : db) :
  match body s with
  | (Ok a, s1) =>
      tool_boundary E tool_name company_param params body s
      = (Ok (Success a), s1)
  | (Raise e, s1) =>
      let c := failure_log_call E tool_name company_param params e in
      let s2 := snd (do_log E c s1) in
      tool_boundary E tool_name company_param params body s
      = (Ok (Failure (str_exn e) (type_name e)), s2)
      /\ moves s2 = moves s1
      /\ match McpFinanceToolExecution.search_tool E tool_name with
         | Some tool =>
             exists r,
               executions s2 = (executions s1 ++ [r])%list
               /\ ex_tool_id r = tool_rec_id tool
               /\ ex_error_message r = Some (str_exn e)
               /\ ex_result r = None
               /\ ex_state r
                  = (if truthy_str (str_exn e) then st_failed else st_executed)
         | None => executions s2 = executions s1
         end
  end.
Proof.
  destruct (body s) as [[a|e] s1] eqn:Hbody.
  - apply tool_boundary_ok, Hbody.
  - cbn zeta. split; [apply tool_boundary_raise, Hbody|].
    split.
    { destruct (do_log_total E
                  (failure_log_call E tool_name company_param params e) s1)
        as (o & _ & Hm & _). exact Hm. }
    unfold do_log, McpFinanceToolExecution.log_execution.
    cbn [failure_log_call lc_tool_name].
    destruct (McpFinanceToolExecution.search_tool E tool_name) as [tool|].
    + eexists. cbn. repeat split; reflexivity.
    + reflexivity.
Qed.

Lemma tool_boundary_total {A} E name cp params (body : M A) s :
  exists envelope s',
    tool_boundary E name cp params body s = (Ok envelope, s').
Proof.
  destruct (body s) as [[a|e] s1] eqn:Hbody.
  - rewrite (tool_boundary_ok _ _ _ _ _ _ _ _ Hbody). eauto.
  - rewrite (tool_boundary_raise _ _ _ _ _ _ _ _ Hbody). eauto.
Qed.

(** In the typed embedding the [execute] of each of the three tools
    returns an envelope. *)
Corollary execute_returns_envelope (E : env) (s : db) :
  (forall params, exists envelope s',
      JournalEntryTool.execute E params s = (Ok envelope, s'))
  /\ (forall xlsxwriter b64encode params, exists envelope s',
         BirComplianceTool.execute xlsxwriter b64encode E params s
         = (Ok envelope, s'))
  /\ (forall params, exists envelope s',
         TrialBalanceTool.execute E params s = (Ok envelope, s')).
Proof.
  repeat split; intros; apply tool_boundary_total.
Qed.

(** The record that is logged for a failure does not tell the kind of
    the failure. Two failures with the same message and different
    classes leave the same record in the log, while their envelopes
    differ. *)
Lemma audit_record_without_error_kind :
  let run e :=
    tool_boundary (A := unit) (demo_env false) "create_journal_entry" None
      (JeParams no_je_params) (raise e) empty_db in
  let e1 := Exn UserError "Journal not found: X" in
  let e2 := Exn ValidationError "Journal not found: X" in
  type_name e1 <> type_name e2
  /\ fst (run e1) = Ok (Failure "Journal not found: X" "UserError")
  /\ fst (run e2) = Ok (Failure "Journal not found: X" "ValidationError")
  /\ (exists r, executions (snd (run e1)) = [r]
                /\ executions (snd (run e2)) = [r])
  /\ ~ (exists kind_of : execution -> string,
          forall e, Forall (fun r => kind_of r = type_name e)
                      (executions (snd (run e)))).
Proof.
  cbn zeta. split; [discriminate|].
  split; [reflexivity|]. split; [reflexivity|].
  split; [eexists; split; vm_compute; reflexivity|].
  intros [kind_of H].
  pose proof (H (Exn UserError "Journal not found: X")) as H1.
  pose proof (H (Exn ValidationError "Journal not found: X")) as H2.
  vm_compute in H1, H2.
  inversion H1 as [|? ? K1 _]. inversion H2 as [|? ? K2 _].
  rewrite K1 in K2. discriminate K2.
Qed.

(** Nothing is logged for a failure of a tool that is not in the
    registry. *)
Example failure_of_unregistered_tool_not_logged :
  executions
    (snd (tool_boundary (A := unit) (demo_env false) "run_month_end_step" None
            (JeParams no_je_params) (raise (Exn UserError "x")) empty_db))
  = [].
Proof. reflexivity. Qed.

(** ** The journal entry tool *)

Lemma get_config_frame E cid s config s1 :
  McpFinanceConfig.get_config E cid s = (Ok config, s1) ->
  moves s1 = moves s /\ executions s1 = executions s.
Proof.
  unfold McpFinanceConfig.get_config.
  destruct (configs s !! or_id cid (env_company_id E));
    intros [= _ <-]; split; reflexivity.
Qed.

Lemma required_str_ok v msg s :
  truthy_str v = true -> JournalEntryTool.required_str (Some v) msg s = (Ok v, s).
Proof. destruct v; [discriminate|reflexivity]. Qed.

(** The approval decision: the flag of the company, or a positive
    threshold that the total debit exceeds. *)
Lemma requires_approval_of_spec (config : mcp_finance_config) (total : float) :
  JournalEntryTool.requires_approval_of config total
  = require_approval_je config
    || (0 <? max_je_amount config)%float && (max_je_amount config <? total)%float.
Proof.
  unfold JournalEntryTool.requires_approval_of.
  destruct (require_approval_je config),
    ((0 <? max_je_amount config)%float && (max_je_amount config <? total)%float);
    reflexivity.
Qed.

(** *** The checks on the lines *)

Lemma Prim2SF_zero : Prim2SF 0%float = S754_zero false.
Proof. reflexivity. Qed.

(** A number is negative, zero or positive. *)
Lemma float_sign_cases (x : float) :
  is_number x = true ->
  (x <? 0)%float = true /\ (x =? 0)%float = false /\ (0 <? x)%float = false
  \/ (x <? 0)%float = false /\ (x =? 0)%float = true /\ (0 <? x)%float = false
  \/ (x <? 0)%float = false /\ (x =? 0)%float = false /\ (0 <? x)%float = true.
Proof.
  unfold is_number.
  rewrite !FloatAxioms.ltb_spec, !FloatAxioms.eqb_spec, Prim2SF_zero.
  destruct (Prim2SF x) as [sg|sg| |sg m e]; cbn.
  - intros _. right; left. auto.
  - intros _. destruct sg; cbn; auto.
  - discriminate.
  - intros _. destruct sg; cbn; auto.
Qed.

(** Amounts that are numbers and pass the checks of a line have exactly
    one strictly positive side. *)
Lemma accepted_amounts_one_side (debit credit : float) :
  is_number debit = true -> is_number credit = true ->
  amounts_rejected debit credit = false ->
  one_side_positive debit credit = true.
Proof.
  intros Hd Hc. unfold amounts_rejected, one_side_positive.
  destruct (float_sign_cases debit Hd) as [(->&->&->)|[(->&->&->)|(->&->&->)]];
  destruct (float_sign_cases credit Hc) as [(->&->&->)|[(->&->&->)|(->&->&->)]];
  cbn; congruence.
Qed.

Lemma rejected_amounts_cases (debit credit : float) :
  amounts_rejected debit credit = true <->
  ((debit <? 0)%float = true \/ (credit <? 0)%float = true)
  \/ ((0 <? debit)%float = true /\ (0 <? credit)%float = true)
  \/ ((debit =? 0)%float = true /\ (credit =? 0)%float = true).
Proof.
  unfold amounts_rejected.
  rewrite !orb_true_iff, !andb_true_iff. tauto.
Qed.

Section BuildMoveLines.
Import JournalEntryTool.
Variables (E : env) (company_id : Z).

(** Every failure of a line is a [UserError]. *)
Lemma build_move_line_raises_user_error i line e :
  build_move_line E company_id i line = Raise e -> exn_cls e = UserError.
Proof.
  unfold build_move_line.
  destruct (truthy_ref (l_account line)); cbn [negb];
    [|intros [= <-]; reflexivity].
  destruct (l_account line) as [account_ref|]; [|intros [= <-]; reflexivity].
  destruct (find_account E company_id account_ref);
    [|intros [= <-]; reflexivity].
  repeat match goal with
         | |- (if ?b then _ else _) = _ -> _ => destruct b
         end;
    intros [= <-] || discriminate; reflexivity.
Qed.

(** A line that is taken carries the amounts of the request, and these
    pass the three checks. *)
Lemma build_move_line_accepts i line ml :
  build_move_line E company_id i line = Ok ml ->
  ml_debit ml = float_or_0 (l_debit line)
  /\ ml_credit ml = float_or_0 (l_credit line)
  /\ amounts_rejected (ml_debit ml) (ml_credit ml) = false.
Proof.
  unfold build_move_line, amounts_rejected.
  destruct (truthy_ref (l_account line)); cbn [negb]; [|discriminate].
  destruct (l_account line) as [account_ref|]; [|discriminate].
  destruct (find_account E company_id account_ref); [|discriminate].
  destruct ((float_or_0 (l_debit line) <? 0)%float
            || (float_or_0 (l_credit line) <? 0)%float) eqn:Hneg;
    [discriminate|].
  destruct ((0 <? float_or_0 (l_debit line))%float
            && (0 <? float_or_0 (l_credit line))%float) eqn:Hboth;
    [discriminate|].
  destruct ((float_or_0 (l_debit line) =? 0)%float
            && (float_or_0 (l_credit line) =? 0)%float) eqn:Hzero;
    [discriminate|].
  intros [= <-]. cbn. rewrite Hneg, Hboth, Hzero. auto.
Qed.

(** A line with a negative amount, with both amounts positive, or with
    both amounts zero is rejected with a [UserError]. *)
Lemma build_move_line_rejects i line :
  amounts_rejected (float_or_0 (l_debit line)) (float_or_0 (l_credit line))
  = true ->
  exists msg, build_move_line E company_id i line = Raise (Exn UserError msg).
Proof.
  intros Hrej.
  destruct (build_move_line E company_id i line) as [ml|[cls msg]] eqn:Hb.
  - apply build_move_line_accepts in Hb as (-> & -> & Hacc).
    rewrite Hrej in Hacc. discriminate.
  - apply build_move_line_raises_user_error in Hb. cbn in Hb. subst cls. eauto.
Qed.

Lemma build_from_raises_user_error lines : forall i e,
  build_from E company_id i lines = Raise e -> exn_cls e = UserError.
Proof.
  induction lines as [|line lines IH]; intros i e; cbn; [discriminate|].
  destruct (build_move_line E company_id i line) eqn:Hl; cbn.
  - destruct (build_from E company_id (i + 1) lines) eqn:Hr; cbn;
      [discriminate|].
    intros [= <-]. eapply IH, Hr.
  - intros [= <-]. eapply build_move_line_raises_user_error, Hl.
Qed.

Lemma build_from_accepts lines : forall i mls,
  build_from E company_id i lines = Ok mls ->
  Forall2 (fun line ml =>
             ml_debit ml = float_or_0 (l_debit line)
             /\ ml_credit ml = float_or_0 (l_credit line)
             /\ amounts_rejected (ml_debit ml) (ml_credit ml) = false)
          lines mls.
Proof.
  induction lines as [|line lines IH]; intros i mls; cbn.
  - intros [= <-]. constructor.
  - destruct (build_move_line E company_id i line) eqn:Hl; cbn; [|discriminate].
    destruct (build_from E company_id (i + 1) lines) eqn:Hr; cbn;
      [|discriminate].
    intros [= <-]. constructor; [eapply build_move_line_accepts, Hl|].
    eapply IH, Hr.
Qed.

(** What [_build_move_lines] does with the lines of a request: it
    rejects them with a [UserError], or takes all of them, each with
    amounts that pass the checks; it rejects them when one of them has a
    negative amount, both amounts positive, or both amounts zero. *)
Lemma build_move_lines_checks (lines : list je_line) :
  match _build_move_lines E lines company_id with
  | Ok mls =>
      Forall2 (fun line ml =>
                 ml_debit ml = float_or_0 (l_debit line)
                 /\ ml_credit ml = float_or_0 (l_credit line)
                 /\ amounts_rejected (ml_debit ml) (ml_credit ml) = false)
              lines mls
  | Raise e =>
      exn_cls e = UserError
  end
  /\ (Exists (fun line =>
                amounts_rejected (float_or_0 (l_debit line))
                  (float_or_0 (l_credit line)) = true) lines ->
      exists msg,
        _build_move_lines E lines company_id = Raise (Exn UserError msg)).
Proof.
  unfold _build_move_lines.
  destruct (build_from E company_id 0 lines) as [mls|e] eqn:Hb.
  - pose proof (build_from_accepts _ _ _ Hb) as Hall. split; [exact Hall|].
    intros Hex. exfalso.
    apply List.Exists_exists in Hex as (line & Hin & Hrej).
    clear Hb. induction Hall as [|l ml ls mls (Hd & Hc & Hacc) _ IH];
      [destruct Hin|].
    destruct Hin as [->|Hin]; [|auto].
    rewrite <- Hd, <- Hc, Hacc in Hrej. discriminate.
  - pose proof (build_from_raises_user_error _ _ _ Hb) as Hcls. split; [exact Hcls|].
    intros _. destruct e as [cls msg]. cbn in Hcls. subst cls. eauto.
Qed.

End BuildMoveLines.

(** The balance check: the entry passes unless the difference of the
    totals exceeds the tolerance, and then it is rejected with a
    [ValidationError] whose message gives both totals and the
    difference. *)
Lemma validate_balance_spec (move_lines : list move_line) :
  let total_debit := py_sum (map ml_debit move_lines) in
  let total_credit := py_sum (map ml_credit move_lines) in
  let diff := abs (total_debit - total_credit) in
  JournalEntryTool._validate_balance move_lines
  = if (JournalEntryTool.BALANCE_TOLERANCE <? diff)%float
    then Raise (Exn ValidationError
                  ("Journal entry is not balanced. Total debit: "
                   ++ fmt_2f total_debit
                   ++ ", Total credit: " ++ fmt_2f total_credit
                   ++ ", Difference: " ++ fmt_2f diff))
    else Ok tt.
Proof. reflexivity. Qed.

(** For amounts that are numbers the checks do what the specification
    says: an entry that passes them has exactly one strictly positive
    side on every line, and totals whose difference does not exceed the
    tolerance. *)
Lemma accepted_entry_of_numbers
    (E : env) (lines : list je_line) (company_id : Z)
    (move_lines : list move_line) :
  JournalEntryTool._build_move_lines E lines company_id = Ok move_lines ->
  JournalEntryTool._validate_balance move_lines = Ok tt ->
  Forall (fun ml => is_number (ml_debit ml) = true
                    /\ is_number (ml_credit ml) = true) move_lines ->
  Forall (fun ml => one_side_positive (ml_debit ml) (ml_credit ml) = true)
         move_lines
  /\ (JournalEntryTool.BALANCE_TOLERANCE
      <? abs (py_sum (map ml_debit move_lines)
              - py_sum (map ml_credit move_lines)))%float = false.
Proof.
  intros Hb Hv Hnum. split.
  - pose proof (build_move_lines_checks E company_id lines) as [Hall _].
    rewrite Hb in Hall. clear Hb Hv.
    induction Hall as [|l ml ls mls (_ & _ & Hacc) _ IH]; [constructor|].
    inversion Hnum as [|? ? [Hd Hc] Hrest]; subst.
    constructor; [apply accepted_amounts_one_side; assumption|].
    apply IH, Hrest.
  - rewrite validate_balance_spec in Hv. cbn zeta in Hv.
    destruct (JournalEntryTool.BALANCE_TOLERANCE
              <? abs (py_sum (map ml_debit move_lines)
                      - py_sum (map ml_credit move_lines)))%float;
      [discriminate|reflexivity].
Qed.

(** *** The period lock *)

Section CheckPeriodLock.
Import JournalEntryTool.
Variables (E : env) (company_id : Z) (company : res_company) (je_date : date).
Hypothesis Hcompany : companies E !! company_id = Some company.

Lemma check_period_lock_hard :
  on_or_before je_date (fiscalyear_lock_date company) = true ->
  _check_period_lock E company_id je_date
  = Raise (Exn UserError
             ("Period is locked. Fiscal year lock date: "
              ++ str_lock (fiscalyear_lock_date company))).
Proof.
  intros H. unfold _check_period_lock. rewrite Hcompany, H. reflexivity.
Qed.

Lemma check_period_lock_soft :
  on_or_before je_date (fiscalyear_lock_date company) = false ->
  on_or_before je_date (period_lock_date company) = true ->
  _check_period_lock E company_id je_date
  = if user_is_account_manager E then Ok tt
    else Raise (Exn UserError
                  ("Period is locked for non-advisers. Lock date: "
                   ++ str_lock (period_lock_date company))).
Proof.
  intros H1 H2. unfold _check_period_lock. rewrite Hcompany, H1, H2.
  destruct (user_is_account_manager E); reflexivity.
Qed.

Lemma check_period_lock_open :
  on_or_before je_date (fiscalyear_lock_date company) = false ->
  on_or_before je_date (period_lock_date company) = false ->
  _check_period_lock E company_id je_date = Ok tt.
Proof.
  intros H1 H2. unfold _check_period_lock. rewrite Hcompany, H1, H2.
  reflexivity.
Qed.

End CheckPeriodLock.

(** A request that passes the checks [execute] makes before the period
    lock: the company exists, the tool is enabled for it, and the journal
    code, the date, the reference and the lines are there. *)
Section ValidRequest.
Import JournalEntryTool.
Variables (E : env) (params : je_params) (s s1 : db).
Variables (company : res_company) (config : mcp_finance_config).
Variables (code ref : string) (d : date).
Variables (line : je_line) (lines : list je_line).
Local Abbreviation cid := (or_id (p_company_id params) (env_company_id E)).
Hypothesis Hco : companies E !! cid = Some company.
Hypothesis Hcfg :
  McpFinanceConfig.get_config E (Some cid) s = (Ok config, s1).
Hypothesis Hen : enable_journal_entry config = true.
Hypothesis Hcode : p_journal_code params = Some code.
Hypothesis Hcodet : truthy_str code = true.
Hypothesis Hdate : p_date params = DateValue d.
Hypothesis Href : p_ref params = Some ref.
Hypothesis Hreft : truthy_str ref = true.
Hypothesis Hlines : p_lines params = Some (line :: lines).

Ltac run_checks :=
  unfold execute_body; cbn zeta;
  rewrite (bind_ok _ _ s company s) by (rewrite Hco; reflexivity);
  rewrite (bind_ok _ _ s config s1 Hcfg);
  rewrite (bind_ok _ _ s1 tt s1) by (rewrite Hen; reflexivity);
  rewrite (bind_ok _ _ s1 code s1)
    by (rewrite Hcode; apply required_str_ok, Hcodet);
  rewrite (bind_ok _ _ s1 (Some d) s1) by (rewrite Hdate; reflexivity);
  rewrite (bind_ok _ _ s1 d s1) by reflexivity;
  rewrite (bind_ok _ _ s1 ref s1)
    by (rewrite Href; apply required_str_ok, Hreft);
  rewrite (bind_ok _ _ s1 (line :: lines) s1) by (rewrite Hlines; reflexivity).

(** A failure of the body becomes the failure envelope, and no move is
    created. *)
Lemma execute_failure e :
  execute_body E params s = (Raise e, s1) ->
  exists s2,
    execute E params s = (Ok (Failure (str_exn e) (type_name e)), s2)
    /\ moves s2 = moves s.
Proof.
  intros H. unfold execute.
  rewrite (tool_boundary_raise _ _ _ _ _ _ _ _ H).
  eexists. split; [reflexivity|].
  destruct (do_log_total E
              (failure_log_call E "create_journal_entry" (p_company_id params)
                 (JeParams params) e) s1) as (o & _ & Hm & _).
  rewrite Hm. apply (get_config_frame _ _ _ _ _ Hcfg).
Qed.

Lemma execute_body_locked e :
  _check_period_lock E cid d = Raise e ->
  execute_body E params s = (Raise e, s1).
Proof.
  intros Hlock. run_checks.
  apply bind_raise. unfold lift. rewrite Hlock. reflexivity.
Qed.

(** C3, as the code has it. For a request that reaches the period lock
    check: with the entry date on or before the fiscal-year lock date the
    call returns a failure envelope of kind [UserError], whoever the user
    is, and creates no move; with the entry date after that date (or no
    such date) and on or before the period lock date, the check passes
    for a user of the accounting-manager group, and for any other user
    the call returns a failure envelope of kind [UserError] and creates
    no move; with the entry date after both dates the check passes. *)
Theorem period_lock_policy :
  if on_or_before d (fiscalyear_lock_date company) then
    exists msg s2,
      execute E params s = (Ok (Failure msg "UserError"), s2)
      /\ moves s2 = moves s
  else if on_or_before d (period_lock_date company) then
    if user_is_account_manager E
    then _check_period_lock E cid d = Ok tt
    else exists msg s2,
           execute E params s = (Ok (Failure msg "UserError"), s2)
           /\ moves s2 = moves s
  else _check_period_lock E cid d = Ok tt.
Proof.
  destruct (on_or_before d (fiscalyear_lock_date company)) eqn:Hhard.
  - pose proof (check_period_lock_hard E cid company d Hco Hhard) as Hlock.
    destruct (execute_failure _ (execute_body_locked _ Hlock))
      as (s2 & H & Hm).
    eauto.
  - destruct (on_or_before d (period_lock_date company)) eqn:Hsoft.
    + pose proof (check_period_lock_soft E cid company d Hco Hhard Hsoft)
        as Hlock.
      destruct (user_is_account_manager E); [exact Hlock|].
      destruct (execute_failure _ (execute_body_locked _ Hlock))
        as (s2 & H & Hm).
      eauto.
    + apply (check_period_lock_open E cid company d Hco Hhard Hsoft).
Qed.

(** *** After the period lock *)

Variable journal : account_journal.
Hypothesis Hlock : _check_period_lock E cid d = Ok tt.
Hypothesis Hjournal :
  find (fun j => String.eqb (journal_code j) code
                 && (journal_company_id j =? cid)) (journals E)
  = Some journal.

Ltac run_lookups :=
  run_checks;
  rewrite (bind_ok _ _ s1 tt s1) by (unfold lift; rewrite Hlock; reflexivity);
  rewrite (bind_ok _ _ s1 journal s1) by (rewrite Hjournal; reflexivity).

Lemma execute_body_lines_rejected e :
  _build_move_lines E (line :: lines) cid = Raise e ->
  execute_body E params s = (Raise e, s1).
Proof.
  intros Hb. run_lookups.
  apply bind_raise. unfold lift. rewrite Hb. reflexivity.
Qed.

Lemma execute_body_unbalanced move_lines e :
  _build_move_lines E (line :: lines) cid = Ok move_lines ->
  _validate_balance move_lines = Raise e ->
  execute_body E params s = (Raise e, s1).
Proof.
  intros Hb Hv. run_lookups.
  rewrite (bind_ok _ _ s1 move_lines s1) by (unfold lift; rewrite Hb; reflexivity).
  apply bind_raise. unfold lift. rewrite Hv. reflexivity.
Qed.

(** An entry that is rejected by the checks on its lines, or by the
    balance check, creates no move. *)
Lemma rejected_entry_not_persisted :
  match _build_move_lines E (line :: lines) cid with
  | Raise e =>
      exists s2,
        execute E params s = (Ok (Failure (str_exn e) (type_name e)), s2)
        /\ moves s2 = moves s
  | Ok move_lines =>
      forall e, _validate_balance move_lines = Raise e ->
      exists s2,
        execute E params s = (Ok (Failure (str_exn e) (type_name e)), s2)
        /\ moves s2 = moves s
  end.
Proof.
  destruct (_build_move_lines E (line :: lines) cid) as [mls|e] eqn:Hb.
  - intros e Hv. apply execute_failure.
    apply (execute_body_unbalanced mls e Hb Hv).
  - apply execute_failure, execute_body_lines_rejected, Hb.
Qed.

(** The envelope of an entry that passes all checks: whether it requires
    approval is decided from the configuration and the total debit, and
    it is posted only when the caller asked for it and no approval is
    required. *)
Lemma execute_success move_lines :
  _build_move_lines E (line :: lines) cid = Ok move_lines ->
  _validate_balance move_lines = Ok tt ->
  let total_amount := py_sum (map ml_debit move_lines) in
  let requires_approval := requires_approval_of config total_amount in
  exists r s2,
    execute E params s = (Ok (Success r), s2)
    /\ r_requires_approval r = requires_approval
    /\ r_total_amount r = total_amount
    /\ r_state r
       = (if default false (p_auto_post params) && negb requires_approval
          then Posted else Draft)
    /\ length (moves s2) = S (length (moves s)).
Proof.
  intros Hb Hv total_amount requires_approval.
  destruct (get_config_frame _ _ _ _ _ Hcfg) as [Hm _].
  assert (exists r s2,
             execute_body E params s = (Ok r, s2)
             /\ r_requires_approval r = requires_approval
             /\ r_total_amount r = total_amount
             /\ r_state r
                = (if default false (p_auto_post params) && negb requires_approval
                   then Posted else Draft)
             /\ length (moves s2) = S (length (moves s))) as (r & s2 & H & Hr).
  { run_lookups.
    rewrite (bind_ok _ _ s1 move_lines s1)
      by (unfold lift; rewrite Hb; reflexivity).
    rewrite (bind_ok _ _ s1 tt s1) by (unfold lift; rewrite Hv; reflexivity).
    fold total_amount. fold requires_approval.
    unfold bind, create_move, action_post, ret,
      McpFinanceToolExecution.log_execution, McpFinanceToolExecution.create.
    destruct requires_approval, (default false (p_auto_post params));
      cbn [andb negb];
      destruct (McpFinanceToolExecution.search_tool E "create_journal_entry");
      cbn; eexists; eexists; (split; [reflexivity|]); cbn;
      rewrite ?length_map, length_app, <- Hm; cbn;
      repeat split; lia. }
  exists r, s2. split; [|exact Hr].
  unfold execute. apply tool_boundary_ok, H.
Qed.

(** When approval is required the entry stays in draft, whatever the
    caller asked for. *)
Lemma approval_forces_draft move_lines :
  _build_move_lines E (line :: lines) cid = Ok move_lines ->
  _validate_balance move_lines = Ok tt ->
  requires_approval_of config (py_sum (map ml_debit move_lines)) = true ->
  exists r s2,
    execute E params s = (Ok (Success r), s2)
    /\ r_requires_approval r = true
    /\ r_state r = Draft.
Proof.
  intros Hb Hv Hreq.
  destruct (execute_success move_lines Hb Hv) as (r & s2 & H & H1 & _ & H2 & _).
  exists r, s2. rewrite H1, H2, Hreq, andb_false_r. auto.
Qed.

End ValidRequest.

(** *** The period lock on the small ledger *)

(** The fiscal-year lock date (2024-12-31) stops a user of the
    accounting-manager group on 2024-06-30. *)
Lemma period_lock_policy_witness :
  exists msg s2,
    JournalEntryTool.execute (demo_env true)
      (demo_request (mkdate 2024 6 30) balanced_lines)
      (demo_db (demo_config false 0))
    = (Ok (Failure msg "UserError"), s2)
    /\ moves s2 = moves (demo_db (demo_config false 0)).
Proof.
  apply (period_lock_policy (demo_env true)
           (demo_request (mkdate 2024 6 30) balanced_lines)
           (demo_db (demo_config false 0)) (demo_db (demo_config false 0))
           demo_company (demo_config false 0) "MISC" "Accrual"
           (mkdate 2024 6 30)
           (demo_line "6010" 1000 0) [demo_line "2010" 0 1000]);
    reflexivity.
Defined.

(** The period lock date (2025-03-31) does not stop that user on
    2025-02-01, and stops any other user. *)
Example period_lock_and_managers :
  JournalEntryTool._check_period_lock (demo_env true) 1 (mkdate 2025 2 1)
  = Ok tt
  /\ fst (JournalEntryTool.execute (demo_env false)
            (demo_request (mkdate 2025 2 1) balanced_lines)
            (demo_db (demo_config false 0)))
     = Ok (Failure "Period is locked for non-advisers. Lock date: 2025-03-31"
                   "UserError").
Proof. split; reflexivity. Qed.

(** C3, as it is stated, fails: an entry dated on or before the
    fiscal-year lock date is refused with a [UserError], the class of
    the failures for invalid arguments, and not with the [AccessError]
    that the tool raises when it is disabled for the company. *)
Lemma period_lock_failure_is_user_error :
  let E := demo_env true in
  let d := mkdate 2024 6 30 in
  let params := demo_request d balanced_lines in
  JournalEntryTool.on_or_before d (fiscalyear_lock_date demo_company) = true
  /\ JournalEntryTool._check_period_lock E 1 d
     = Raise (Exn UserError "Period is locked. Fiscal year lock date: 2024-12-31")
  /\ fst (JournalEntryTool.execute E params (demo_db (demo_config false 0)))
     = Ok (Failure "Period is locked. Fiscal year lock date: 2024-12-31"
                   "UserError")
  /\ ~ (exists msg,
          JournalEntryTool._check_period_lock E 1 d = Raise (Exn AccessError msg))
  /\ fst (JournalEntryTool.execute E params (demo_db default_config))
     = Ok (Failure "Journal Entry tool is disabled for this company"
                   "AccessError").
Proof.
  cbn zeta. repeat split; try reflexivity.
  intros [msg H]. vm_compute in H. discriminate H.
Qed.

(** *** Approval *)

(** C2: what the code does with a threshold of 0. With the approval flag
    of the company unset and [max_je_amount = 0], an entry of 1000 with
    [auto_post=true] does not require approval and is posted; no total
    makes the decision differ. *)
Theorem threshold_zero_requires_no_approval :
  (forall total : float,
      JournalEntryTool.requires_approval_of (demo_config false 0) total = false)
  /\ fst (JournalEntryTool.execute (demo_env false)
            (demo_request (mkdate 2025 6 30) balanced_lines)
            (demo_db (demo_config false 0)))
     = Ok (Success {|
             JournalEntryTool.r_move_id := 1;
             JournalEntryTool.r_move_name := "MISC/1";
             JournalEntryTool.r_state := Posted;
             JournalEntryTool.r_requires_approval := false;
             JournalEntryTool.r_total_amount := 1000;
             JournalEntryTool.r_company := "Demo Co";
             JournalEntryTool.r_journal := "Miscellaneous";
             JournalEntryTool.r_line_count := 2;
             JournalEntryTool.r_execution_time_ms := 12;
           |}).
Proof.
  split; [|reflexivity].
  intros total. rewrite requires_approval_of_spec. reflexivity.
Qed.

(** The parts of the approval rule that hold: the flag of the company
    forces approval, and so does a total debit above a positive
    threshold. *)
Lemma approval_required_by_flag_or_threshold
    (config : mcp_finance_config) (total : float) :
  (require_approval_je config = true ->
   JournalEntryTool.requires_approval_of config total = true)
  /\ ((0 <? max_je_amount config)%float = true ->
      (max_je_amount config <? total)%float = true ->
      JournalEntryTool.requires_approval_of config total = true).
Proof.
  rewrite requires_approval_of_spec. split.
  - intros ->. reflexivity.
  - intros -> ->. apply orb_true_r.
Qed.

(** An entry of 1000 above a threshold of 500 stays in draft although
    the caller asked for posting and the flag is unset. *)
Example threshold_exceeded_stays_draft :
  exists r s2,
    JournalEntryTool.execute (demo_env false)
      (demo_request (mkdate 2025 6 30) balanced_lines)
      (demo_db (demo_config false 500))
    = (Ok (Success r), s2)
    /\ JournalEntryTool.r_requires_approval r = true
    /\ JournalEntryTool.r_state r = Draft.
Proof.
  apply (approval_forces_draft (demo_env false)
           (demo_request (mkdate 2025 6 30) balanced_lines)
           (demo_db (demo_config false 500)) (demo_db (demo_config false 500))
           demo_company (demo_config false 500) "MISC" "Accrual"
           (mkdate 2025 6 30)
           (demo_line "6010" 1000 0) [demo_line "2010" 0 1000]
           ltac:(reflexivity) ltac:(reflexivity) ltac:(reflexivity)
           ltac:(reflexivity) ltac:(reflexivity) ltac:(reflexivity)
           ltac:(reflexivity) ltac:(reflexivity) ltac:(reflexivity)
           {| journal_id := 1; journal_code := "MISC";
              journal_company_id := 1; journal_name := "Miscellaneous" |}
           ltac:(reflexivity) ltac:(reflexivity)
           _ ltac:(reflexivity) ltac:(reflexivity) ltac:(reflexivity)).
Qed.

(** *** Lines that are not numbers *)

(** C1: what the code does with an amount that is not a number. The
    first line has NaN as its debit and 0 as its credit: neither side is
    strictly positive, and no check of the line fires, since every
    comparison with NaN is false. The totals are then NaN and 100, their
    difference is NaN, and the balance check passes as well. The entry is
    created and, here, posted. *)
Theorem nan_amount_passes_validation :
  let lines := [ demo_line "6010" nan 0; demo_line "2010" 0 100 ] in
  let E := demo_env false in
  one_side_positive nan 0 = false
  /\ amounts_rejected nan 0 = false
  /\ (exists move_lines,
         JournalEntryTool._build_move_lines E lines 1 = Ok move_lines
         /\ map ml_debit move_lines = [nan; 0%float]
         /\ map ml_credit move_lines = [0%float; 100%float]
         /\ JournalEntryTool._validate_balance move_lines = Ok tt)
  /\ (exists r s2,
         JournalEntryTool.execute E (demo_request (mkdate 2025 6 30) lines)
           (demo_db (demo_config false 0))
         = (Ok (Success r), s2)
         /\ JournalEntryTool.r_state r = Posted
         /\ map mv_state (moves s2) = [Posted]
         /\ map (fun m => map ml_debit (mv_line_ids m)) (moves s2)
            = [[nan; 0%float]]).
Proof.
  cbn zeta. split; [reflexivity|]. split; [reflexivity|]. split.
  - eexists. split; [vm_compute; reflexivity|]. repeat split.
  - eexists. eexists. split; [vm_compute; reflexivity|]. repeat split.
Qed.

(** An entry whose totals differ by more than the tolerance is refused
    with a [ValidationError] that gives both totals and the difference,
    and no move is created. *)
Example unbalanced_entry_refused :
  JournalEntryTool.execute (demo_env false)
    (demo_request (mkdate 2025 6 30)
       [ demo_line "6010" 1000 0; demo_line "2010" 0 999.5 ])
    (demo_db (demo_config false 0))
  = (Ok (Failure
           "Journal entry is not balanced. Total debit: 1000.00, Total credit: 999.50, Difference: 0.50"
           "ValidationError"),
     with_execution (demo_db (demo_config false 0))
       {| ex_tool_id := 2;
          ex_company_id := 1;
          ex_user_id := 2;
          ex_parameters :=
            Some (JeParams
                    (demo_request (mkdate 2025 6 30)
                       [ demo_line "6010" 1000 0; demo_line "2010" 0 999.5 ]));
          ex_result := None;
          ex_error_message :=
            Some "Journal entry is not balanced. Total debit: 1000.00, Total credit: 999.50, Difference: 0.50";
          ex_execution_time_ms := 12;
          ex_state := st_failed |}).
Proof. vm_compute. reflexivity. Qed.

(** ** Text and numbers in fixed-width fields *)

Lemma append_cons c (a b : string) : String c a ++ b = String c (a ++ b).
Proof. reflexivity. Qed.

Lemma append_nil_l (b : string) : "" ++ b = b.
Proof. reflexivity. Qed.

Lemma length_append (a b : string) :
  String.length (a ++ b) = (String.length a + String.length b)%nat.
Proof.
  induction a as [|c a IH]; [reflexivity|].
  rewrite append_cons. cbn [String.length]. rewrite IH. reflexivity.
Qed.

Lemma append_nil_r (a : string) : a ++ "" = a.
Proof.
  induction a as [|c a IH]; [reflexivity|].
  rewrite append_cons, IH. reflexivity.
Qed.

Lemma length_repeat_char c n : String.length (repeat_char c n) = n.
Proof. induction n as [|n IH]; cbn; [reflexivity|]. rewrite IH. reflexivity. Qed.

Lemma length_ljust w s : String.length (ljust w s) = Nat.max w (String.length s).
Proof. unfold ljust. rewrite length_append, length_repeat_char. lia. Qed.

Lemma length_zfill w s : String.length (zfill w s) = Nat.max w (String.length s).
Proof. unfold zfill. rewrite length_append, length_repeat_char. lia. Qed.

Lemma length_str_take n s :
  String.length (str_take n s) = Nat.min n (String.length s).
Proof.
  revert s. induction n as [|n IH]; intros [|c s]; cbn; try reflexivity.
  rewrite IH. reflexivity.
Qed.

(** A text field: cut to the width, then filled up to it. *)
Lemma length_text_field w s : String.length (ljust w (str_take w s)) = w.
Proof. rewrite length_ljust, length_str_take. lia. Qed.

Lemma str_take_all n s : (String.length s <= n)%nat -> str_take n s = s.
Proof.
  revert s. induction n as [|n IH]; intros [|c s]; cbn; try reflexivity; try lia.
  intros H. rewrite IH by lia. reflexivity.
Qed.

Lemma ljust_full w s : (w <= String.length s)%nat -> ljust w s = s.
Proof.
  intros H. unfold ljust. replace (w - String.length s)%nat with 0%nat by lia.
  apply append_nil_r.
Qed.

Lemma str_forall_append p a b :
  str_forall p (a ++ b) = str_forall p a && str_forall p b.
Proof.
  induction a as [|c a IH]; [reflexivity|].
  rewrite append_cons. cbn [str_forall]. rewrite IH, andb_assoc. reflexivity.
Qed.

Lemma str_forall_repeat p c n : p c = true -> str_forall p (repeat_char c n) = true.
Proof. intros H. induction n as [|n IH]; cbn; [reflexivity|]. rewrite H, IH. reflexivity. Qed.

(** Removing a character that does not occur changes nothing. *)
Lemma remove_char_absent c s :
  str_forall (fun a => negb (Ascii.eqb a c)) s = true -> remove_char c s = s.
Proof.
  induction s as [|a s IH]; cbn; [reflexivity|].
  intros [Ha Hs]%andb_true_iff. apply negb_true_iff in Ha. rewrite Ha, IH by exact Hs.
  reflexivity.
Qed.

Lemma remove_char_append c a b :
  remove_char c (a ++ b) = remove_char c a ++ remove_char c b.
Proof.
  induction a as [|x a IH]; [reflexivity|].
  rewrite append_cons. cbn [remove_char].
  destruct (Ascii.eqb x c); rewrite IH; reflexivity.
Qed.

Lemma str_forall_impl (p q : ascii -> bool) s :
  (forall c, p c = true -> q c = true) ->
  str_forall p s = true -> str_forall q s = true.
Proof.
  intros Hpq. induction s as [|c s IH]; cbn; [reflexivity|].
  intros [Hc Hs]%andb_true_iff. rewrite (Hpq c Hc), IH by exact Hs. reflexivity.
Qed.

(** ** Decimal digits *)

Lemma digit_cases (d : Z) :
  0 <= d <= 9 ->
  d = 0 \/ d = 1 \/ d = 2 \/ d = 3 \/ d = 4 \/ d = 5 \/ d = 6 \/ d = 7 \/ d = 8 \/ d = 9.
Proof. lia. Qed.

Lemma digit_char_spec (d : Z) :
  0 <= d <= 9 ->
  is_digit (digit_char d) = true /\ digit_val (digit_char d) = d.
Proof.
  intros H.
  destruct (digit_cases d H) as [->|[->|[->|[->|[->|[->|[->|[->|[->| ->]]]]]]]]];
    split; reflexivity.
Qed.

Lemma digits_acc_app fuel : forall n acc r,
  digits_acc fuel n (acc ++ r) = digits_acc fuel n acc ++ r.
Proof.
  induction fuel as [|fuel IH]; intros n acc r; cbn [digits_acc];
    [reflexivity|].
  destruct (n <? 10); [reflexivity|].
  rewrite <- IH. reflexivity.
Qed.

Lemma all_digits_digits_acc fuel : forall n acc,
  0 <= n -> all_digits acc = true -> all_digits (digits_acc fuel n acc) = true.
Proof.
  assert (Hd : forall n, 0 <= n -> is_digit (digit_char (n mod 10)) = true).
  { intros n Hn. apply digit_char_spec. pose proof (Z.mod_pos_bound n 10). lia. }
  induction fuel as [|fuel IH]; intros n acc Hn Hacc; cbn.
  - unfold all_digits; cbn. rewrite Hd by lia. exact Hacc.
  - destruct (n <? 10).
    + unfold all_digits; cbn. rewrite Hd by lia. exact Hacc.
    + apply IH; [apply Z.div_pos; lia|].
      unfold all_digits; cbn. rewrite Hd by lia. exact Hacc.
Qed.

Lemma length_digits_acc fuel : forall n acc (k : nat),
  0 <= n < 10 ^ Z.of_nat k -> (1 <= k)%nat ->
  (String.length (digits_acc fuel n acc) <= k + String.length acc)%nat.
Proof.
  induction fuel as [|fuel IH]; intros n acc k Hn Hk; cbn; [lia|].
  destruct (n <? 10) eqn:Hlt; cbn; [lia|].
  apply Z.ltb_ge in Hlt.
  destruct k as [|[|k]]; [lia| cbn in Hn; lia |].
  specialize (IH (n / 10) (String (digit_char (n mod 10)) acc) (S k)).
  cbn [String.length] in IH.
  assert (0 <= n / 10 < 10 ^ Z.of_nat (S k)).
  { split; [apply Z.div_pos; lia|].
    apply Z.div_lt_upper_bound; [lia|].
    replace (Z.of_nat (S (S k))) with (Z.of_nat (S k) + 1) in Hn by lia.
    rewrite Z.pow_add_r, Z.pow_1_r in Hn by lia. lia. }
  specialize (IH H ltac:(lia)). lia.
Qed.

Lemma length_digits_acc_pos fuel n acc :
  (String.length acc < String.length (digits_acc fuel n acc))%nat.
Proof.
  revert n acc. induction fuel as [|fuel IH]; intros n acc; cbn; [lia|].
  destruct (n <? 10); cbn; [lia|].
  specialize (IH (n / 10) (String (digit_char (n mod 10)) acc)). cbn in IH. lia.
Qed.

(** Reading back the digits that were written. *)
Lemma int_digits_digits_acc fuel : forall n acc,
  0 <= n < 10 ^ (Z.of_nat fuel + 1) ->
  int_digits 0 false (digits_acc fuel n acc) = int_digits n false acc.
Proof.
  assert (Hstep : forall a n acc, 0 <= n ->
            int_digits a false (String (digit_char (n mod 10)) acc)
            = int_digits (10 * a + n mod 10) false acc).
  { intros a n acc Hn. cbn.
    destruct (digit_char_spec (n mod 10)) as [-> ->];
      [pose proof (Z.mod_pos_bound n 10); lia|reflexivity]. }
  induction fuel as [|fuel IH]; intros n acc Hn.
  - cbn [digits_acc]. rewrite Hstep by lia.
    rewrite Z.mod_small by (cbn in Hn; lia). reflexivity.
  - cbn [digits_acc]. destruct (n <? 10) eqn:Hlt.
    + apply Z.ltb_lt in Hlt. rewrite Hstep by lia.
      rewrite Z.mod_small by lia. reflexivity.
    + apply Z.ltb_ge in Hlt. rewrite IH.
      * rewrite Hstep by lia. f_equal. pose proof (Z.div_mod n 10). lia.
      * split; [apply Z.div_pos; lia|].
        apply Z.div_lt_upper_bound; [lia|].
        replace (Z.of_nat (S fuel) + 1) with (Z.of_nat fuel + 1 + 1) in Hn by lia.
        rewrite (Z.pow_add_r _ _ 1), Z.pow_1_r in Hn by lia. lia.
Qed.

Lemma str_nat_fuel n : 0 <= n -> n < 10 ^ (Z.of_nat (Z.to_nat (Z.log2 n)) + 1).
Proof.
  intros Hn. rewrite Z2Nat.id by apply Z.log2_nonneg.
  destruct (Z.eq_dec n 0) as [->|Hne]; [cbn; lia|].
  pose proof (Z.log2_spec n ltac:(lia)) as [_ Hlt].
  eapply Z.lt_le_trans; [exact Hlt|].
  rewrite <- Z.add_1_r.
  apply Z.pow_le_mono_l. lia.
Qed.

Lemma int_digits_str_nat n r :
  0 <= n -> int_digits 0 false (str_nat n ++ r) = int_digits n false r.
Proof.
  intros Hn. unfold str_nat. rewrite <- digits_acc_app, append_nil_l.
  apply int_digits_digits_acc. split; [exact Hn|apply str_nat_fuel, Hn].
Qed.

Lemma all_digits_str_nat n : 0 <= n -> all_digits (str_nat n) = true.
Proof. intros Hn. apply all_digits_digits_acc; [exact Hn|reflexivity]. Qed.

Lemma length_str_nat n (k : nat) :
  0 <= n < 10 ^ Z.of_nat k -> (1 <= k)%nat ->
  (1 <= String.length (str_nat n) <= k)%nat.
Proof.
  intros Hn Hk. unfold str_nat. split.
  - pose proof (length_digits_acc_pos (Z.to_nat (Z.log2 n)) n ""). cbn in *. lia.
  - pose proof (length_digits_acc (Z.to_nat (Z.log2 n)) n "" k Hn Hk). cbn in *. lia.
Qed.

Lemma int_digits_zeros k : forall r,
  int_digits 0 false (repeat_char "0" k ++ r) = int_digits 0 false r.
Proof.
  induction k as [|k IH]; intros r; [reflexivity|].
  cbn [repeat_char]. rewrite append_cons. apply IH.
Qed.

(** Case analysis on the eight bits of a character. *)
Ltac each_ascii c :=
  destruct c as [[] [] [] [] [] [] [] []].

(** ** Periods *)

Section Periods.
Import BirComplianceTool.


Lemma split_dash_Q_digit c r :
  is_digit c = true ->
  split_dash_Q (String c r)
  = match split_dash_Q r with
    | h :: t => String c h :: t
    | [] => [String c EmptyString]
    end.
Proof.
  intros H. each_ascii c; try (vm_compute in H; discriminate H); reflexivity.
Qed.

Lemma split_dash_Q_digits s :
  all_digits s = true -> split_dash_Q s = [s].
Proof.
  induction s as [|c s IH]; [reflexivity|].
  unfold all_digits. cbn [str_forall]. intros [Hc Hs]%andb_true_iff.
  rewrite (split_dash_Q_digit _ _ Hc), (IH Hs). reflexivity.
Qed.

Lemma split_dash_Q_period a b :
  all_digits a = true -> all_digits b = true ->
  split_dash_Q (a ++ "-Q" ++ b) = [a; b].
Proof.
  intros Ha Hb. induction a as [|c a IH].
  - change (split_dash_Q ("" ++ "-Q" ++ b)) with ("" :: split_dash_Q b).
    rewrite (split_dash_Q_digits _ Hb). reflexivity.
  - revert Ha. unfold all_digits. cbn [str_forall].
    intros [Hc Ha]%andb_true_iff.
    rewrite append_cons, (split_dash_Q_digit _ _ Hc), (IH Ha). reflexivity.
Qed.

Lemma is_digit_not_space c : is_digit c = true -> is_space c = false.
Proof.
  intros H. each_ascii c; try (vm_compute in H; discriminate H); reflexivity.
Qed.

Lemma lstrip_digits s : all_digits s = true -> lstrip s = s.
Proof.
  destruct s as [|c s]; [reflexivity|].
  unfold all_digits. cbn [str_forall lstrip]. intros [Hc _]%andb_true_iff.
  rewrite (is_digit_not_space _ Hc). reflexivity.
Qed.

Lemma rstrip_digits s : all_digits s = true -> rstrip s = s.
Proof.
  induction s as [|c s IH]; [reflexivity|].
  unfold all_digits. cbn [str_forall rstrip]. intros [Hc Hs]%andb_true_iff.
  rewrite (IH Hs), (is_digit_not_space _ Hc). destruct s; reflexivity.
Qed.

Lemma py_int_digits s :
  s <> "" -> all_digits s = true -> py_int s = int_digits 0 false s.
Proof.
  intros Hne Hs. unfold py_int. rewrite (lstrip_digits _ Hs), (rstrip_digits _ Hs).
  destruct s as [|c s]; [congruence|].
  revert Hs. unfold all_digits. cbn [str_forall]. intros [Hc _]%andb_true_iff.
  cbn [int_digits]. rewrite Hc.
  each_ascii c; try (vm_compute in Hc; discriminate Hc); reflexivity.
Qed.

Lemma str_int_nat n : 0 <= n -> str_int n = str_nat n.
Proof.
  intros Hn. unfold str_int. rewrite (proj2 (Z.ltb_ge n 0) Hn). reflexivity.
Qed.

Lemma fmt_0d_nat w n : 0 <= n -> fmt_0d w n = zfill w (str_nat n).
Proof.
  intros Hn. unfold fmt_0d.
  rewrite (proj2 (Z.ltb_ge n 0) Hn), (str_int_nat n Hn). reflexivity.
Qed.

Lemma str_nat_nonempty n : str_nat n <> "".
Proof.
  unfold str_nat. intros Heq.
  pose proof (length_digits_acc_pos (Z.to_nat (Z.log2 n)) n "") as Hpos.
  rewrite Heq in Hpos. cbn in Hpos. lia.
Qed.

Lemma all_digits_zfill w s : all_digits s = true -> all_digits (zfill w s) = true.
Proof.
  intros Hs. unfold zfill, all_digits. rewrite str_forall_append.
  rewrite str_forall_repeat by reflexivity. exact Hs.
Qed.

Lemma zfill_nonempty w s : s <> "" -> zfill w s <> "".
Proof.
  intros Hs Heq. apply (f_equal String.length) in Heq.
  rewrite length_zfill in Heq. destruct s; [congruence|]. cbn in Heq. lia.
Qed.

(** [int] reads a zero-filled number back. *)
Lemma py_int_zfill_str_nat w n : 0 <= n -> py_int (zfill w (str_nat n)) = Some n.
Proof.
  intros Hn.
  rewrite py_int_digits.
  - unfold zfill. rewrite int_digits_zeros.
    rewrite <- (append_nil_r (str_nat n)), int_digits_str_nat by exact Hn.
    reflexivity.
  - apply zfill_nonempty, str_nat_nonempty.
  - apply all_digits_zfill, all_digits_str_nat, Hn.
Qed.

Lemma zfill_0 s : zfill 0 s = s.
Proof. reflexivity. Qed.

(** C7. The period "YYYY-QN" of a year from 0001 to 9999 and a quarter
    number N from 1 to 4 is parsed to the first day of the first month of
    the quarter (months 1, 4, 7, 10) and the last calendar day of its last
    month (months 3, 6, 9, 12); with any other quarter number the call
    fails with a [UserError]. *)
Theorem parse_quarter_of_period (y q : Z) :
  1 <= y <= 9999 -> 0 <= q ->
  _parse_quarter (period_of y q)
  = if (1 <=? q) && (q <=? 4)
    then Ok (quarter_range y q)
    else Raise (Exn UserError
                  ("Invalid period format: " ++ period_of y q
                   ++ ". Use YYYY-QN (e.g., 2025-Q4)")).
Proof.
  intros Hy Hq.
  unfold _parse_quarter, parse_quarter_try, unpack_split, period_of.
  rewrite (str_int_nat q Hq), (fmt_0d_nat 4 y) by lia.
  rewrite split_dash_Q_period
    by (try apply all_digits_zfill; apply all_digits_str_nat; lia).
  cbn [rbind]. unfold int_or_raise.
  rewrite py_int_zfill_str_nat by lia. cbn [rbind].
  rewrite <- (zfill_0 (str_nat q)), py_int_zfill_str_nat by lia. cbn [rbind].
  destruct ((1 <=? q) && (q <=? 4)) eqn:Hrange.
  - apply andb_true_iff in Hrange as [H1%Z.leb_le H4%Z.leb_le].
    replace ((q <? 1) || (4 <? q)) with false
      by (symmetry; apply orb_false_iff; split; apply Z.ltb_ge; lia).
    unfold new_date.
    replace ((1 <=? y) && (y <=? 9999)) with true
      by (symmetry; apply andb_true_iff; split; apply Z.leb_le; lia).
    assert (Hcases : q = 1 \/ q = 2 \/ q = 3 \/ q = 4) by lia.
    destruct Hcases as [->|[->|[->| ->]]]; reflexivity.
  - replace ((q <? 1) || (4 <? q)) with true; [reflexivity|].
    symmetry. apply orb_true_iff.
    apply andb_false_iff in Hrange as [H%Z.leb_gt|H%Z.leb_gt];
      [left|right]; apply Z.ltb_lt; lia.
Qed.

(** The fourth quarter of 2025. *)
Lemma parse_quarter_of_period_witness :
  _parse_quarter "2025-Q4" = Ok (mkdate 2025 10 1, mkdate 2025 12 31).
Proof. apply (parse_quarter_of_period 2025 4); lia. Defined.

(** The last days of the quarters are 31 March, 30 June, 30 September
    and 31 December, in every year. *)
Lemma quarter_range_days (y : Z) :
  quarter_range y 1 = (mkdate y 1 1, mkdate y 3 31)
  /\ quarter_range y 2 = (mkdate y 4 1, mkdate y 6 30)
  /\ quarter_range y 3 = (mkdate y 7 1, mkdate y 9 30)
  /\ quarter_range y 4 = (mkdate y 10 1, mkdate y 12 31).
Proof. repeat split. Qed.

Example parse_quarter_2025_Q1 :
  _parse_quarter "2025-Q1" = Ok (mkdate 2025 1 1, mkdate 2025 3 31).
Proof. reflexivity. Qed.

Example parse_quarter_2025_Q5 :
  _parse_quarter "2025-Q5"
  = Raise (Exn UserError
             "Invalid period format: 2025-Q5. Use YYYY-QN (e.g., 2025-Q4)").
Proof. reflexivity. Qed.

(** Whatever the string, [_parse_quarter] returns a range or raises a
    [UserError]. *)
Lemma parse_quarter_raises_user_error (period : string) (e : exn) :
  _parse_quarter period = Raise e -> exn_cls e = UserError.
Proof.
  unfold _parse_quarter, except_reraise.
  destruct (parse_quarter_try period); [discriminate|].
  intros [= <-]. reflexivity.
Qed.

(** The year 0000 is not a year of the calendar: [date] refuses it. *)
Example parse_quarter_year_0 :
  _parse_quarter "0000-Q1"
  = Raise (Exn UserError
             "Invalid period format: 0000-Q1. Use YYYY-QN (e.g., 2025-Q4)").
Proof. reflexivity. Qed.

End Periods.

(** ** The DAT file *)

Section DatFile.
Import BirComplianceTool.

Lemma round_half_even_nonneg n d : 0 <= n -> 0 < d -> 0 <= round_half_even n d.
Proof.
  intros Hn Hd. unfold round_half_even.
  pose proof (Z.div_pos n d Hn Hd).
  repeat match goal with |- context [if ?b then _ else _] => destruct b end; lia.
Qed.

Lemma hundredths_nonneg m e : 0 <= hundredths m e.
Proof.
  unfold hundredths. destruct (0 <=? e) eqn:He.
  - apply Z.leb_le in He. pose proof (Z.pow_pos_nonneg 2 e). lia.
  - apply Z.leb_gt in He. apply round_half_even_nonneg; [lia|].
    apply Z.pow_pos_nonneg; lia.
Qed.

Lemma cents_of_nonneg x c : cents_of x = Some c -> 0 <= c.
Proof.
  unfold cents_of. destruct (Prim2SF x) as [[]|[]| |[] m e]; try discriminate.
  - intros [= <-]. lia.
  - intros [= <-]. apply hundredths_nonneg.
Qed.

Lemma fixed2_nat c :
  0 <= c -> fixed2 c = str_nat (c / 100) ++ "." ++ zfill 2 (str_nat (c mod 100)).
Proof.
  intros Hc. unfold fixed2.
  rewrite str_int_nat by (apply Z.div_pos; lia).
  rewrite fmt_0d_nat by (pose proof (Z.mod_pos_bound c 100); lia).
  reflexivity.
Qed.

(** The [f] presentation of an amount, from its hundredths. *)
Lemma fmt_0_2f_cents w x c :
  cents_of x = Some c -> fmt_0_2f w x = zfill w (fixed2 c).
Proof.
  unfold cents_of, fmt_0_2f, fmt_2f_parts.
  destruct (Prim2SF x) as [[]|[]| |[] m e]; try discriminate;
    intros [= <-]; reflexivity.
Qed.

Lemma length_cents_frac c :
  0 <= c -> String.length (zfill 2 (str_nat (c mod 100))) = 2%nat.
Proof.
  intros Hc. rewrite length_zfill.
  pose proof (Z.mod_pos_bound c 100 ltac:(lia)).
  pose proof (length_str_nat (c mod 100) 2 ltac:(cbn; lia) ltac:(lia)). lia.
Qed.

Lemma length_cents_int c (k : nat) :
  0 <= c < 10 ^ (Z.of_nat k + 2) -> (1 <= k)%nat ->
  (1 <= String.length (str_nat (c / 100)) <= k)%nat.
Proof.
  intros Hc Hk. apply length_str_nat; [|exact Hk].
  split; [apply Z.div_pos; lia|].
  apply Z.div_lt_upper_bound; [lia|].
  rewrite Z.pow_add_r in Hc by lia. lia.
Qed.

Lemma length_fixed2 c (k : nat) :
  0 <= c < 10 ^ (Z.of_nat k + 2) -> (1 <= k)%nat ->
  (4 <= String.length (fixed2 c) <= k + 3)%nat.
Proof.
  intros Hc Hk. rewrite fixed2_nat by lia.
  rewrite !length_append, length_cents_frac by lia.
  pose proof (length_cents_int c k Hc Hk). cbn. lia.
Qed.

(** The rate field is 5 characters for a rate below 100. *)
Lemma length_rate_field x :
  fits 4 x = true -> String.length (fmt_0_2f 5 x) = 5%nat.
Proof.
  unfold fits. destruct (cents_of x) as [c|] eqn:Hc; [|discriminate].
  intros Hlt%Z.ltb_lt. pose proof (cents_of_nonneg _ _ Hc).
  rewrite (fmt_0_2f_cents _ _ _ Hc), length_zfill.
  pose proof (length_fixed2 c 2 ltac:(cbn; lia) ltac:(lia)). lia.
Qed.

Lemma digit_not_dot c : is_digit c = true -> negb (Ascii.eqb c ".") = true.
Proof.
  intros H. each_ascii c; try (vm_compute in H; discriminate H); reflexivity.
Qed.

Lemma remove_dot_digits s : all_digits s = true -> remove_char "." s = s.
Proof.
  intros H. apply remove_char_absent.
  revert H. apply str_forall_impl. intros c. apply digit_not_dot.
Qed.

(** [int] of a string of digits, started from [a]. *)
Lemma int_digits_from s : all_digits s = true -> forall a,
  int_digits a false s
  = (fun v => a * 10 ^ Z.of_nat (String.length s) + v) <$> int_digits 0 false s.
Proof.
  induction s as [|c s IH]; intros Hs a.
  - cbn. f_equal. lia.
  - revert Hs. unfold all_digits. cbn [str_forall]. intros [Hc Hs]%andb_true_iff.
    cbn [int_digits]. rewrite Hc.
    rewrite (IH Hs (10 * a + digit_val c)), (IH Hs (10 * 0 + digit_val c)).
    destruct (int_digits 0 false s) as [v|]; cbn [fmap option_fmap option_map];
      [|reflexivity].
    f_equal. cbn [String.length]. rewrite Nat2Z.inj_succ, Z.pow_succ_r by lia.
    ring.
Qed.

Lemma int_digits_zfill_str_nat w n :
  0 <= n -> int_digits 0 false (zfill w (str_nat n)) = Some n.
Proof.
  intros Hn. unfold zfill. rewrite int_digits_zeros.
  rewrite <- (append_nil_r (str_nat n)), int_digits_str_nat by exact Hn.
  reflexivity.
Qed.

(** An amount field: thirteen digits that read as the amount in
    hundredths, then one space. *)
Lemma amount_field x :
  fits 13 x = true ->
  exists digits,
    ljust 14 (remove_char "." (fmt_0_2f 14 x)) = digits ++ " "
    /\ String.length digits = 13%nat
    /\ all_digits digits = true
    /\ py_int digits = cents_of x.
Proof.
  unfold fits. destruct (cents_of x) as [c|] eqn:Hc; [|discriminate].
  intros Hlt%Z.ltb_lt. pose proof (cents_of_nonneg _ _ Hc) as H0.
  rewrite (fmt_0_2f_cents _ _ _ Hc).
  pose proof (length_fixed2 c 11 ltac:(cbn; lia) ltac:(lia)) as Hlen.
  pose proof (length_cents_frac c H0) as Hfrac.
  pose proof (length_cents_int c 11 ltac:(cbn; lia) ltac:(lia)) as Hint.
  assert (Hdi : all_digits (str_nat (c / 100)) = true)
    by (apply all_digits_str_nat, Z.div_pos; lia).
  assert (Hdf : all_digits (zfill 2 (str_nat (c mod 100))) = true).
  { apply all_digits_zfill, all_digits_str_nat.
    pose proof (Z.mod_pos_bound c 100); lia. }
  set (zeros := repeat_char "0" (14 - String.length (fixed2 c))).
  exists (zeros ++ str_nat (c / 100) ++ zfill 2 (str_nat (c mod 100))).
  assert (Hz : all_digits zeros = true) by (apply str_forall_repeat; reflexivity).
  assert (Hlz : String.length zeros = (14 - String.length (fixed2 c))%nat)
    by apply length_repeat_char.
  assert (Hl13 : String.length
                   (zeros ++ str_nat (c / 100) ++ zfill 2 (str_nat (c mod 100)))
                 = 13%nat).
  { rewrite !length_append, Hlz, Hfrac.
    rewrite fixed2_nat in Hlen |- * by lia.
    rewrite !length_append, Hfrac in Hlen |- *. cbn in Hlen |- *. lia. }
  assert (Hall : all_digits
                   (zeros ++ str_nat (c / 100) ++ zfill 2 (str_nat (c mod 100)))
                 = true).
  { unfold all_digits. rewrite !str_forall_append.
    fold (all_digits zeros). fold (all_digits (str_nat (c / 100))).
    fold (all_digits (zfill 2 (str_nat (c mod 100)))).
    rewrite Hz, Hdi, Hdf. reflexivity. }
  repeat split.
  - unfold zfill at 1. fold zeros. rewrite fixed2_nat by lia.
    rewrite !remove_char_append.
    rewrite (remove_dot_digits _ Hz), (remove_dot_digits _ Hdi),
      (remove_dot_digits _ Hdf).
    change (remove_char "." ".") with "". rewrite append_nil_l.
    unfold ljust. rewrite Hl13. reflexivity.
  - exact Hl13.
  - exact Hall.
  - rewrite py_int_digits; [|intros Heq; rewrite Heq in Hl13; discriminate|exact Hall].
    unfold zeros.
    rewrite int_digits_zeros, int_digits_str_nat by (apply Z.div_pos; lia).
    rewrite (int_digits_from _ Hdf), Hfrac, int_digits_zfill_str_nat
      by (pose proof (Z.mod_pos_bound c 100); lia).
    cbn [fmap option_fmap option_map]. f_equal.
    pose proof (Z.div_mod c 100). change (10 ^ Z.of_nat 2) with 100. lia.
Qed.

Lemma ljust_ljust w s : ljust w (ljust w s) = ljust w s.
Proof. apply ljust_full. rewrite length_ljust. lia. Qed.

(** A text longer than its field is cut to the width of the field. *)
Lemma text_field_truncated w s :
  (w <= String.length s)%nat -> ljust w (str_take w s) = str_take w s.
Proof. intros H. apply ljust_full. rewrite length_str_take. lia. Qed.

(** A text shorter than its field is followed by spaces up to the width
    of the field. *)
Lemma text_field_padded w s :
  (String.length s <= w)%nat ->
  ljust w (str_take w s) = s ++ repeat_char " " (w - String.length s).
Proof. intros H. rewrite str_take_all by exact H. reflexivity. Qed.

Lemma length_fmt_0d (w : nat) n :
  0 <= n < 10 ^ Z.of_nat w -> (1 <= w)%nat -> String.length (fmt_0d w n) = w.
Proof.
  intros Hn Hw. rewrite fmt_0d_nat, length_zfill by lia.
  pose proof (length_str_nat n w Hn Hw). lia.
Qed.

Lemma dat_fields_layout rp seq r :
  String.length rp = 6%nat -> 0 <= seq < 10 ^ 10 -> record_fits r = true ->
  line_layout rp seq r (dat_line rp seq r).
Proof.
  intros Hrp Hseq Hfit. unfold record_fits in Hfit.
  apply andb_true_iff in Hfit as [Hfit Htax].
  apply andb_true_iff in Hfit as [Hfit Hbase].
  apply andb_true_iff in Hfit as [Hatc%Nat.leb_le Hrate].
  destruct (amount_field _ Hbase) as (db & Hb & Hbl & Hbd & Hbv).
  destruct (amount_field _ Htax) as (dt & Ht & Htl & Htd & Htv).
  pose proof (length_rate_field _ Hrate) as Hrl.
  unfold fits in Hrate.
  destruct (cents_of (tax_rate r)) as [cr|] eqn:Hcr; [|discriminate].
  exists (dat_fields rp seq r). split; [reflexivity|].
  unfold dat_fields. cbn [nth map]. rewrite ljust_ljust.
  split.
  { rewrite Hb, Ht, !length_append, Hbl, Htl.
    rewrite !length_ljust, !length_str_take, Hrp, Hrl.
    rewrite (length_fmt_0d 10) by (change (Z.of_nat 10) with 10; lia).
    unfold BIR_2307_FIELDS. cbn [map snd String.length].
    repeat match goal with |- _ :: _ = _ :: _ => f_equal end; lia. }
  split; [apply ljust_full; lia|].
  split; [apply fmt_0d_nat; lia|].
  repeat split; eauto.
  exists cr. split; [exact Hcr|]. apply fmt_0_2f_cents, Hcr.
Qed.

Lemma dat_lines_layout rp :
  String.length rp = 6%nat ->
  forall rs seq,
    0 <= seq -> seq + Z.of_nat (length rs) <= 10 ^ 10 ->
    forallb record_fits rs = true ->
    lines_layout rp seq rs (dat_lines rp seq rs).
Proof.
  intros Hrp. induction rs as [|r rs IH]; intros seq Hseq Hn Hfit.
  - exact I.
  - cbn [forallb] in Hfit. apply andb_true_iff in Hfit as [Hr Hrest].
    cbn [length] in Hn. cbn [dat_lines lines_layout]. split.
    + apply dat_fields_layout; [exact Hrp|lia|exact Hr].
    + apply IH; [lia|lia|exact Hrest].
Qed.

(** The file as the code writes it. For a period "YYYY-QN" and fewer
    than 10^10 records whose numbers fit their fields (an Alpha Tax Code
    of at most 5 characters, a rate below 100, amounts below 10^11, all
    finite and not negative), the content of the file is the lines of the records
    joined by CRLF, and each line is its ten fields one after the other,
    of widths 6, 10, 9, 4, 50, 100, 5, 5, 14 and 14: the tax id without
    dashes and the name and the address are cut to the width of their
    field and filled with spaces on the right, and each amount field is
    the amount times 100 written with thirteen digits, zero-filled on the
    left, and followed by one space. *)
Theorem generate_dat_fixed_width
    (data : withholding_data) (y q : Z) (company : res_company) :
  1 <= y <= 9999 -> 1 <= q <= 4 ->
  forallb record_fits (records data) = true ->
  Z.of_nat (length (records data)) < 10 ^ 10 ->
  exists lines,
    _generate_dat data (period_of y q) company
    = Ok (join CRLF lines,
          "BIR2307_" ++ or_str (company_vat company) "TIN"
          ++ "_" ++ period_of y q ++ ".dat")
    /\ lines_layout (fmt_0d 2 (q * 3) ++ fmt_0d 4 y) 1 (records data) lines.
Proof.
  intros Hy Hq Hfit Hn.
  exists (dat_lines (fmt_0d 2 (q * 3) ++ fmt_0d 4 y) 1 (records data)). split.
  - unfold _generate_dat, unpack_split, period_of.
    rewrite (str_int_nat q), (fmt_0d_nat 4 y) by lia.
    rewrite split_dash_Q_period
      by (try apply all_digits_zfill; apply all_digits_str_nat; lia).
    cbn [rbind]. unfold int_or_raise.
    rewrite <- (zfill_0 (str_nat q)), py_int_zfill_str_nat by lia.
    reflexivity.
  - apply dat_lines_layout; [|lia|lia|exact Hfit].
    rewrite length_append, (length_fmt_0d 4) by (change (Z.of_nat 4) with 4; lia).
    rewrite (length_fmt_0d 2); [reflexivity| |lia].
    change (Z.of_nat 2) with 2. lia.
Qed.

(** One record of the small ledger, for the fourth quarter of 2025. *)
Lemma generate_dat_fixed_width_witness :
  let data := {| records := [record_of (demo_bill [line_by_description])
                               line_by_description];
                 totals_base := 1000; totals_tax := 20 |} in
  exists lines,
    _generate_dat data (period_of 2025 4) demo_company
    = Ok (join CRLF lines,
          "BIR2307_" ++ or_str (company_vat demo_company) "TIN"
          ++ "_" ++ period_of 2025 4 ++ ".dat")
    /\ lines_layout "122025" 1 (records data) lines.
Proof.
  cbn zeta.
  apply (generate_dat_fixed_width
           {| records := [record_of (demo_bill [line_by_description])
                            line_by_description];
              totals_base := 1000; totals_tax := 20 |}
           2025 4 demo_company).
  - lia.
  - lia.
  - vm_compute. reflexivity.
  - cbn. lia.
Defined.

(** The line of that record: the amounts 1000.00 and 20.00 are written
    with thirteen digits and a space. *)
Example generate_dat_demo :
  _generate_dat
    {| records := [record_of (demo_bill [line_by_description])
                     line_by_description];
       totals_base := 1000; totals_tax := 20 |}
    "2025-Q4" demo_company
  = Ok ("1220250000000001123456789"
        ++ "0000"
        ++ "ACME Supplies                                     "
        ++ ljust 100 "1 Main St, Makati, 1200"
        ++ "WC010" ++ "02.00" ++ "0000000100000 " ++ "0000000002000 ",
        "BIR2307_123456789_2025-Q4.dat").
Proof. vm_compute. reflexivity. Qed.

(** A name of 80 characters gives a name field of exactly 50, its first
    50 characters; a tax id of fewer than 9 characters gives a field of
    exactly 9, the tax id and spaces. *)
Lemma long_name_and_short_tin (name tin : string) :
  String.length name = 80%nat ->
  (String.length tin < 9)%nat ->
  ljust 50 (str_take 50 name) = str_take 50 name
  /\ String.length (ljust 50 (str_take 50 name)) = 50%nat
  /\ ljust 9 (str_take 9 tin) = tin ++ repeat_char " " (9 - String.length tin)
  /\ String.length (ljust 9 (str_take 9 tin)) = 9%nat.
Proof.
  intros Hname Htin. repeat split.
  - apply text_field_truncated. lia.
  - apply length_text_field.
  - apply text_field_padded. lia.
  - apply length_text_field.
Qed.

(** A number that does not fit its field is not cut: the base amount
    10^12 takes 15 characters, and the line 218. *)
Lemma amount_field_overflow :
  let r := {| vendor_tin := "123-456-789";
              vendor_name := "ACME Supplies";
              vendor_address := "1 Main St, Makati";
              atc := "WC010";
              tax_rate := 2;
              base_amount := 1000000000000;
              tax_amount_withheld := 20000000000;
              bill_ref := "BILL/2025/0001";
              bill_date := Some (mkdate 2025 11 15) |} in
  map String.length (dat_fields "122025" 1 r)
  = [6; 10; 9; 4; 50; 100; 5; 5; 15; 14]%nat
  /\ map String.length (dat_fields "122025" 1 r) <> map snd BIR_2307_FIELDS
  /\ nth 8 (dat_fields "122025" 1 r) "" = "100000000000000"
  /\ String.length (dat_line "122025" 1 r) = 218%nat.
Proof.
  cbn zeta. split; [vm_compute; reflexivity|].
  split; [vm_compute; discriminate|].
  split; vm_compute; reflexivity.
Qed.

Lemma not_all_digits_space s : all_digits (s ++ " ") = false.
Proof.
  unfold all_digits. rewrite str_forall_append. cbn.
  apply andb_false_r.
Qed.

Lemma all_digits_documented c :
  0 <= c -> all_digits (documented_amount_field c) = true.
Proof.
  intros Hc. apply all_digits_zfill, all_digits_str_nat, Hc.
Qed.

(** C4. The amount fields of a line are not the fields of the layout.
    For a record whose base amount and tax amount are finite, not
    negative and below 10^11, each of the two amount fields that
    [_generate_dat] writes is thirteen digits, which read as the amount
    in hundredths, followed by one space: the decimal point is removed
    after the number has been zero-filled to 14 characters, and the 13
    characters that are left are left-justified in the field. The layout
    has 14 characters that hold the amount times 100 as a zero-padded
    integer, and the comment of the source has the amount right-aligned
    in 14 characters; the field that is written differs from that field
    for every such amount. *)
Theorem amount_fields_not_as_documented
    (returning_period : string) (seq : Z) (r : withholding_record) :
  fits 13 (base_amount r) = true ->
  fits 13 (tax_amount_withheld r) = true ->
  exists base tax cb ct,
    cents_of (base_amount r) = Some cb
    /\ cents_of (tax_amount_withheld r) = Some ct
    /\ nth 8 (dat_fields returning_period seq r) "" = base ++ " "
    /\ nth 9 (dat_fields returning_period seq r) "" = tax ++ " "
    /\ String.length base = 13%nat /\ all_digits base = true
    /\ py_int base = Some cb
    /\ String.length tax = 13%nat /\ all_digits tax = true
    /\ py_int tax = Some ct
    /\ String.length (documented_amount_field cb) = 14%nat
    /\ String.length (documented_amount_field ct) = 14%nat
    /\ nth 8 (dat_fields returning_period seq r) ""
       <> documented_amount_field cb
    /\ nth 9 (dat_fields returning_period seq r) ""
       <> documented_amount_field ct.
Proof.
  intros Hbase Htax.
  destruct (amount_field _ Hbase) as (base & Hb & Hbl & Hbd & Hbv).
  destruct (amount_field _ Htax) as (tax & Ht & Htl & Htd & Htv).
  unfold fits in Hbase, Htax.
  destruct (cents_of (base_amount r)) as [cb|] eqn:Hcb; [|discriminate].
  destruct (cents_of (tax_amount_withheld r)) as [ct|] eqn:Hct;
    [|discriminate].
  apply Z.ltb_lt in Hbase, Htax.
  pose proof (cents_of_nonneg _ _ Hcb) as Hb0.
  pose proof (cents_of_nonneg _ _ Hct) as Ht0.
  assert (Hlen : forall c, 0 <= c < 10 ^ 13 ->
                 String.length (documented_amount_field c) = 14%nat).
  { intros c Hc. unfold documented_amount_field. rewrite length_zfill.
    pose proof (length_str_nat c 14 ltac:(cbn; lia) ltac:(lia)). lia. }
  assert (Hne : forall s c, 0 <= c -> s ++ " " <> documented_amount_field c).
  { intros s c Hc Heq.
    pose proof (all_digits_documented c Hc) as Hd.
    rewrite <- Heq, not_all_digits_space in Hd. discriminate. }
  exists base, tax, cb, ct.
  unfold dat_fields. cbn [nth]. rewrite Hb, Ht.
  repeat split; auto.
Qed.

End DatFile.

(** A base amount of 1234.50 and a tax amount of 24.69: the fields hold
    "0000000123450 " and "0000000002469 ", the layout has
    "00000000123450" and "00000000002469". *)
Lemma amount_fields_not_as_documented_witness :
  let r := {| BirComplianceTool.vendor_tin := "123-456-789";
              BirComplianceTool.vendor_name := "ACME Supplies";
              BirComplianceTool.vendor_address := "1 Main St, Makati";
              BirComplianceTool.atc := "WC010";
              BirComplianceTool.tax_rate := 2;
              BirComplianceTool.base_amount := 1234.5;
              BirComplianceTool.tax_amount_withheld := 24.69;
              BirComplianceTool.bill_ref := "BILL/2025/0001";
              BirComplianceTool.bill_date := Some (mkdate 2025 11 15) |} in
  (exists base tax cb ct,
      cents_of (BirComplianceTool.base_amount r) = Some cb
      /\ cents_of (BirComplianceTool.tax_amount_withheld r) = Some ct
      /\ nth 8 (BirComplianceTool.dat_fields "122025" 1 r) "" = base ++ " "
      /\ nth 9 (BirComplianceTool.dat_fields "122025" 1 r) "" = tax ++ " "
      /\ String.length base = 13%nat /\ all_digits base = true
      /\ py_int base = Some cb
      /\ String.length tax = 13%nat /\ all_digits tax = true
      /\ py_int tax = Some ct
      /\ String.length (documented_amount_field cb) = 14%nat
      /\ String.length (documented_amount_field ct) = 14%nat
      /\ nth 8 (BirComplianceTool.dat_fields "122025" 1 r) ""
         <> documented_amount_field cb
      /\ nth 9 (BirComplianceTool.dat_fields "122025" 1 r) ""
         <> documented_amount_field ct)
  /\ nth 8 (BirComplianceTool.dat_fields "122025" 1 r) "" = "0000000123450 "
  /\ nth 9 (BirComplianceTool.dat_fields "122025" 1 r) "" = "0000000002469 "
  /\ documented_amount_field 123450 = "00000000123450"
  /\ documented_amount_field 2469 = "00000000002469".
Proof.
  cbn zeta. split.
  - apply (amount_fields_not_as_documented "122025" 1).
    + vm_compute. reflexivity.
    + vm_compute. reflexivity.
  - repeat split; vm_compute; reflexivity.
Defined.


(** ** The configuration of a company *)

Section Configuration.
Import McpFinanceConfig.

(** The configuration [get_config] returns is the one of the store, or
    the defaults, and it is in the store afterwards. *)
Lemma get_config_stores (E : env) (company_id : option Z) (s : db) :
  let cid := or_id company_id (env_company_id E) in
  let config := default default_config (configs s !! cid) in
  exists s1,
    get_config E company_id s = (Ok config, s1)
    /\ configs s1 !! cid = Some config
    /\ moves s1 = moves s
    /\ executions s1 = executions s.
Proof.
  cbn zeta. unfold get_config.
  destruct (configs s !! or_id company_id (env_company_id E)) as [config|]
    eqn:Hc; cbn [default from_option id].
  - exists s. auto.
  - eexists. split; [reflexivity|]. cbn [configs moves executions].
    rewrite lookup_insert_eq. auto.
Qed.

(** X1. [get_config] gets or creates: it returns the configuration the
    store has for the company, or the defaults, which it then stores; it
    leaves the configurations of the other companies, the moves and the
    execution log as they are; and a second call returns the same
    configuration and writes nothing. *)
Theorem get_config_gets_or_creates
    (E : env) (company_id : option Z) (s : db) :
  let cid := or_id company_id (env_company_id E) in
  exists config s1,
    get_config E company_id s = (Ok config, s1)
    /\ config = default default_config (configs s !! cid)
    /\ configs s1 !! cid = Some config
    /\ (forall k, k <> cid -> configs s1 !! k = configs s !! k)
    /\ moves s1 = moves s
    /\ executions s1 = executions s
    /\ get_config E company_id s1 = (Ok config, s1).
Proof.
  cbn zeta. unfold get_config.
  destruct (configs s !! or_id company_id (env_company_id E)) as [config|]
    eqn:Hc.
  - exists config, s. rewrite Hc. repeat split; reflexivity.
  - eexists. eexists. split; [reflexivity|]. cbn [configs moves executions].
    rewrite lookup_insert_eq. repeat split.
    intros k Hk. apply lookup_insert_ne. congruence.
Qed.

End Configuration.

Section CompanyConfiguration.
Import ResCompany.




End CompanyConfiguration.

(** ** The registry of tools *)

Section Registry.
Import McpFinanceTool.
Variable columns : Z -> tool_columns.

(** Whether the loop of [list_available_tools] skips a tool of this
    name. *)
Lemma available_of_names config (tools : list mcp_finance_tool) n :
  In n (map available_name (available_of columns config tools))
  <-> In n (map technical_name tools)
      /\ config_attr config (config_field_of n) <> Some false.
Proof.
  induction tools as [|tool rest IH]; cbn [available_of map In].
  - tauto.
  - destruct (config_attr config (config_field_of (technical_name tool)))
      as [[|]|] eqn:Hattr; cbn [present default from_option id negb andb map In
                                  available_name].
    + rewrite IH. split.
      * intros [<-|[Hin Hn]]; [|tauto]. split; [tauto|congruence].
      * intros [[->|Hin] Hn]; tauto.
    + rewrite IH. split.
      * tauto.
      * intros [[<-|Hin] Hn]; [contradiction|tauto].
    + rewrite IH. split.
      * intros [<-|[Hin Hn]]; [|tauto]. split; [tauto|congruence].
      * intros [[->|Hin] Hn]; tauto.
Qed.

(** X3. Which switches of the configuration hide a tool from
    [list_available_tools]. The call gets or creates the configuration of
    the company; of the tools of the registry it then lists
    [get_trial_balance], [create_journal_entry] and [get_aging_report]
    exactly when the switch of the tool is set, and it lists
    [generate_bir_2307] and [run_month_end_step] whatever the switches
    [enable_bir_tools] and [enable_month_end] say: the names it derives
    for them, [enable_bir_2307] and [enable_month_end_step], are no
    fields of the configuration. *)
Theorem list_available_tools_switches
    (E : env) (company_id : option Z) (s : db) :
  exists config s1 available,
    McpFinanceConfig.get_config E company_id s = (Ok config, s1)
    /\ list_available_tools columns E company_id s = (Ok available, s1)
    /\ forall n,
        In n (map technical_name (tools E)) ->
        let listed := In n (map available_name available) in
        (n = "get_trial_balance" ->
         listed <-> enable_trial_balance config = true)
        /\ (n = "create_journal_entry" ->
            listed <-> enable_journal_entry config = true)
        /\ (n = "get_aging_report" ->
            listed <-> enable_aging_report config = true)
        /\ (n = "generate_bir_2307" -> listed)
        /\ (n = "run_month_end_step" -> listed).
Proof.
  destruct (McpFinanceConfig.get_config E company_id s) as [r s1] eqn:Hcfg.
  assert (exists config, r = Ok config) as [config ->].
  { unfold McpFinanceConfig.get_config in Hcfg.
    destruct (configs s !! or_id company_id (env_company_id E));
      inversion Hcfg; eauto. }
  exists config, s1, (available_of columns config (tools E)).
  split; [reflexivity|]. split.
  { unfold list_available_tools, bind. rewrite Hcfg. reflexivity. }
  intros n Hn. cbn zeta. rewrite available_of_names.
  assert (Hswitch : forall b : bool,
             In n (map technical_name (tools E)) /\ Some b <> Some false
             <-> b = true).
  { intros [|]; split.
    - reflexivity.
    - intros _. split; [exact Hn|discriminate].
    - intros [_ H]. exfalso. apply H. reflexivity.
    - discriminate. }
  split; [|split; [|split; [|split]]]; intros Heq; rewrite Heq in *.
  - apply (Hswitch (enable_trial_balance config)).
  - apply (Hswitch (enable_journal_entry config)).
  - apply (Hswitch (enable_aging_report config)).
  - split; [exact Hn|discriminate].
  - split; [exact Hn|discriminate].
Qed.

End Registry.

(** With every switch unset, the two tools that no switch hides are
    still listed. *)
Example list_available_tools_all_switches_off :
  let config := {|
    enable_trial_balance := false; enable_journal_entry := false;
    enable_month_end := false; enable_bir_tools := false;
    enable_aging_report := false; require_approval_je := true;
    max_je_amount := 0; log_all_queries := true |} in
  let registry :=
    [ {| tool_rec_id := 1; technical_name := "get_trial_balance" |};
      {| tool_rec_id := 2; technical_name := "create_journal_entry" |};
      {| tool_rec_id := 3; technical_name := "run_month_end_step" |};
      {| tool_rec_id := 4; technical_name := "generate_bir_2307" |};
      {| tool_rec_id := 5; technical_name := "get_aging_report" |} ] in
  map McpFinanceTool.available_name
    (McpFinanceTool.available_of
       (fun _ => {| McpFinanceTool.description := None;
                    McpFinanceTool.category := "query";
                    McpFinanceTool.requires_approval := false;
                    McpFinanceTool.parameter_schema := None |})
       config registry)
  = ["run_month_end_step"; "generate_bir_2307"].
Proof. reflexivity. Qed.

Section RegistryLookup.
Import McpFinanceTool McpFinanceToolExecution.
Variable columns : Z -> tool_columns.
Variable json_loads : string -> result json.

(** [json.loads] raises no [UserError]. *)
Hypothesis json_loads_errors :
  forall text e, json_loads text = Raise e -> exn_cls e <> UserError.

(** X4. The registry is looked up in the same way for the schema of a
    tool and for the log of its executions: [get_tool_schema] raises a
    [UserError], "Tool not found", exactly for the names under which
    [log_execution] stores nothing, and for any other name the schema it
    returns carries that name. *)
Theorem unknown_tool_has_no_schema_and_no_log
    (E : env) (n : string) (c : log_call) (s : db) :
  lc_tool_name c = n ->
  match get_tool_schema columns json_loads E n with
  | Raise (Exn UserError msg) =>
      msg = "Tool not found: " ++ n /\ do_log E c s = (Ok None, s)
  | Raise _ =>
      exists r, do_log E c s = (Ok (Some r), with_execution s r)
  | Ok schema =>
      schema_name schema = n
      /\ exists r, do_log E c s = (Ok (Some r), with_execution s r)
  end.
Proof.
  intros <-. unfold get_tool_schema.
  destruct (search_tool E (lc_tool_name c)) as [tool|] eqn:Ht.
  - destruct (log_execution_known_tool E c tool s Ht) as (r & Hlog & _).
    assert (Hname : technical_name tool = lc_tool_name c).
    { unfold search_tool in Ht. apply find_some in Ht as [_ Heq].
      apply String.eqb_eq in Heq. exact Heq. }
    set (text := parameter_schema (columns (tool_rec_id tool))).
    destruct (if truthy_ostr text then json_loads (default "" text)
              else Ok (JObj [])) as [schema|e] eqn:Hs; cbn [rbind].
    + cbn [schema_name]. eauto.
    + destruct (truthy_ostr text); [|discriminate].
      apply json_loads_errors in Hs. destruct e as [[]]; cbn in Hs;
        try contradiction; eauto.
  - split; [reflexivity|]. apply log_execution_unknown_tool, Ht.
Qed.

End RegistryLookup.

(** A name that is registered, and a schema text that parses. *)
Lemma unknown_tool_has_no_schema_and_no_log_witness :
  let c := {| lc_tool_name := "get_trial_balance";
              lc_company_id := 1;
              lc_parameters := JeParams no_je_params;
              lc_result := None;
              lc_error := None;
              lc_execution_time_ms := 3;
              lc_state := st_executed |} in
  exists schema,
    McpFinanceTool.get_tool_schema
      (fun _ => {| McpFinanceTool.description := None;
                   McpFinanceTool.category := "query";
                   McpFinanceTool.requires_approval := false;
                   McpFinanceTool.parameter_schema := Some "{}" |})
      (fun _ => Ok (JObj [])) (demo_env false) "get_trial_balance"
    = Ok schema
    /\ McpFinanceTool.schema_name schema = "get_trial_balance"
    /\ exists r, do_log (demo_env false) c empty_db
                 = (Ok (Some r), with_execution empty_db r).
Proof.
  intros c. eexists. split; [reflexivity|].
  exact (unknown_tool_has_no_schema_and_no_log
           (fun _ => {| McpFinanceTool.description := None;
                        McpFinanceTool.category := "query";
                        McpFinanceTool.requires_approval := false;
                        McpFinanceTool.parameter_schema := Some "{}" |})
           (fun _ => Ok (JObj []))
           ltac:(intros text e H; discriminate H)
           (demo_env false) "get_trial_balance" c empty_db
           ltac:(reflexivity)).
Defined.

(** X5. The execution log is append-only. A sequence of calls of
    [log_execution] leaves the records that were in the log, in their
    order, and adds behind them one record for each call whose tool name
    is registered, in the order of the calls; it changes neither the
    moves nor the configurations. *)
Theorem execution_log_append_only (E : env) (calls : list log_call) (s : db) :
  exists added,
    executions (run_log E calls s) = (executions s ++ added)%list
    /\ map ex_tool_id added
       = flat_map
           (fun c =>
              match McpFinanceToolExecution.search_tool E (lc_tool_name c)
              with
              | Some tool => [tool_rec_id tool]
              | None => []
              end) calls
    /\ map ex_error_message added
       = flat_map
           (fun c =>
              match McpFinanceToolExecution.search_tool E (lc_tool_name c)
              with
              | Some _ => [lc_error c]
              | None => []
              end) calls
    /\ moves (run_log E calls s) = moves s
    /\ configs (run_log E calls s) = configs s.
Proof.
  revert s. induction calls as [|c calls IH]; intros s.
  - exists []. cbn. rewrite app_nil_r. auto.
  - cbn [run_log fold_left flat_map].
    fold (run_log E calls (snd (do_log E c s))).
    destruct (IH (snd (do_log E c s))) as (added & He & Hid & Herr & Hm & Hc).
    unfold do_log, McpFinanceToolExecution.log_execution in *.
    destruct (McpFinanceToolExecution.search_tool E (lc_tool_name c))
      as [tool|]; cbn in *.
    + eexists (_ :: added). rewrite He, <- app_assoc. cbn.
      rewrite Hid, Herr. auto.
    + exists added. auto.
Qed.

(** ** What the tools write *)

Section Frames.

Lemma keeps_ledger_ret {A} (a : A) : keeps_ledger (ret a).
Proof. intros s. cbn. auto. Qed.

Lemma keeps_ledger_raise {A} e : keeps_ledger (raise (A := A) e).
Proof. intros s. cbn. auto. Qed.

Lemma keeps_ledger_lift {A} (r : result A) : keeps_ledger (lift r).
Proof. intros s. cbn. auto. Qed.

Lemma keeps_ledger_raise_if b e : keeps_ledger (raise_if b e).
Proof. destruct b; [apply keeps_ledger_raise|apply keeps_ledger_ret]. Qed.

Lemma keeps_ledger_bind {A B} (c : M A) (k : A -> M B) :
  keeps_ledger c -> (forall a, keeps_ledger (k a)) -> keeps_ledger (bind c k).
Proof.
  intros Hc Hk s. unfold bind. specialize (Hc s).
  destruct (c s) as [[a|e] s1]; cbn [snd] in *.
  - destruct (Hk a s1) as [Hm Hcfg]. destruct Hc as [Hm1 Hcfg1].
    split; [congruence|]. intros k0 config H. apply Hcfg, Hcfg1, H.
  - exact Hc.
Qed.

Lemma keeps_ledger_try_except {A} (c : M A) (h : exn -> M A) :
  keeps_ledger c -> (forall e, keeps_ledger (h e)) ->
  keeps_ledger (try_except c h).
Proof.
  intros Hc Hh s. unfold try_except. specialize (Hc s).
  destruct (c s) as [[a|e] s1]; cbn [snd] in *.
  - exact Hc.
  - destruct (Hh e s1) as [Hm Hcfg]. destruct Hc as [Hm1 Hcfg1].
    split; [congruence|]. intros k0 config H. apply Hcfg, Hcfg1, H.
Qed.

Lemma keeps_ledger_get_config E cid :
  keeps_ledger (McpFinanceConfig.get_config E cid).
Proof.
  intros s. unfold McpFinanceConfig.get_config.
  destruct (configs s !! or_id cid (env_company_id E)) eqn:Hc;
    cbn [snd moves configs]; split; auto.
  intros k config H. rewrite lookup_insert_ne; [exact H|congruence].
Qed.

Lemma keeps_ledger_log_execution E name cid params res err ms st :
  keeps_ledger
    (McpFinanceToolExecution.log_execution E name cid params res err ms st).
Proof.
  intros s. unfold McpFinanceToolExecution.log_execution.
  destruct (McpFinanceToolExecution.search_tool E name); cbn; auto.
Qed.

Lemma keeps_log_ret {A} (a : A) : keeps_log (ret a).
Proof. intros s. reflexivity. Qed.

Lemma keeps_log_raise {A} e : keeps_log (raise (A := A) e).
Proof. intros s. reflexivity. Qed.

Lemma keeps_log_lift {A} (r : result A) : keeps_log (lift r).
Proof. intros s. reflexivity. Qed.

Lemma keeps_log_raise_if b e : keeps_log (raise_if b e).
Proof. destruct b; intros s; reflexivity. Qed.

Lemma keeps_log_get_config E cid :
  keeps_log (McpFinanceConfig.get_config E cid).
Proof.
  intros s. unfold McpFinanceConfig.get_config.
  destruct (configs s !! or_id cid (env_company_id E)); reflexivity.
Qed.

Lemma keeps_log_required_str v msg :
  keeps_log (JournalEntryTool.required_str v msg).
Proof. destruct v as [[|c v]|]; intros s0; reflexivity. Qed.

Lemma keeps_log_create_move cid j d ref mls :
  keeps_log (JournalEntryTool.create_move cid j d ref mls).
Proof. intros s. reflexivity. Qed.

Lemma keeps_log_action_post m : keeps_log (JournalEntryTool.action_post m).
Proof. intros s. reflexivity. Qed.

Lemma logs_once_bind {A B} (Q : B -> execution -> Prop)
    (c : M A) (k : A -> M B) :
  keeps_log c -> (forall a, logs_once Q (k a)) -> logs_once Q (bind c k).
Proof.
  intros Hc Hk s. unfold bind. specialize (Hc s).
  destruct (c s) as [[a|e] s1]; cbn [snd] in Hc.
  - specialize (Hk a s1). destruct (k a s1) as [[b|e] s2].
    + rewrite Hc in Hk. exact Hk.
    + congruence.
  - exact Hc.
Qed.

Lemma returns_bind {A B} (c : M A) (k : A -> M B) :
  returns c -> (forall a, returns (k a)) -> returns (bind c k).
Proof.
  intros Hc Hk s. unfold bind.
  destruct (Hc s) as (a & s1 & ->). apply Hk.
Qed.

Lemma returns_ret {A} (a : A) : returns (ret a).
Proof. intros s. cbn. eauto. Qed.

Lemma returns_log_execution E name cid params res err ms st :
  returns
    (McpFinanceToolExecution.log_execution E name cid params res err ms st).
Proof.
  intros s. unfold McpFinanceToolExecution.log_execution.
  destruct (McpFinanceToolExecution.search_tool E name); cbn; eauto.
Qed.

Lemma returns_raises_before_create {A} (c : M A) :
  returns c -> raises_before_create c.
Proof.
  intros Hc s e s' H. destruct (Hc s) as (a & s1 & H1). congruence.
Qed.

Lemma raises_before_create_bind {A B} (c : M A) (k : A -> M B) :
  keeps_ledger c -> (forall a, raises_before_create (k a)) ->
  raises_before_create (bind c k).
Proof.
  intros Hc Hk s e s'. unfold bind. destruct (Hc s) as [Hm _].
  destruct (c s) as [[a|e1] s1]; cbn [snd] in Hm.
  - intros H. rewrite (Hk a s1 e s' H). exact Hm.
  - intros [= _ <-]. exact Hm.
Qed.

End Frames.

(** One step of a proof that a computation keeps the ledger, or the
    log. *)
Ltac keeps_step :=
  first
    [ apply keeps_ledger_ret | apply keeps_ledger_raise
    | apply keeps_ledger_lift | apply keeps_ledger_raise_if
    | apply keeps_ledger_get_config | apply keeps_ledger_log_execution
    | apply keeps_log_ret | apply keeps_log_raise
    | apply keeps_log_lift | apply keeps_log_raise_if
    | apply keeps_log_get_config | apply keeps_log_required_str
    | apply keeps_log_create_move | apply keeps_log_action_post
    | match goal with
      | |- keeps_ledger (bind _ _) => apply keeps_ledger_bind; [|intros ?]
      | |- keeps_ledger (match ?x with _ => _ end) => destruct x
      | |- keeps_log (match ?x with _ => _ end) => destruct x
      end ].

(** X6. The two query tools write no move. Whatever the parameters and
    the store, a call of the trial balance tool or of the BIR 2307 tool
    leaves every move of the store, and every configuration that exists,
    as it is: it can only add the default configuration of a company
    that has none, and records to the execution log. *)
Theorem query_tools_write_no_move (E : env) (s : db) :
  (forall params,
      let s' := snd (TrialBalanceTool.execute E params s) in
      moves s' = moves s
      /\ forall k config, configs s !! k = Some config ->
                          configs s' !! k = Some config)
  /\ (forall xlsxwriter b64encode params,
         let s' :=
           snd (BirComplianceTool.execute xlsxwriter b64encode E params s) in
         moves s' = moves s
         /\ forall k config, configs s !! k = Some config ->
                             configs s' !! k = Some config).
Proof.
  split.
  - intros params. cbn zeta.
    assert (H : keeps_ledger (TrialBalanceTool.execute E params)).
    { unfold TrialBalanceTool.execute, tool_boundary.
      apply keeps_ledger_try_except; [|intros e; repeat keeps_step].
      apply keeps_ledger_bind; [|intros a; apply keeps_ledger_ret].
      unfold TrialBalanceTool.execute_body. cbn zeta. repeat keeps_step. }
    apply H.
  - intros xlsxwriter b64encode params. cbn zeta.
    assert (H : keeps_ledger
                  (BirComplianceTool.execute xlsxwriter b64encode E params)).
    { unfold BirComplianceTool.execute, tool_boundary.
      apply keeps_ledger_try_except; [|intros e; repeat keeps_step].
      apply keeps_ledger_bind; [|intros a; apply keeps_ledger_ret].
      unfold BirComplianceTool.execute_body. cbn zeta. repeat keeps_step. }
    apply H.
Qed.

Ltac logs_step :=
  first
    [ apply logs_once_bind; [solve [repeat keeps_step]|intros ?]
    | match goal with
      | |- logs_once _ (match ?x with _ => _ end) => destruct x
      end ].

(** ** The execution log and the boundary on any request *)

Section AnyRequestLog.
Variable integrity_error : Z -> exn.
Variable E : env.

(** What a call of [log_execution] does: nothing for a tool that is not
    registered; for a registered tool it raises the exception of
    [json.dumps] when the dict is not empty and has no JSON text, it
    raises the exception of the database when the company does not
    exist, and otherwise it adds its record to the log. In no case does
    it change a move or a configuration, and when it raises it leaves
    the log as it is. *)
Lemma log_execution_cases name cid dict res err ms st s :
  AnyRequest.log_execution integrity_error E name cid dict res err ms st s
  = match McpFinanceToolExecution.search_tool E name with
    | None => (Ok None, s)
    | Some tool =>
        match (if AnyRequest.dict_bool dict
               then (text <~ AnyRequest.dict_dumps dict ;; Ok (Some text))
               else Ok None) with
        | Raise e => (Raise e, s)
        | Ok text =>
            match companies E !! cid with
            | None => (Raise (integrity_error cid), s)
            | Some _ =>
                let r := logged_record E tool cid text res err ms st in
                (Ok (Some r), with_execution s r)
            end
        end
    end.
Proof.
  unfold AnyRequest.log_execution.
  destruct (McpFinanceToolExecution.search_tool E name) as [tool|];
    [|reflexivity].
  unfold bind, lift.
  destruct (if AnyRequest.dict_bool dict
            then (text <~ AnyRequest.dict_dumps dict ;; Ok (Some text))
            else Ok None) as [text|e]; [|reflexivity].
  unfold AnyRequest.create. cbn [ex_company_id].
  destruct (companies E !! cid); reflexivity.
Qed.

(** A dict that holds a date object is not empty, and [json.dumps]
    refuses it. *)
Lemma je_dict_date_object params d :
  AnyRequest.q_date params = AnyRequest.DateObject d ->
  AnyRequest.dict_bool (AnyRequest.je_dict params) = true
  /\ AnyRequest.dict_dumps (AnyRequest.je_dict params)
     = Raise (Exn TypeError "Object of type date is not JSON serializable").
Proof.
  intros H. unfold AnyRequest.je_dict, AnyRequest.params_read.
  cbn [AnyRequest.dict_bool AnyRequest.dict_dumps params_truthy p_date
       p_company_id p_journal_code p_ref p_lines p_auto_post].
  rewrite H. split; [|reflexivity].
  rewrite !orb_true_r. reflexivity.
Qed.

(** The stored parameters of a dict whose date is no date object. *)
Lemma je_dict_text params p :
  AnyRequest.q_date params = AnyRequest.DateText p ->
  exists text,
    (if AnyRequest.dict_bool (AnyRequest.je_dict params)
     then (text <~ AnyRequest.dict_dumps (AnyRequest.je_dict params) ;;
           Ok (Some text))
     else Ok None) = Ok text.
Proof.
  intros H. unfold AnyRequest.je_dict.
  cbn [AnyRequest.dict_bool AnyRequest.dict_dumps]. rewrite H.
  destruct (_ || _); cbn; eauto.
Qed.

Lemma any_tool_boundary_ok {A} name cp dict (body : M A) s a s1 :
  body s = (Ok a, s1) ->
  AnyRequest.tool_boundary integrity_error E name cp dict body s
  = (Ok (Success a), s1).
Proof.
  intros H. unfold AnyRequest.tool_boundary, try_except.
  rewrite (bind_ok _ _ _ _ _ H). reflexivity.
Qed.

(** The handler of a failure: the envelope, unless the call of
    [log_execution] raises. *)
Lemma any_tool_boundary_raise {A} name cp dict (body : M A) s e s1 :
  body s = (Raise e, s1) ->
  AnyRequest.tool_boundary integrity_error E name cp dict body s
  = match AnyRequest.log_execution integrity_error E name
            (or_id cp (env_company_id E)) dict None (Some (str_exn e))
            (elapsed_ms E) st_executed s1 with
    | (Ok _, s2) => (Ok (Failure (str_exn e) (type_name e)), s2)
    | (Raise e', s2) => (Raise e', s2)
    end.
Proof.
  intros H. unfold AnyRequest.tool_boundary, try_except.
  rewrite (bind_raise _ _ _ _ _ H). unfold bind.
  destruct (AnyRequest.log_execution _ _ _ _ _ _ _ _ _ _) as [[o|e'] s2];
    reflexivity.
Qed.

(** C6. The failure handler of [execute] can raise, and then the
    exception escapes [execute]: no envelope is returned and no audit
    record is written. When the code inside the [try] of a registered
    tool raises, for a parameter dict that is not empty and that
    [json.dumps] refuses (a dict with a [datetime.date] for one), the
    call of [log_execution] in the [except] clause raises the exception
    of [json.dumps] before it creates a record; this exception is the
    outcome of [execute], and the store is left as the code inside the
    [try] left it. *)
Theorem failure_handler_raises {A}
    (tool_name : string) (company_param : option Z)
    (params : AnyRequest.dict_arg) (body : M A)
    (tool : mcp_finance_tool) (e e' : exn) (s s1 : db) :
  McpFinanceToolExecution.search_tool E tool_name = Some tool ->
  AnyRequest.dict_bool params = true ->
  AnyRequest.dict_dumps params = Raise e' ->
  body s = (Raise e, s1) ->
  AnyRequest.tool_boundary integrity_error E tool_name company_param params
    body s
  = (Raise e', s1).
Proof.
  intros Htool Hbool Hdumps Hbody.
  rewrite (any_tool_boundary_raise _ _ _ _ _ _ _ Hbody).
  rewrite log_execution_cases, Htool, Hbool, Hdumps. reflexivity.
Qed.

End AnyRequestLog.

Section AnyJournalEntryLog.
Variable integrity_error : Z -> exn.
Variables (E : env) (tool : mcp_finance_tool).
Hypothesis Htool :
  McpFinanceToolExecution.search_tool E "create_journal_entry" = Some tool.

(** With a date object in the request, the code inside the [try] raises
    whatever the request is, at the latest in its own call of
    [log_execution]; it leaves the log as it is. *)
Lemma execute_body_date_object (params : AnyRequest.je_args) (d : date) :
  AnyRequest.q_date params = AnyRequest.DateObject d ->
  logs_once (fun _ _ => False)
    (AnyRequest.execute_body integrity_error E params).
Proof.
  intros Hdate. destruct (je_dict_date_object params d Hdate) as [Hb Hd].
  unfold AnyRequest.execute_body. cbn zeta.
  repeat logs_step.
  intros s. unfold bind. rewrite log_execution_cases, Htool, Hb, Hd.
  reflexivity.
Qed.

(** Every call of the journal entry tool with a date object for its date
    raises a [TypeError], also a call that has created and posted its
    move; nothing is logged. *)
Lemma execute_raises_on_date_object (params : AnyRequest.je_args) (d : date)
    (s : db) :
  AnyRequest.q_date params = AnyRequest.DateObject d ->
  exists s2,
    AnyRequest.execute integrity_error E params s
    = (Raise (Exn TypeError "Object of type date is not JSON serializable"),
       s2)
    /\ executions s2 = executions s.
Proof.
  intros Hdate. destruct (je_dict_date_object params d Hdate) as [Hb Hd].
  pose proof (execute_body_date_object params d Hdate s) as Hbody.
  destruct (AnyRequest.execute_body integrity_error E params s)
    as [[a|e] s1] eqn:Hrun.
  - destruct Hbody as (r & _ & []).
  - exists s1. split; [|exact Hbody].
    unfold AnyRequest.execute.
    rewrite (any_tool_boundary_raise _ _ _ _ _ _ _ _ _ Hrun).
    rewrite log_execution_cases, Htool, Hb, Hd. reflexivity.
Qed.

Section Logged.
Variables (params : AnyRequest.je_args) (company : res_company).
Variable p : date_param.
Local Abbreviation cid :=
  (or_id (AnyRequest.q_company_id params) (env_company_id E)).
Hypothesis Hcompany : companies E !! cid = Some company.
Hypothesis Hdate : AnyRequest.q_date params = AnyRequest.DateText p.

(** The record the body logs when it returns. *)
Lemma any_execute_body_logs_once :
  logs_once
    (fun a r =>
       ex_tool_id r = tool_rec_id tool
       /\ ex_user_id r = env_uid E
       /\ ex_company_id r = cid
       /\ ex_error_message r = None
       /\ ex_result r
          = Some (JeSummary (JournalEntryTool.r_move_id a)
                    (JournalEntryTool.r_move_name a)
                    (JournalEntryTool.r_total_amount a))
       /\ ex_state r
          = (if JournalEntryTool.r_requires_approval a
             then st_pending else st_executed))
    (AnyRequest.execute_body integrity_error E params).
Proof.
  destruct (je_dict_text params p Hdate) as (text & Htext).
  unfold AnyRequest.execute_body. cbn zeta.
  repeat logs_step.
  intros s. unfold bind. rewrite log_execution_cases, Htool, Htext, Hcompany.
  cbn.
  eexists. split; [reflexivity|]. cbn.
  repeat split.
Qed.

(** X7. Every call of the journal entry tool is audited once. When the
    tool is registered, the company of the call exists and the date of
    the request is no date object (it is absent, or a string), a call
    returns its envelope after it has added exactly one record to the
    execution log, behind the records that were there: the record names
    the tool, the user and the company of the call; for a success it has
    no error message, the summary of the move, and the state [pending]
    when the entry requires approval and [executed] when it does not;
    for a failure, a line with an amount that [float] refuses included,
    it has the message of the envelope, no summary, and the state
    [failed] unless the message is empty. *)
Theorem journal_entry_call_logged_once (s : db) :
  exists envelope s2 r,
    AnyRequest.execute integrity_error E params s = (Ok envelope, s2)
    /\ executions s2 = (executions s ++ [r])%list
    /\ ex_tool_id r = tool_rec_id tool
    /\ ex_user_id r = env_uid E
    /\ ex_company_id r = cid
    /\ match envelope with
       | Success a =>
           ex_error_message r = None
           /\ ex_result r
              = Some (JeSummary (JournalEntryTool.r_move_id a)
                        (JournalEntryTool.r_move_name a)
                        (JournalEntryTool.r_total_amount a))
           /\ ex_state r
              = (if JournalEntryTool.r_requires_approval a
                 then st_pending else st_executed)
       | Failure error _ =>
           ex_error_message r = Some error
           /\ ex_result r = None
           /\ (truthy_str error = true -> ex_state r = st_failed)
       end.
Proof.
  pose proof (any_execute_body_logs_once s) as Hbody.
  destruct (je_dict_text params p Hdate) as (text & Htext).
  destruct (AnyRequest.execute_body integrity_error E params s)
    as [[a|e] s1] eqn:Hrun.
  - destruct Hbody as (r & Hlog & H1 & H2 & H3 & H4 & H5 & H6).
    exists (Success a), s1, r. split; [apply any_tool_boundary_ok, Hrun|].
    auto 10.
  - unfold AnyRequest.execute.
    rewrite (any_tool_boundary_raise _ _ _ _ _ _ _ _ _ Hrun).
    rewrite log_execution_cases, Htool, Htext, Hcompany. cbn zeta.
    eexists. eexists. eexists. split; [reflexivity|].
    cbn. rewrite Hbody. repeat split.
    intros Herr. cbn. rewrite Herr. reflexivity.
Qed.

End Logged.

End AnyJournalEntryLog.

(** The request of a balanced entry with a date object for its date, on
    the small ledger: the move is created and posted, and the exception
    of [json.dumps] in the failure handler is the outcome of the call. *)
Lemma failure_handler_raises_witness :
  exists s1,
    AnyRequest.execute demo_integrity_error (demo_env false)
      (demo_args (AnyRequest.DateObject (mkdate 2025 6 30)) balanced_line_args)
      (demo_db (demo_config false 0))
    = (Raise (Exn TypeError "Object of type date is not JSON serializable"),
       s1)
    /\ map mv_state (moves s1) = [Posted]
    /\ executions s1 = [].
Proof.
  eexists. split.
  - apply (failure_handler_raises demo_integrity_error (demo_env false)
             "create_journal_entry" None
             (AnyRequest.je_dict
                (demo_args (AnyRequest.DateObject (mkdate 2025 6 30))
                   balanced_line_args))
             (AnyRequest.execute_body demo_integrity_error (demo_env false)
                (demo_args (AnyRequest.DateObject (mkdate 2025 6 30))
                   balanced_line_args))
             {| tool_rec_id := 2; technical_name := "create_journal_entry" |}
             (Exn TypeError "Object of type date is not JSON serializable")
             (Exn TypeError "Object of type date is not JSON serializable")
             (demo_db (demo_config false 0))).
    + reflexivity.
    + reflexivity.
    + reflexivity.
    + vm_compute. reflexivity.
  - split; reflexivity.
Defined.

(** A balanced entry on the small ledger. *)
Lemma journal_entry_call_logged_once_witness :
  exists envelope s2 r,
    AnyRequest.execute demo_integrity_error (demo_env false)
      (demo_args (AnyRequest.DateText (DateValue (mkdate 2025 6 30)))
         balanced_line_args)
      (demo_db (demo_config true 0))
    = (Ok envelope, s2)
    /\ executions s2 = (executions (demo_db (demo_config true 0)) ++ [r])%list
    /\ ex_tool_id r = 2
    /\ ex_user_id r = 2
    /\ ex_company_id r = 1
    /\ match envelope with
       | Success a =>
           ex_error_message r = None
           /\ ex_result r
              = Some (JeSummary (JournalEntryTool.r_move_id a)
                        (JournalEntryTool.r_move_name a)
                        (JournalEntryTool.r_total_amount a))
           /\ ex_state r
              = (if JournalEntryTool.r_requires_approval a
                 then st_pending else st_executed)
       | Failure error _ =>
           ex_error_message r = Some error
           /\ ex_result r = None
           /\ (truthy_str error = true -> ex_state r = st_failed)
       end.
Proof.
  apply (journal_entry_call_logged_once demo_integrity_error (demo_env false)
           {| tool_rec_id := 2; technical_name := "create_journal_entry" |}
           ltac:(reflexivity)
           (demo_args (AnyRequest.DateText (DateValue (mkdate 2025 6 30)))
              balanced_line_args)
           demo_company (DateValue (mkdate 2025 6 30))
           ltac:(reflexivity) ltac:(reflexivity)).
Defined.

(** ** A valid request of any shape *)

(** A request that passes the checks [execute] makes before the period
    lock and whose date is a string. *)
Section AnyValidRequest.
Variable integrity_error : Z -> exn.
Variables (E : env) (params : AnyRequest.je_args) (s s1 : db).
Variables (company : res_company) (config : mcp_finance_config).
Variables (code ref : string) (d : date).
Variables (line : AnyRequest.line_arg) (lines : list AnyRequest.line_arg).
Variable journal : account_journal.
Local Abbreviation cid :=
  (or_id (AnyRequest.q_company_id params) (env_company_id E)).
Hypothesis Hco : companies E !! cid = Some company.
Hypothesis Hcfg :
  McpFinanceConfig.get_config E (Some cid) s = (Ok config, s1).
Hypothesis Hen : enable_journal_entry config = true.
Hypothesis Hcode : AnyRequest.q_journal_code params = Some code.
Hypothesis Hcodet : truthy_str code = true.
Hypothesis Hdate :
  AnyRequest.q_date params = AnyRequest.DateText (DateValue d).
Hypothesis Href : AnyRequest.q_ref params = Some ref.
Hypothesis Hreft : truthy_str ref = true.
Hypothesis Hlines : AnyRequest.q_lines params = Some (line :: lines).
Hypothesis Hlock : JournalEntryTool._check_period_lock E cid d = Ok tt.
Hypothesis Hjournal :
  find (fun j => String.eqb (journal_code j) code
                 && (journal_company_id j =? cid)) (journals E)
  = Some journal.

(** X29. The move that a successful call creates is the entry that was
    asked for. For a request that passes all checks and gives its date
    as a string, the call adds one move behind the moves of the store:
    the move of the company, in the journal with the code of the
    request, at its date and with its reference, whose lines are the
    lines that [_build_move_lines] made of the lines of the request, in
    their order; the envelope gives the id, the name and the state of
    that move, which is posted when the caller asked for it and no
    approval is required, and in draft otherwise. *)
Theorem journal_entry_creates_requested_move move_lines :
  AnyRequest._build_move_lines E (line :: lines) cid = Ok move_lines ->
  JournalEntryTool._validate_balance move_lines = Ok tt ->
  exists r s2 m,
    AnyRequest.execute integrity_error E params s = (Ok (Success r), s2)
    /\ List.length (moves s2) = S (List.length (moves s))
    /\ last (moves s2) = Some m
    /\ mv_company_id m = cid
    /\ mv_journal_id m = journal_id journal
    /\ mv_date m = d
    /\ mv_ref m = ref
    /\ mv_line_ids m = move_lines
    /\ JournalEntryTool.r_move_id r = move_id m
    /\ JournalEntryTool.r_move_name r = move_name E (move_id m)
    /\ JournalEntryTool.r_state r = mv_state m
    /\ mv_state m
       = (if default false (AnyRequest.q_auto_post params)
             && negb (JournalEntryTool.requires_approval_of config
                        (py_sum (map ml_debit move_lines)))
          then Posted else Draft)
    /\ JournalEntryTool.r_line_count r = Z.of_nat (List.length move_lines)
    /\ JournalEntryTool.r_journal r = journal_name journal.
Proof.
  intros Hb Hv.
  destruct (get_config_frame _ _ _ _ _ Hcfg) as [Hm _].
  destruct (je_dict_text params _ Hdate) as (text & Htext).
  set (requires_approval :=
         JournalEntryTool.requires_approval_of config
           (py_sum (map ml_debit move_lines))).
  assert (exists r s2 m,
             AnyRequest.execute_body integrity_error E params s = (Ok r, s2)
             /\ List.length (moves s2) = S (List.length (moves s))
             /\ last (moves s2) = Some m
             /\ mv_company_id m = cid
             /\ mv_journal_id m = journal_id journal
             /\ mv_date m = d
             /\ mv_ref m = ref
             /\ mv_line_ids m = move_lines
             /\ JournalEntryTool.r_move_id r = move_id m
             /\ JournalEntryTool.r_move_name r = move_name E (move_id m)
             /\ JournalEntryTool.r_state r = mv_state m
             /\ mv_state m
                = (if default false (AnyRequest.q_auto_post params)
                      && negb requires_approval
                   then Posted else Draft)
             /\ JournalEntryTool.r_line_count r
                = Z.of_nat (List.length move_lines)
             /\ JournalEntryTool.r_journal r = journal_name journal)
    as (r & s2 & m & H & Hr).
  { unfold AnyRequest.execute_body. cbn zeta.
    rewrite (bind_ok _ _ s company s) by (rewrite Hco; reflexivity).
    rewrite (bind_ok _ _ s config s1 Hcfg).
    rewrite (bind_ok _ _ s1 tt s1) by (rewrite Hen; reflexivity).
    rewrite (bind_ok _ _ s1 code s1)
      by (rewrite Hcode; apply required_str_ok, Hcodet).
    rewrite (bind_ok _ _ s1 (Some d) s1) by (rewrite Hdate; reflexivity).
    rewrite (bind_ok _ _ s1 d s1) by reflexivity.
    rewrite (bind_ok _ _ s1 ref s1)
      by (rewrite Href; apply required_str_ok, Hreft).
    rewrite (bind_ok _ _ s1 (line :: lines) s1)
      by (rewrite Hlines; reflexivity).
    rewrite (bind_ok _ _ s1 tt s1) by (unfold lift; rewrite Hlock; reflexivity).
    rewrite (bind_ok _ _ s1 journal s1) by (rewrite Hjournal; reflexivity).
    rewrite (bind_ok _ _ s1 move_lines s1)
      by (unfold lift; rewrite Hb; reflexivity).
    rewrite (bind_ok _ _ s1 tt s1) by (unfold lift; rewrite Hv; reflexivity).
    fold requires_approval.
    unfold bind at 1 2 3. unfold JournalEntryTool.create_move,
      JournalEntryTool.action_post, ret.
    destruct requires_approval,
      (default false (AnyRequest.q_auto_post params));
      cbn [andb negb];
      rewrite log_execution_cases, Htext;
      cbn [moves configs executions];
      destruct (McpFinanceToolExecution.search_tool E "create_journal_entry");
      rewrite ?Hco;
      cbn; eexists; eexists; eexists; (split; [reflexivity|]); cbn;
      rewrite ?map_app, ?length_app, ?length_map, <- ?Hm;
      cbn [map List.length move_id]; rewrite ?Z.eqb_refl, ?last_snoc;
      (split; [lia|]); repeat split. }
  exists r, s2, m. split; [|exact Hr].
  unfold AnyRequest.execute. apply any_tool_boundary_ok, H.
Qed.

End AnyValidRequest.

(** A balanced entry of 1000 on the small ledger, dated by a string and
    posted at the request of the caller. *)
Lemma journal_entry_creates_requested_move_witness :
  exists r s2 m,
    AnyRequest.execute demo_integrity_error (demo_env false)
      (demo_args (AnyRequest.DateText (DateValue (mkdate 2025 6 30)))
         balanced_line_args)
      (demo_db (demo_config false 0))
    = (Ok (Success r), s2)
    /\ List.length (moves s2) = 1%nat
    /\ last (moves s2) = Some m
    /\ mv_company_id m = 1
    /\ mv_journal_id m = 1
    /\ mv_date m = mkdate 2025 6 30
    /\ mv_ref m = "Accrual"
    /\ mv_line_ids m
       = [ {| ml_account_id := 3; ml_name := "/"; ml_debit := 1000;
              ml_credit := 0; ml_partner_id := None;
              ml_analytic_distribution := None |};
           {| ml_account_id := 2; ml_name := "/"; ml_debit := 0;
              ml_credit := 1000; ml_partner_id := None;
              ml_analytic_distribution := None |} ]
    /\ JournalEntryTool.r_move_id r = move_id m
    /\ JournalEntryTool.r_move_name r = "MISC/" ++ str_int (move_id m)
    /\ JournalEntryTool.r_state r = mv_state m
    /\ mv_state m = Posted
    /\ JournalEntryTool.r_line_count r = 2
    /\ JournalEntryTool.r_journal r = "Miscellaneous".
Proof.
  apply (journal_entry_creates_requested_move demo_integrity_error
           (demo_env false)
           (demo_args (AnyRequest.DateText (DateValue (mkdate 2025 6 30)))
              balanced_line_args)
           (demo_db (demo_config false 0)) (demo_db (demo_config false 0))
           demo_company (demo_config false 0) "MISC" "Accrual"
           (mkdate 2025 6 30)
           (demo_line_arg "6010" (AnyRequest.AmountValue 1000)
              (AnyRequest.AmountValue 0))
           [demo_line_arg "2010" (AnyRequest.AmountValue 0)
              (AnyRequest.AmountValue 1000)]
           {| journal_id := 1; journal_code := "MISC";
              journal_company_id := 1; journal_name := "Miscellaneous" |}
           ltac:(reflexivity) ltac:(reflexivity) ltac:(reflexivity)
           ltac:(reflexivity) ltac:(reflexivity) ltac:(reflexivity)
           ltac:(reflexivity) ltac:(reflexivity) ltac:(reflexivity)
           ltac:(reflexivity) ltac:(reflexivity)
           _ ltac:(reflexivity) ltac:(reflexivity)).
Defined.

Lemma or_id_absorb (o : option Z) (d : Z) :
  or_id (Some (or_id o d)) d = or_id o d.
Proof.
  unfold or_id. destruct o as [n|].
  - destruct (n =? 0) eqn:Hn.
    + destruct (d =? 0); reflexivity.
    + rewrite Hn. reflexivity.
  - destruct (d =? 0); reflexivity.
Qed.

Lemma keeps_ledger_required_str v msg :
  keeps_ledger (JournalEntryTool.required_str v msg).
Proof. destruct v as [[|c v]|]; intros s0; cbn; auto. Qed.

Lemma returns_create_move cid j d ref mls :
  returns (JournalEntryTool.create_move cid j d ref mls).
Proof. intros s. unfold JournalEntryTool.create_move. eauto. Qed.

Lemma returns_action_post m : returns (JournalEntryTool.action_post m).
Proof. intros s. unfold JournalEntryTool.action_post. eauto. Qed.

Ltac returns_step :=
  first
    [ apply returns_ret | apply returns_log_execution
    | apply returns_create_move | apply returns_action_post
    | match goal with
      | |- returns (bind _ _) => apply returns_bind; [|intros ?]
      | |- returns (if ?b then _ else _) => destruct b
      end ].

Ltac raises_step :=
  first
    [ apply raises_before_create_bind;
      [solve [repeat first [apply keeps_ledger_required_str|keeps_step]]
      |intros ?]
    | apply returns_raises_before_create; solve [repeat returns_step] ].

Section JournalEntryChecks.
Import JournalEntryTool.
Variables (E : env) (params : je_params) (s : db).
Local Abbreviation cid := (or_id (p_company_id params) (env_company_id E)).

(** All the checks of the tool come before the creation of the move. *)
Lemma execute_body_raises_before_create :
  raises_before_create (execute_body E params).
Proof. unfold execute_body. cbn zeta. repeat raises_step. Qed.

(** X8. A request that the journal entry tool refuses leaves no trace
    in the ledger: when a call returns a failure envelope, the moves of
    the store are those from before the call. (The embedding takes the
    creation and the posting of a move to succeed; every check of the
    tool itself comes before them.) *)
Theorem journal_entry_failure_writes_no_move
    (error kind : string) (s2 : db) :
  execute E params s = (Ok (Failure error kind), s2) ->
  moves s2 = moves s.
Proof.
  unfold execute.
  destruct (execute_body E params s) as [[a|e] s1] eqn:Hrun.
  - rewrite (tool_boundary_ok _ _ _ _ _ _ _ _ Hrun). discriminate.
  - rewrite (tool_boundary_raise _ _ _ _ _ _ _ _ Hrun).
    intros [= _ _ <-].
    destruct (do_log_total E
                (failure_log_call E "create_journal_entry"
                   (p_company_id params) (JeParams params) e) s1)
      as (o & _ & Hm & _).
    rewrite Hm. apply (execute_body_raises_before_create _ _ _ Hrun).
Qed.

(** X9. The journal entry tool is off unless it is switched on. For a
    company that exists, when the configuration of the company (the
    defaults, for a company that has none yet) does not enable the tool,
    every call fails with an [AccessError], whatever the other
    parameters are; it creates no move, and it leaves the company with
    that configuration stored. *)
Theorem journal_entry_refused_unless_enabled (company : res_company) :
  companies E !! cid = Some company ->
  enable_journal_entry (default default_config (configs s !! cid)) = false ->
  exists s2,
    execute E params s
    = (Ok (Failure "Journal Entry tool is disabled for this company"
                   "AccessError"), s2)
    /\ moves s2 = moves s
    /\ configs s2 !! cid = Some (default default_config (configs s !! cid)).
Proof.
  intros Hco Hoff.
  destruct (get_config_stores E (Some cid) s) as (s1 & Hcfg & Hstored & Hm & _).
  cbn zeta in Hcfg, Hstored. rewrite or_id_absorb in Hcfg, Hstored.
  assert (Hrun : execute_body E params s
                 = (Raise (Exn AccessError
                             "Journal Entry tool is disabled for this company"),
                    s1)).
  { unfold execute_body. cbn zeta.
    rewrite (bind_ok _ _ s company s) by (rewrite Hco; reflexivity).
    rewrite (bind_ok _ _ s _ s1 Hcfg).
    apply bind_raise. rewrite Hoff. reflexivity. }
  unfold execute. rewrite (tool_boundary_raise _ _ _ _ _ _ _ _ Hrun).
  eexists. split; [reflexivity|].
  destruct (do_log_total E
              (failure_log_call E "create_journal_entry"
                 (p_company_id params) (JeParams params)
                 (Exn AccessError
                    "Journal Entry tool is disabled for this company")) s1)
    as (o & _ & Hm1 & Hc1).
  rewrite Hm1, Hc1. auto.
Qed.

End JournalEntryChecks.

Section JournalEntryRequiredKeys.
Import JournalEntryTool.
Variables (E : env) (params : je_params) (s : db) (company : res_company).
Local Abbreviation cid := (or_id (p_company_id params) (env_company_id E)).
Hypothesis Hcompany : companies E !! cid = Some company.
Hypothesis Henabled :
  enable_journal_entry (default default_config (configs s !! cid)) = true.

(** A request that does not give the four keys is refused by the checks
    of the required fields, or by the parser of the date. *)
Lemma execute_body_required_fields :
  je_gives params "journal_code" && je_gives params "date"
  && je_gives params "ref" && je_gives params "lines" = false ->
  exists msg s1,
    execute_body E params s = (Raise (Exn UserError msg), s1)
    /\ moves s1 = moves s.
Proof.
  intros Hmissing.
  destruct (get_config_stores E (Some cid) s) as (s1 & Hcfg & _ & Hm & _).
  cbn zeta in Hcfg. rewrite or_id_absorb in Hcfg.
  unfold execute_body. cbn zeta.
  rewrite (bind_ok _ _ s company s) by (rewrite Hcompany; reflexivity).
  rewrite (bind_ok _ _ s _ s1 Hcfg).
  rewrite (bind_ok _ _ s1 tt s1) by (rewrite Henabled; reflexivity).
  unfold je_gives in Hmissing. cbn [String.eqb Ascii.eqb Bool.eqb] in Hmissing.
  unfold bind, required_str, lift, _parse_date, raise, ret.
  destruct (p_journal_code params) as [[|c1 v1]|];
    destruct (p_date params) as [|d|text];
    destruct (p_ref params) as [[|c2 v2]|];
    destruct (p_lines params) as [[|l ls]|];
    cbn in Hmissing; try discriminate Hmissing; cbn; eauto.
Qed.

(** X10. The keys that the schema of the journal entry tool lists as
    required are required by the tool. For a company that exists and has
    the tool enabled, a request that does not give one of these keys
    ([journal_code], [date], [ref], [lines]: the key is absent, or its
    value is empty) is answered with a failure envelope of kind
    [UserError], and no move is created. *)
Theorem journal_entry_required_keys_enforced (key : string) :
  In key (required_keys get_tool_schema) ->
  je_gives params key = false ->
  exists msg s2,
    execute E params s = (Ok (Failure msg "UserError"), s2)
    /\ moves s2 = moves s.
Proof.
  intros Hkey Hmissing.
  assert (Hfour : je_gives params "journal_code" && je_gives params "date"
                  && je_gives params "ref" && je_gives params "lines" = false).
  { cbn in Hkey.
    destruct Hkey as [<-|[<-|[<-|[<-|[]]]]]; rewrite Hmissing;
      rewrite ?andb_false_r; reflexivity. }
  destruct (execute_body_required_fields Hfour) as (msg & s1 & Hrun & Hm).
  unfold execute. rewrite (tool_boundary_raise _ _ _ _ _ _ _ _ Hrun).
  eexists. eexists. split; [reflexivity|].
  destruct (do_log_total E
              (failure_log_call E "create_journal_entry"
                 (p_company_id params) (JeParams params)
                 (Exn UserError msg)) s1)
    as (o & _ & Hm1 & _).
  rewrite Hm1. exact Hm.
Qed.

End JournalEntryRequiredKeys.

(** A request without lines, on the small ledger. *)
Lemma journal_entry_required_keys_enforced_witness :
  exists msg s2,
    JournalEntryTool.execute (demo_env false)
      (demo_request (mkdate 2025 6 30) [])
      (demo_db (demo_config false 0))
    = (Ok (Failure msg "UserError"), s2)
    /\ moves s2 = moves (demo_db (demo_config false 0)).
Proof.
  apply (journal_entry_required_keys_enforced (demo_env false)
           (demo_request (mkdate 2025 6 30) [])
           (demo_db (demo_config false 0)) demo_company
           ltac:(reflexivity) ltac:(reflexivity) "lines").
  - vm_compute. auto.
  - reflexivity.
Defined.

(** ** The lines of a journal entry *)

Lemma date_le_trans (a b c : date) :
  date_le a b = true -> date_le b c = true -> date_le a c = true.
Proof.
  unfold date_le.
  rewrite !orb_true_iff, !andb_true_iff, !orb_true_iff, !andb_true_iff,
    !Z.ltb_lt, !Z.eqb_eq, !Z.leb_le.
  lia.
Qed.

Lemma on_or_before_earlier (d' d : date) (lock : option date) :
  date_le d' d = true ->
  JournalEntryTool.on_or_before d lock = true ->
  JournalEntryTool.on_or_before d' lock = true.
Proof.
  destruct lock as [l|]; cbn; [|discriminate].
  apply date_le_trans.
Qed.

(** X11. A lock date closes every day up to it. When the period lock
    check refuses an entry date for a user, it refuses every earlier date
    for that user as well; so a date that passes the check lets every
    later date pass. *)
Theorem period_lock_closes_earlier_dates
    (E : env) (company_id : Z) (d' d : date) (e : exn) :
  date_le d' d = true ->
  JournalEntryTool._check_period_lock E company_id d = Raise e ->
  exists e', JournalEntryTool._check_period_lock E company_id d' = Raise e'.
Proof.
  intros Hle. unfold JournalEntryTool._check_period_lock.
  destruct (companies E !! company_id) as [company|]; [|eauto].
  destruct (JournalEntryTool.on_or_before d (fiscalyear_lock_date company))
    eqn:Hhard.
  - rewrite (on_or_before_earlier _ _ _ Hle Hhard). eauto.
  - destruct (JournalEntryTool.on_or_before d' (fiscalyear_lock_date company));
      [eauto|].
    destruct (JournalEntryTool.on_or_before d (period_lock_date company))
      eqn:Hsoft; [|discriminate].
    rewrite (on_or_before_earlier _ _ _ Hle Hsoft).
    destruct (user_is_account_manager E); cbn; [discriminate|eauto].
Qed.

(** On the small ledger 2025-03-31 is refused for a user who is no
    manager, and so is 2025-01-15. *)
Lemma period_lock_closes_earlier_dates_witness :
  exists e',
    JournalEntryTool._check_period_lock (demo_env false) 1 (mkdate 2025 1 15)
    = Raise e'.
Proof.
  apply (period_lock_closes_earlier_dates (demo_env false) 1
           (mkdate 2025 1 15) (mkdate 2025 3 31)
           (Exn UserError
              "Period is locked for non-advisers. Lock date: 2025-03-31"));
    reflexivity.
Defined.

Section MoveLines.
Import JournalEntryTool.
Variables (E : env) (company_id : Z).

(** The keys of a line that decide whether it is taken. *)
Lemma build_move_line_optional_keys i (line line' : je_line) :
  l_account line = l_account line' ->
  l_debit line = l_debit line' ->
  l_credit line = l_credit line' ->
  match build_move_line E company_id i line,
        build_move_line E company_id i line' with
  | Ok ml, Ok ml' =>
      ml_account_id ml = ml_account_id ml'
      /\ ml_debit ml = ml_debit ml'
      /\ ml_credit ml = ml_credit ml'
  | Raise e, Raise e' => e = e'
  | _, _ => False
  end.
Proof.
  intros Ha Hd Hc. unfold build_move_line. rewrite <- Ha, <- Hd, <- Hc.
  destruct (truthy_ref (l_account line)); cbn [negb]; [|reflexivity].
  destruct (l_account line) as [account_ref|]; [|reflexivity].
  destruct (find_account E company_id account_ref); [|reflexivity].
  repeat match goal with
         | |- context [if ?b then _ else _] => destruct b
         end; cbn; auto.
Qed.

(** X12. The optional keys of a line never make it fail. Whether a line
    is taken, and the error when it is not, depend on its [account],
    [debit] and [credit] only: a partner that is not found, an analytic
    value or a label change neither; and a line that is taken has the
    account and the amounts of the request whatever these keys hold. *)
Theorem optional_line_keys_never_reject
    (lines lines' : list je_line) :
  Forall2 (fun line line' =>
             l_account line = l_account line'
             /\ l_debit line = l_debit line'
             /\ l_credit line = l_credit line') lines lines' ->
  match _build_move_lines E lines company_id,
        _build_move_lines E lines' company_id with
  | Ok mls, Ok mls' =>
      map ml_account_id mls = map ml_account_id mls'
      /\ map ml_debit mls = map ml_debit mls'
      /\ map ml_credit mls = map ml_credit mls'
  | Raise e, Raise e' => e = e'
  | _, _ => False
  end.
Proof.
  unfold _build_move_lines. generalize 0 as i.
  intros i H. revert i.
  induction H as [|line line' lines lines' (Ha & Hd & Hc) _ IH]; intros i.
  - cbn. auto.
  - cbn [build_from].
    pose proof (build_move_line_optional_keys i line line' Ha Hd Hc) as H1.
    destruct (build_move_line E company_id i line) as [ml|e],
             (build_move_line E company_id i line') as [ml'|e'];
      cbn [rbind]; try contradiction; [|exact H1].
    specialize (IH (i + 1)).
    destruct (build_from E company_id (i + 1) lines) as [mls|e],
             (build_from E company_id (i + 1) lines') as [mls'|e'];
      cbn [rbind]; try contradiction; [|exact IH].
    destruct H1 as (H1a & H1b & H1c), IH as (Ia & Ib & Ic).
    cbn [map]. rewrite H1a, H1b, H1c, Ia, Ib, Ic. auto.
Qed.

Lemma prefix_append (a b : string) : String.prefix a (a ++ b) = true.
Proof.
  induction a as [|c a IH]; [destruct b; reflexivity|].
  rewrite append_cons. cbn. rewrite IH.
  destruct (ascii_dec c c); [reflexivity|contradiction].
Qed.

Lemma append_assoc (a b c : string) : (a ++ b) ++ c = a ++ (b ++ c).
Proof.
  induction a as [|x a IH]; [reflexivity|].
  rewrite !append_cons, IH. reflexivity.
Qed.

End MoveLines.

(** ** The lines of any request *)

Section AnyMoveLines.
Variables (E : env) (company_id : Z).

(** The error of a line that is not taken: an error of the tool itself,
    a [UserError] whose message starts with the number of the line,
    counted from 1, or the exception that [float] raised for the debit
    or the credit of the line, which is no [UserError]. *)
Lemma any_build_move_line_error i line e :
  AnyRequest.build_move_line E company_id i line = Raise e ->
  (exn_cls e = UserError
   /\ String.prefix ("Line " ++ str_int (i + 1) ++ ": ") (str_exn e) = true)
  \/ (exn_cls e <> UserError
      /\ (AnyRequest.float_of (AnyRequest.ln_debit line) = Raise e
          \/ AnyRequest.float_of (AnyRequest.ln_credit line) = Raise e)).
Proof.
  unfold AnyRequest.build_move_line.
  assert (Hp : forall rest,
             String.prefix ("Line " ++ str_int (i + 1) ++ ": ")
               (("Line " ++ str_int (i + 1)) ++ ": " ++ rest) = true).
  { intros rest.
    replace (("Line " ++ str_int (i + 1)) ++ ": " ++ rest)
      with (("Line " ++ str_int (i + 1) ++ ": ") ++ rest).
    - apply prefix_append.
    - rewrite !append_assoc. reflexivity. }
  assert (Hf : forall v e',
             AnyRequest.float_of v = Raise e' -> exn_cls e' <> UserError).
  { intros [[x|[] msg]|] e' [= <-]; discriminate. }
  destruct (JournalEntryTool.truthy_ref (AnyRequest.ln_account line));
    cbn [negb];
    [|intros [= <-]; left; split; [reflexivity|apply Hp]].
  destruct (AnyRequest.ln_account line) as [account_ref|];
    [|intros [= <-]; left; split; [reflexivity|apply Hp]].
  destruct (JournalEntryTool.find_account E company_id account_ref);
    [|intros [= <-]; left; split; [reflexivity|apply Hp]].
  destruct (AnyRequest.float_of (AnyRequest.ln_debit line))
    as [debit|e1] eqn:Hd; cbn [rbind].
  2:{ intros [= <-]. right. split; [exact (Hf _ _ Hd)|auto]. }
  destruct (AnyRequest.float_of (AnyRequest.ln_credit line))
    as [credit|e2] eqn:Hc; cbn [rbind].
  2:{ intros [= <-]. right. split; [exact (Hf _ _ Hc)|auto]. }
  repeat match goal with
         | |- context [if ?b then _ else _] => destruct b
         end; try discriminate;
    intros [= <-]; left; (split; [reflexivity|apply Hp]).
Qed.

Lemma any_build_from_first_error (good : list AnyRequest.line_arg) :
  forall i bad rest mls e,
    AnyRequest.build_from E company_id i good = Ok mls ->
    AnyRequest.build_move_line E company_id (i + Z.of_nat (length good)) bad
    = Raise e ->
    AnyRequest.build_from E company_id i (good ++ bad :: rest) = Raise e.
Proof.
  induction good as [|line good IH]; intros i bad rest mls e Hgood Hbad.
  - cbn in *. rewrite Z.add_0_r in Hbad. rewrite Hbad. reflexivity.
  - cbn [app AnyRequest.build_from] in *.
    destruct (AnyRequest.build_move_line E company_id i line) as [ml|];
      [|discriminate].
    cbn [rbind] in *.
    destruct (AnyRequest.build_from E company_id (i + 1) good)
      as [mls'|] eqn:Hrest; [|discriminate].
    rewrite (IH (i + 1) bad rest mls' e Hrest); [reflexivity|].
    rewrite <- Hbad. f_equal. cbn [length]. lia.
Qed.

(** X13. The error of an entry is the error of its first bad line. When
    the lines before a line are all taken and that line is not, the
    whole entry is refused with the error of that line, and the lines
    behind it are not looked at. The error is a [UserError] of the tool
    whose message starts with "Line n: ", where n is the position of
    the line in the request, counted from 1, or it is the exception
    that [float] raised for the debit or the credit of that line (a
    [TypeError] for [None], a [ValueError] for a string that is no
    number), which is no [UserError] and has the message of [float]. *)
Theorem build_move_lines_names_first_bad_line
    (good : list AnyRequest.line_arg) (bad : AnyRequest.line_arg)
    (rest : list AnyRequest.line_arg) (mls : list move_line) (e : exn) :
  AnyRequest._build_move_lines E good company_id = Ok mls ->
  AnyRequest.build_move_line E company_id (Z.of_nat (length good)) bad
  = Raise e ->
  AnyRequest._build_move_lines E (good ++ bad :: rest) company_id = Raise e
  /\ ((exn_cls e = UserError
       /\ String.prefix
            ("Line " ++ str_int (Z.of_nat (length good) + 1) ++ ": ")
            (str_exn e) = true)
      \/ (exn_cls e <> UserError
          /\ (AnyRequest.float_of (AnyRequest.ln_debit bad) = Raise e
              \/ AnyRequest.float_of (AnyRequest.ln_credit bad) = Raise e))).
Proof.
  intros Hgood Hbad. split.
  - unfold AnyRequest._build_move_lines in *.
    apply (any_build_from_first_error good 0 bad rest mls e Hgood).
    exact Hbad.
  - apply (any_build_move_line_error _ _ _ Hbad).
Qed.

(** On lines whose amounts [float] accepts, the loop is the loop of the
    typed embedding. *)
Lemma any_build_move_line_typed i (line : je_line) :
  AnyRequest.build_move_line E company_id i
    {| AnyRequest.ln_account := l_account line;
       AnyRequest.ln_debit := AnyRequest.AmountValue <$> l_debit line;
       AnyRequest.ln_credit := AnyRequest.AmountValue <$> l_credit line;
       AnyRequest.ln_name := l_name line;
       AnyRequest.ln_label := l_label line;
       AnyRequest.ln_partner := l_partner line;
       AnyRequest.ln_analytic := l_analytic line |}
  = JournalEntryTool.build_move_line E company_id i line.
Proof.
  unfold AnyRequest.build_move_line, JournalEntryTool.build_move_line.
  cbn [AnyRequest.ln_account AnyRequest.ln_debit AnyRequest.ln_credit
       AnyRequest.ln_name AnyRequest.ln_label AnyRequest.ln_partner
       AnyRequest.ln_analytic].
  destruct (l_debit line), (l_credit line); reflexivity.
Qed.

End AnyMoveLines.

(** A line with [None] for its debit, behind a line that is taken: the
    [TypeError] of [float] is the error of the entry, and it does not
    name the line. *)
Lemma build_move_lines_names_first_bad_line_witness :
  let bad :=
    demo_line_arg "2010"
      (AnyRequest.AmountRefused AnyRequest.FloatTypeError
         "float() argument must be a string or a real number, not 'NoneType'")
      (AnyRequest.AmountValue 1000) in
  let e :=
    Exn TypeError
      "float() argument must be a string or a real number, not 'NoneType'" in
  AnyRequest._build_move_lines (demo_env false)
    ([demo_line_arg "6010" (AnyRequest.AmountValue 1000)
        (AnyRequest.AmountValue 0)]
     ++ bad :: [demo_line_arg "9999" (AnyRequest.AmountValue 0)
                  (AnyRequest.AmountValue 0)]) 1
  = Raise e
  /\ ((exn_cls e = UserError
       /\ String.prefix ("Line " ++ str_int (Z.of_nat 1 + 1) ++ ": ")
            (str_exn e) = true)
      \/ (exn_cls e <> UserError
          /\ (AnyRequest.float_of (AnyRequest.ln_debit bad) = Raise e
              \/ AnyRequest.float_of (AnyRequest.ln_credit bad) = Raise e))).
Proof.
  cbn zeta.
  eapply (build_move_lines_names_first_bad_line (demo_env false) 1
            [demo_line_arg "6010" (AnyRequest.AmountValue 1000)
               (AnyRequest.AmountValue 0)]).
  - vm_compute. reflexivity.
  - vm_compute. reflexivity.
Defined.

(** A line with both amounts zero, behind a line that is taken: the
    error of the tool names the line. *)
Example build_move_lines_second_line_rejected :
  AnyRequest._build_move_lines (demo_env false)
    [ demo_line_arg "6010" (AnyRequest.AmountValue 1000)
        (AnyRequest.AmountValue 0);
      demo_line_arg "2010" (AnyRequest.AmountValue 0)
        (AnyRequest.AmountValue 0) ] 1
  = Raise (Exn UserError "Line 2: must have either debit or credit amount").
Proof. vm_compute. reflexivity. Qed.


(** ** The typed embedding and the requests of any shape *)

Section TypedRequests.
Variable integrity_error : Z -> exn.
Variable E : env.

Lemma bind_cong {A B} (c c' : M A) (k k' : A -> M B) s :
  c s = c' s -> (forall a s1, k a s1 = k' a s1) ->
  bind c k s = bind c' k' s.
Proof.
  intros Hc Hk. unfold bind. rewrite Hc.
  destruct (c' s) as [[a|e] s1]; [apply Hk|reflexivity].
Qed.

Lemma line_read_of (line : je_line) :
  AnyRequest.line_read (line_arg_of line) = line.
Proof. destruct line as [a [x|] [y|] n l p an]; reflexivity. Qed.

Lemma params_read_of (params : je_params) :
  AnyRequest.params_read (je_args_of params) = params.
Proof.
  destruct params as [c j d r lines a].
  unfold AnyRequest.params_read, je_args_of. cbn. f_equal.
  destruct lines as [lines|]; [|reflexivity]. cbn. f_equal.
  induction lines as [|l ls IH]; [reflexivity|].
  cbn [map]. rewrite line_read_of, IH. reflexivity.
Qed.

Lemma any_build_from_typed company_id (lines : list je_line) : forall i,
  AnyRequest.build_from E company_id i (map line_arg_of lines)
  = JournalEntryTool.build_from E company_id i lines.
Proof.
  induction lines as [|l ls IH]; intros i; [reflexivity|].
  cbn [map AnyRequest.build_from JournalEntryTool.build_from].
  unfold line_arg_of at 1. rewrite any_build_move_line_typed, IH.
  reflexivity.
Qed.

(** For a company that exists, a call of [log_execution] with a dict of
    the typed embedding is the call of the typed embedding. *)
Lemma any_log_execution_typed name cid params res err ms st company s :
  companies E !! cid = Some company ->
  AnyRequest.log_execution integrity_error E name cid
    (AnyRequest.typed_dict params) res err ms st s
  = McpFinanceToolExecution.log_execution E name cid params res err ms st s.
Proof.
  intros Hco. rewrite log_execution_cases.
  unfold McpFinanceToolExecution.log_execution.
  destruct (McpFinanceToolExecution.search_tool E name); [|reflexivity].
  cbn [AnyRequest.typed_dict AnyRequest.dict_bool AnyRequest.dict_dumps].
  rewrite Hco. destruct (params_truthy params); reflexivity.
Qed.

Lemma je_dict_of (params : je_params) :
  AnyRequest.je_dict (je_args_of params)
  = AnyRequest.typed_dict (JeParams params).
Proof.
  unfold AnyRequest.je_dict, AnyRequest.typed_dict.
  rewrite params_read_of. cbn [AnyRequest.q_date je_args_of
                               AnyRequest.q_other_keys].
  rewrite orb_false_r. reflexivity.
Qed.

(** For a company that exists, the journal entry tool on a request of
    the typed embedding is the tool of the typed embedding: the two
    embeddings of [execute] agree where both apply. *)
Lemma any_execute_typed (params : je_params) (company : res_company) (s : db) :
  companies E !! or_id (p_company_id params) (env_company_id E)
  = Some company ->
  AnyRequest.execute integrity_error E (je_args_of params) s
  = JournalEntryTool.execute E params s.
Proof.
  intros Hco.
  unfold AnyRequest.execute, JournalEntryTool.execute,
    AnyRequest.tool_boundary, tool_boundary, try_except.
  rewrite je_dict_of.
  assert (Hbody : AnyRequest.execute_body integrity_error E
                    (je_args_of params) s
                  = JournalEntryTool.execute_body E params s).
  { unfold AnyRequest.execute_body, JournalEntryTool.execute_body.
    cbn zeta. rewrite je_dict_of.
    cbn [je_args_of AnyRequest.q_company_id AnyRequest.q_journal_code
         AnyRequest.q_date AnyRequest.q_ref AnyRequest.q_lines
         AnyRequest.q_auto_post AnyRequest._parse_date].
    repeat (apply bind_cong; [reflexivity|intros ? ?]).
    destruct (p_lines params) as [[|l ls]|];
      cbn [fmap option_fmap option_map map]; try reflexivity.
    etransitivity; [apply bind_ok; reflexivity|].
    symmetry. etransitivity; [apply bind_ok; reflexivity|]. symmetry.
    repeat (apply bind_cong; [reflexivity|intros ? ?]).
    apply bind_cong.
    { unfold lift, AnyRequest._build_move_lines,
        JournalEntryTool._build_move_lines.
      change (line_arg_of l :: map line_arg_of ls)
        with (map line_arg_of (l :: ls)).
      rewrite any_build_from_typed. reflexivity. }
    intros move_lines ?.
    repeat (apply bind_cong; [reflexivity|intros ? ?]).
    apply bind_cong; [|reflexivity].
    apply (any_log_execution_typed _ _ _ _ _ _ _ company), Hco. }
  unfold bind at 1. rewrite Hbody. unfold bind at 2.
  destruct (JournalEntryTool.execute_body E params s) as [[a|e] s1];
    [reflexivity|].
  apply bind_cong; [|reflexivity].
  apply (any_log_execution_typed _ _ _ _ _ _ _ company), Hco.
Qed.

End TypedRequests.

(** ** Periods that the BIR tool accepts *)

Section AcceptedPeriods.
Import BirComplianceTool.

Lemma new_date_ok y m d dt :
  new_date y m d = Ok dt ->
  dt = mkdate y m d /\ 1 <= y <= 9999.
Proof.
  unfold new_date.
  destruct ((1 <=? y) && (y <=? 9999)) eqn:Hy; cbn [negb]; [|discriminate].
  destruct (negb ((1 <=? m) && (m <=? 12))); [discriminate|].
  destruct (negb ((1 <=? d) && (d <=? days_in_month y m))); [discriminate|].
  intros [= <-]. split; [reflexivity|].
  apply andb_true_iff in Hy as [H1 H2].
  apply Z.leb_le in H1, H2. lia.
Qed.

(** What the code inside the [try] accepts. *)
Lemma parse_quarter_try_ok (period : string) (date_from date_to : date) :
  parse_quarter_try period = Ok (date_from, date_to) ->
  exists a b y q,
    split_dash_Q period = [a; b]
    /\ py_int a = Some y
    /\ py_int b = Some q
    /\ 1 <= y <= 9999
    /\ 1 <= q <= 4
    /\ (date_from, date_to) = quarter_range y q.
Proof.
  unfold parse_quarter_try, unpack_split, int_or_raise.
  destruct (split_dash_Q period) as [|a [|b [|c l]]]; cbn [rbind];
    try discriminate.
  destruct (py_int a) as [y|] eqn:Ha; cbn [rbind]; [|discriminate].
  destruct (py_int b) as [q|] eqn:Hb; cbn [rbind]; [|discriminate].
  destruct ((q <? 1) || (4 <? q)) eqn:Hq; [discriminate|].
  apply orb_false_iff in Hq as [H1 H4].
  apply Z.ltb_ge in H1, H4.
  intros H.
  assert (Hcases : q = 1 \/ q = 2 \/ q = 3 \/ q = 4) by lia.
  assert (Hres : 1 <= y <= 9999 /\ (date_from, date_to) = quarter_range y q).
  { unfold quarter_range.
    destruct Hcases as [-> | [-> | [-> | ->]]]; cbn in H |- *.
    all: destruct (new_date y _ 1) as [d1|] eqn:Hd1; cbn in H;
      try discriminate.
    all: apply new_date_ok in Hd1 as [-> Hy].
    all: match type of H with
      | context [new_date ?yy ?mm ?dd] =>
          destruct (new_date yy mm dd) as [d2|] eqn:Hd2; cbn in H;
          try discriminate; apply new_date_ok in Hd2 as [-> _]
      end.
    all: injection H as <- <-; split; [exact Hy|reflexivity]. }
  exists a, b, y, q. repeat split; try reflexivity; try tauto; lia.
Qed.

(** X14. Whatever string it is given, [_parse_quarter] returns nothing
    but the range of a quarter: when it accepts a period, the two dates
    are the first day of the first month and the last calendar day of the
    last month of one of the four quarters of a year between 1 and 9999,
    the year and the quarter that [int] reads on the two sides of "-Q";
    and when it refuses one, the error is a [UserError] whose message
    quotes the period. *)
Theorem parse_quarter_returns_quarter_ranges (period : string) :
  match _parse_quarter period with
  | Ok (date_from, date_to) =>
      exists a b y q,
        split_dash_Q period = [a; b]
        /\ py_int a = Some y
        /\ py_int b = Some q
        /\ 1 <= y <= 9999
        /\ 1 <= q <= 4
        /\ (date_from, date_to) = quarter_range y q
        /\ date_le date_from date_to = true
  | Raise e =>
      e = Exn UserError
            ("Invalid period format: " ++ period
             ++ ". Use YYYY-QN (e.g., 2025-Q4)")
  end.
Proof.
  unfold _parse_quarter, except_reraise.
  destruct (parse_quarter_try period) as [[date_from date_to]|e] eqn:H;
    [|reflexivity].
  destruct (parse_quarter_try_ok _ _ _ H)
    as (a & b & y & q & Hs & Ha & Hb & Hy & Hq & Hr).
  exists a, b, y, q. repeat split; try assumption; try lia.
  unfold quarter_range in Hr. injection Hr as -> ->.
  unfold date_le. cbn [year month day].
  rewrite Z.ltb_irrefl, Z.eqb_refl. cbn [orb andb].
  replace (3 * q - 2 <? 3 * q) with true by (symmetry; apply Z.ltb_lt; lia).
  reflexivity.
Qed.

(** After the parser, the generation of the DAT file reads the same two
    sides of "-Q". *)
Lemma generate_dat_of_parsed
    (data : withholding_data) (period : string) (company : res_company)
    (range : date * date) :
  _parse_quarter period = Ok range ->
  exists returning_period,
    _generate_dat data period company
    = Ok (join CRLF (dat_lines returning_period 1 (records data)),
          "BIR2307_" ++ or_str (company_vat company) "TIN"
          ++ "_" ++ period ++ ".dat").
Proof.
  intros Hp. unfold _parse_quarter, except_reraise in Hp.
  destruct range as [date_from date_to].
  destruct (parse_quarter_try period) as [[f t]|] eqn:H; [|discriminate].
  destruct (parse_quarter_try_ok _ _ _ H)
    as (a & b & y & q & Hs & Ha & Hb & _).
  unfold _generate_dat, unpack_split, int_or_raise.
  rewrite Hs. cbn [rbind]. rewrite Hb. cbn [rbind].
  eexists. reflexivity.
Qed.

Lemma length_dat_lines rp (rs : list withholding_record) : forall seq,
  List.length (dat_lines rp seq rs) = List.length rs.
Proof.
  induction rs as [|r rs IH]; intros seq; cbn [dat_lines List.length];
    [reflexivity|].
  rewrite IH. reflexivity.
Qed.

(** X15. A period that [_parse_quarter] accepts is one that
    [_generate_dat] can write: after the parser has accepted the period
    of a request, the generation of the DAT file does not fail, for any
    data; the file has one line for each record, and is named after the
    tax id of the company, or "TIN", and the period. *)
Theorem generate_dat_accepts_parsed_periods
    (data : withholding_data) (period : string) (company : res_company)
    (range : date * date) :
  _parse_quarter period = Ok range ->
  exists lines,
    _generate_dat data period company
    = Ok (join CRLF lines,
          "BIR2307_" ++ or_str (company_vat company) "TIN"
          ++ "_" ++ period ++ ".dat")
    /\ List.length lines = List.length (records data).
Proof.
  intros Hp.
  destruct (generate_dat_of_parsed data period company range Hp) as (rp & H).
  eexists. split; [exact H|]. apply length_dat_lines.
Qed.

End AcceptedPeriods.

(** A period with blanks around the numbers is accepted, and written. *)
Lemma generate_dat_accepts_parsed_periods_witness :
  exists lines,
    BirComplianceTool._generate_dat
      (BirComplianceTool._get_withholding_data demo_bir_env 1
         (mkdate 2025 10 1) (mkdate 2025 12 31) None)
      " 2025 -Q 4 " demo_company
    = Ok (join BirComplianceTool.CRLF lines,
          "BIR2307_123456789_ 2025 -Q 4 .dat")
    /\ List.length lines = 1%nat.
Proof.
  apply (generate_dat_accepts_parsed_periods
           (BirComplianceTool._get_withholding_data demo_bir_env 1
              (mkdate 2025 10 1) (mkdate 2025 12 31) None)
           " 2025 -Q 4 " demo_company
           (mkdate 2025 10 1, mkdate 2025 12 31)).
  reflexivity.
Defined.

(** ** The records of the withholding data *)

Section WithholdingRecords.
Import BirComplianceTool.

Lemma upper_char_lower_char c : upper_char (lower_char c) = upper_char c.
Proof. each_ascii c; reflexivity. Qed.

Lemma upper_lower s : upper (lower s) = upper s.
Proof.
  induction s as [|c s IH]; [reflexivity|].
  unfold upper, lower in *. cbn [map_str].
  rewrite upper_char_lower_char, IH. reflexivity.
Qed.

Lemma upper_char_upper_char c : upper_char (upper_char c) = upper_char c.
Proof. each_ascii c; reflexivity. Qed.

Lemma upper_upper s : upper (upper s) = upper s.
Proof.
  induction s as [|c s IH]; [reflexivity|].
  unfold upper in *. cbn [map_str].
  rewrite upper_char_upper_char, IH. reflexivity.
Qed.

(** X16. The Alpha Tax Code of a tax is one of four codes of five
    characters, whatever the tax is called, and for a name of ASCII
    characters it does not depend on the letter case of the name. (For
    other characters [str.upper] is not the [upper] of the embedding,
    and the code can depend on the case.) *)
Theorem get_atc_codes
    (tax : option account_tax) (name : string)
    (description : option string) (amount : float) :
  str_forall is_ascii name = true ->
  let named n := Some {| tax_name := Some n;
                         tax_description := description;
                         tax_amount := amount |} in
  In (_get_atc tax) ["WC010"; "WC020"; "WC100"; "WC120"]
  /\ String.length (_get_atc tax) = 5%nat
  /\ _get_atc (named (lower name)) = _get_atc (named name)
  /\ _get_atc (named (upper name)) = _get_atc (named name).
Proof.
  intros _. cbn zeta.
  assert (Hcodes : In (_get_atc tax) ["WC010"; "WC020"; "WC100"; "WC120"]).
  { unfold _get_atc. destruct tax as [tax|]; [|cbn; auto].
    repeat match goal with
           | |- context [if ?b then _ else _] => destruct b
           end; cbn; auto 6. }
  split; [exact Hcodes|]. split.
  { cbn in Hcodes.
    destruct Hcodes as [<-|[<-|[<-|[<-|[]]]]]; reflexivity. }
  unfold _get_atc. cbn [tax_name].
  assert (Hor : forall s, upper (or_str (Some s) "") = upper s).
  { intros [|c s]; reflexivity. }
  rewrite !Hor, upper_lower, upper_upper. auto.
Qed.

(** X17. The address of a record has at most 100 characters, so that the
    cut to 100 characters that [_generate_dat] applies to it changes
    nothing: the address field of a line is the address of the record,
    filled up with spaces. A partner with no address part has the empty
    address. *)
Theorem format_address_fits_the_field (partner : res_partner) :
  (String.length (_format_address partner) <= 100)%nat
  /\ str_take 100 (_format_address partner) = _format_address partner
  /\ (forall rp seq b l,
         bill_partner b = partner ->
         nth 5 (dat_fields rp seq (record_of b l)) ""
         = ljust 100 (_format_address partner))
  /\ (truthy_ostr (street partner) = false ->
      truthy_ostr (street2 partner) = false ->
      truthy_ostr (city partner) = false ->
      truthy_ostr (state_name partner) = false ->
      truthy_ostr (zip partner) = false ->
      _format_address partner = "").
Proof.
  assert (Hlen : (String.length (_format_address partner) <= 100)%nat).
  { unfold _format_address. rewrite length_str_take. lia. }
  assert (Htake : str_take 100 (_format_address partner)
                  = _format_address partner)
    by (apply str_take_all, Hlen).
  split; [exact Hlen|]. split; [exact Htake|]. split.
  - intros rp seq b l <-. cbn [dat_fields nth record_of vendor_address].
    rewrite str_take_all; [reflexivity|].
    unfold _format_address. rewrite length_str_take. lia.
  - unfold _format_address, or_str, truthy_ostr.
    destruct (street partner) as [[|]|], (street2 partner) as [[|]|],
      (city partner) as [[|]|], (state_name partner) as [[|]|],
      (zip partner) as [[|]|]; cbn; intros; try discriminate; reflexivity.
Qed.

(** X18. The withholding data is made of posted vendor bills of the
    company in the range, and of nothing else. Every record comes from a
    line, with a tax, of a move of the ledger that belongs to the
    company, is a vendor bill, is posted and is dated within the range,
    and whose partner is one of the vendors asked for when the request
    names vendors; an empty list of vendors is no filter. *)
Theorem withholding_records_come_from_posted_bills
    (E : env) (company_id : Z) (date_from date_to : date)
    (vendor_ids : option (list Z)) :
  (forall r,
      In r (records (_get_withholding_data E company_id date_from date_to
                       vendor_ids)) ->
      exists b l d,
        In b (ledger_moves E)
        /\ bill_company_id b = company_id
        /\ bill_move_type b = "in_invoice"
        /\ bill_state b = "posted"
        /\ invoice_date b = Some d
        /\ date_le date_from d = true
        /\ date_le d date_to = true
        /\ (forall ids, vendor_ids = Some ids -> ids <> [] ->
                        In (partner_id (bill_partner b)) ids)
        /\ In l (line_ids b)
        /\ tax_line_id l <> None
        /\ r = record_of b l)
  /\ _get_withholding_data E company_id date_from date_to (Some [])
     = _get_withholding_data E company_id date_from date_to None.
Proof.
  split; [|reflexivity].
  intros r Hr. unfold _get_withholding_data in Hr. cbn [records] in Hr.
  apply List.in_flat_map in Hr as (b & Hb & Hr).
  apply List.filter_In in Hb as [Hb Hdom].
  apply List.in_map_iff in Hr as (l & <- & Hl).
  assert (Hline : In l (line_ids b) /\ tax_line_id l <> None).
  { unfold wht_lines_of in Hl.
    assert (Hd : forall l, by_description l = true -> tax_line_id l <> None).
    { intros l0. unfold by_description.
      destruct (tax_line_id l0); [discriminate|discriminate]. }
    assert (Hn : forall l, by_name l = true -> tax_line_id l <> None).
    { intros l0. unfold by_name.
      destruct (tax_line_id l0); [discriminate|discriminate]. }
    destruct (List.filter by_description (line_ids b)) as [|x xs] eqn:Hf.
    - apply List.filter_In in Hl as [Hin H]. auto.
    - rewrite <- Hf in Hl. apply List.filter_In in Hl as [Hin H]. auto. }
  unfold in_domain in Hdom.
  repeat (apply andb_true_iff in Hdom as [Hdom ?]).
  destruct (invoice_date b) as [d|] eqn:Hdate; [|discriminate].
  exists b, l, d.
  match goal with H : date_le _ _ && date_le _ _ = true |- _ =>
    apply andb_true_iff in H as [Hfrom Hto] end.
  repeat split; try tauto.
  - apply Z.eqb_eq. assumption.
  - apply String.eqb_eq. assumption.
  - apply String.eqb_eq. assumption.
  - intros ids -> Hne. destruct ids as [|i ids]; [contradiction|].
    match goal with H : existsb _ _ = true |- _ =>
      apply List.existsb_exists in H as (x & Hx & Heq) end.
    apply Z.eqb_eq in Heq. rewrite Heq. exact Hx.
Qed.

Lemma abs_not_negative (x : float) : (abs x <? 0)%float = false.
Proof.
  rewrite FloatAxioms.ltb_spec, FloatAxioms.abs_spec, Prim2SF_zero.
  destruct (Prim2SF x) as [sg|sg| |sg m e]; reflexivity.
Qed.

(** X19. No record has a negative rate or a negative amount of tax: the
    two are absolute values, so that a credit balance on the tax line and
    a tax defined with a negative percentage both give amounts without a
    sign; and a record whose rate is not positive has the base amount 0,
    no division being made. *)
Theorem withholding_record_amounts_unsigned (b : bill) (l : bill_line) :
  let r := record_of b l in
  (tax_rate r <? 0)%float = false
  /\ (tax_amount_withheld r <? 0)%float = false
  /\ ((0 <? tax_rate r)%float = false -> base_amount r = 0%float).
Proof.
  cbn zeta. unfold record_of.
  cbn [tax_rate tax_amount_withheld base_amount].
  repeat split.
  - destruct (tax_line_id l); [apply abs_not_negative|reflexivity].
  - apply abs_not_negative.
  - intros ->. reflexivity.
Qed.

End WithholdingRecords.

(** A tax named "Rental of Goods", in three spellings: the rule for
    rentals comes first. *)
Lemma get_atc_codes_witness :
  let named n := Some {| tax_name := Some n;
                         tax_description := None;
                         tax_amount := (-5)%float |} in
  In (BirComplianceTool._get_atc (named "Rental of Goods"))
     ["WC010"; "WC020"; "WC100"; "WC120"]
  /\ String.length (BirComplianceTool._get_atc (named "Rental of Goods"))
     = 5%nat
  /\ BirComplianceTool._get_atc (named "rental of goods") = "WC020"
  /\ BirComplianceTool._get_atc (named "RENTAL OF GOODS") = "WC020".
Proof.
  cbn zeta.
  apply (get_atc_codes
           (Some {| tax_name := Some "Rental of Goods";
                    tax_description := None;
                    tax_amount := (-5)%float |})
           "Rental of Goods" None (-5)%float).
  reflexivity.
Defined.

(** ** The output of the BIR tool *)

Section OutputFormats.
Import BirComplianceTool.
Variable xlsxwriter : option (worksheet -> string).
Variable b64encode : string -> string.
Variables (E : env) (params : bir_params) (s : db).
Variables (company : res_company) (period : string) (range : date * date).
Local Abbreviation cid := (or_id (b_company_id params) (env_company_id E)).
Hypothesis Hcompany : companies E !! cid = Some company.
Hypothesis Henabled :
  enable_bir_tools (default default_config (configs s !! cid)) = true.
Hypothesis Hperiod : b_period params = Some period.
Hypothesis Hgiven : truthy_str period = true.
Hypothesis Hparse : _parse_quarter period = Ok range.

(** The body, from the choice of the output on. *)
Lemma execute_body_output :
  let output_format := lower (default "dat" (b_output_format params)) in
  let data :=
    _get_withholding_data E cid (fst range) (snd range)
      (b_vendor_ids params) in
  exists s1,
    moves s1 = moves s
    /\ execute_body xlsxwriter b64encode E params s
       = if negb (String.eqb output_format "dat"
                  || String.eqb output_format "xlsx"
                  || String.eqb output_format "pdf")
         then (Raise (Exn UserError
                        ("Invalid output_format: " ++ output_format
                         ++ ". Use dat, xlsx, or pdf")), s1)
         else
           match (if String.eqb output_format "dat"
                  then _generate_dat data period company
                  else _generate_xlsx xlsxwriter data period company) with
           | Raise e => (Raise e, s1)
           | Ok (content, filename) =>
               (Ok {| r_file_content := b64encode content;
                      r_filename := filename;
                      r_record_count := Z.of_nat (List.length (records data));
                      r_total_base := totals_base data;
                      r_total_tax := totals_tax data;
                      r_company := company_name company;
                      r_period := period;
                      r_output_format := output_format;
                      r_execution_time_ms := elapsed_ms E |},
                snd (McpFinanceToolExecution.log_execution E
                       "generate_bir_2307" cid (BirParams params)
                       (Some (BirSummary
                                (Z.of_nat (List.length (records data)))
                                (totals_base data) (totals_tax data)))
                       None (elapsed_ms E) st_executed s1))
           end.
Proof.
  cbn zeta.
  destruct (get_config_stores E (Some cid) s) as (s1 & Hcfg & _ & Hm & _).
  cbn zeta in Hcfg. rewrite or_id_absorb in Hcfg.
  exists s1. split; [exact Hm|].
  unfold execute_body. cbn zeta.
  rewrite (bind_ok _ _ s company s) by (rewrite Hcompany; reflexivity).
  rewrite (bind_ok _ _ s _ s1 Hcfg).
  rewrite (bind_ok _ _ s1 tt s1) by (rewrite Henabled; reflexivity).
  rewrite (bind_ok _ _ s1 period s1)
    by (rewrite Hperiod; destruct period; [discriminate|reflexivity]).
  rewrite (bind_ok _ _ s1 range s1)
    by (unfold lift; rewrite Hparse; reflexivity).
  destruct range as [date_from date_to]. cbn [fst snd].
  set (output_format := lower (default "dat" (b_output_format params))).
  destruct (negb (String.eqb output_format "dat"
                  || String.eqb output_format "xlsx"
                  || String.eqb output_format "pdf")) eqn:Hfmt.
  - apply bind_raise. reflexivity.
  - rewrite (bind_ok _ _ s1 tt s1) by reflexivity.
    unfold _generate_pdf.
    replace (if String.eqb output_format "xlsx"
             then _generate_xlsx xlsxwriter
                    (_get_withholding_data E cid date_from date_to
                       (b_vendor_ids params)) period company
             else _generate_xlsx xlsxwriter
                    (_get_withholding_data E cid date_from date_to
                       (b_vendor_ids params)) period company)
      with (_generate_xlsx xlsxwriter
              (_get_withholding_data E cid date_from date_to
                 (b_vendor_ids params)) period company)
      by (destruct (String.eqb output_format "xlsx"); reflexivity).
    destruct (if String.eqb output_format "dat"
              then _generate_dat _ period company
              else _generate_xlsx xlsxwriter _ period company)
      as [[content filename]|e] eqn:Hfile.
    + rewrite (bind_ok _ _ s1 (content, filename) s1) by reflexivity.
      unfold bind.
      destruct (returns_log_execution E "generate_bir_2307" cid
                  (BirParams params)
                  (Some (BirSummary
                           (Z.of_nat
                              (List.length
                                 (records
                                    (_get_withholding_data E cid date_from
                                       date_to (b_vendor_ids params)))))
                           (totals_base
                              (_get_withholding_data E cid date_from date_to
                                 (b_vendor_ids params)))
                           (totals_tax
                              (_get_withholding_data E cid date_from date_to
                                 (b_vendor_ids params)))))
                  None (elapsed_ms E) st_executed s1) as (o & s2 & Hlog).
      rewrite Hlog. reflexivity.
    + apply bind_raise. reflexivity.
Qed.

(** X20. What the BIR tool returns for each output format, for a
    request that passes the checks of the company, of the switch and of
    the period. The format is read letter case aside, [dat] when the
    request names none. For [dat] the call succeeds with the DAT lines,
    named [.dat], whether or not the spreadsheet library is there. For
    [xlsx] and for [pdf] alike it returns the workbook of the records,
    in a file named [.xlsx], and reports the format that was asked for;
    without the library it fails with a [UserError]. Any other format
    fails with a [UserError] that quotes it. No format creates a
    move. *)
Theorem bir_output_formats :
  let output_format := lower (default "dat" (b_output_format params)) in
  let data :=
    _get_withholding_data E cid (fst range) (snd range)
      (b_vendor_ids params) in
  let name ext :=
    "BIR2307_" ++ or_str (company_vat company) "TIN"
    ++ "_" ++ period ++ ext in
  let succeeds content filename :=
    exists r s2,
      execute xlsxwriter b64encode E params s = (Ok (Success r), s2)
      /\ r_file_content r = b64encode content
      /\ r_filename r = filename
      /\ r_output_format r = output_format
      /\ r_record_count r = Z.of_nat (List.length (records data))
      /\ moves s2 = moves s in
  let fails msg :=
    exists s2,
      execute xlsxwriter b64encode E params s
      = (Ok (Failure msg "UserError"), s2)
      /\ moves s2 = moves s in
  if String.eqb output_format "dat" then
    exists lines,
      List.length lines = List.length (records data)
      /\ succeeds (join CRLF lines) (name ".dat")
  else if String.eqb output_format "xlsx" || String.eqb output_format "pdf"
  then
    match xlsxwriter with
    | Some workbook => succeeds (workbook (xlsx_cells data)) (name ".xlsx")
    | None => fails "xlsxwriter library required for Excel export"
    end
  else
    fails ("Invalid output_format: " ++ output_format
           ++ ". Use dat, xlsx, or pdf").
Proof.
  cbn zeta. destruct execute_body_output as (s1 & Hm & Hbody).
  cbn zeta in Hbody.
  set (output_format := lower (default "dat" (b_output_format params))) in *.
  set (data := _get_withholding_data E cid (fst range) (snd range)
                 (b_vendor_ids params)) in *.
  assert (Hfail : forall e,
             execute_body xlsxwriter b64encode E params s = (Raise e, s1) ->
             exists s2,
               execute xlsxwriter b64encode E params s
               = (Ok (Failure (str_exn e) (type_name e)), s2)
               /\ moves s2 = moves s).
  { intros e Hrun. unfold execute.
    rewrite (tool_boundary_raise _ _ _ _ _ _ _ _ Hrun).
    eexists. split; [reflexivity|].
    destruct (do_log_total E
                (failure_log_call E "generate_bir_2307" (b_company_id params)
                   (BirParams params) e) s1) as (o & _ & Hm1 & _).
    rewrite Hm1. exact Hm. }
  assert (Hok : forall r s2,
             execute_body xlsxwriter b64encode E params s = (Ok r, s2) ->
             execute xlsxwriter b64encode E params s = (Ok (Success r), s2)).
  { intros r s2 Hrun. unfold execute. apply tool_boundary_ok, Hrun. }
  assert (Hlogm : forall res,
             moves (snd (McpFinanceToolExecution.log_execution E
                           "generate_bir_2307" cid (BirParams params)
                           res None (elapsed_ms E) st_executed s1))
             = moves s).
  { intros res.
    destruct (keeps_ledger_log_execution E "generate_bir_2307" cid
                (BirParams params) res None (elapsed_ms E) st_executed s1)
      as [H _].
    rewrite H. exact Hm. }
  destruct (String.eqb output_format "dat") eqn:Hdat.
  - cbn [orb negb] in Hbody.
    destruct (generate_dat_of_parsed data period company range Hparse)
      as (rp & Hgen).
    rewrite Hgen in Hbody.
    exists (dat_lines rp 1 (records data)).
    split; [apply length_dat_lines|].
    eexists. eexists. split; [apply Hok, Hbody|].
    cbn. repeat split. apply Hlogm.
  - cbn [orb] in Hbody.
    destruct (String.eqb output_format "xlsx"
              || String.eqb output_format "pdf");
      cbn [negb] in Hbody.
    + unfold _generate_xlsx in Hbody. destruct xlsxwriter as [workbook|].
      * eexists. eexists. split; [apply Hok, Hbody|].
        cbn. repeat split. apply Hlogm.
      * apply (Hfail _ Hbody).
    + apply (Hfail _ Hbody).
Qed.

End OutputFormats.

Section Worksheet.
Import BirComplianceTool.

Lemma header_cells_positions hs : forall col r c,
  In (r, c) (cell_positions (header_cells col hs)) ->
  r = 0 /\ col <= c.
Proof.
  induction hs as [|h hs IH]; intros col r c; cbn; [tauto|].
  intros [[= <- <-]|H]; [lia|].
  apply IH in H. lia.
Qed.

Lemma header_cells_nodup hs : forall col,
  List.NoDup (cell_positions (header_cells col hs)).
Proof.
  induction hs as [|h hs IH]; intros col; cbn [header_cells];
    unfold cell_positions; cbn [map fst snd]; constructor.
  - intros H. apply header_cells_positions in H. lia.
  - apply IH.
Qed.

Lemma row_cells_positions row record r c :
  In (r, c) (cell_positions (row_cells row record)) ->
  r = row /\ 0 <= c <= 9.
Proof.
  cbn. intros H.
  repeat (destruct H as [[= <- <-]|H]; [lia|]). destruct H.
Qed.

Lemma row_cells_nodup row record :
  List.NoDup (cell_positions (row_cells row record)).
Proof.
  unfold cell_positions, row_cells. cbn [map fst snd].
  repeat (apply List.NoDup_cons;
          [cbn [In]; intros H;
           repeat (destruct H as [H|H]; [inversion H|]); destruct H|]).
  apply List.NoDup_nil.
Qed.

Lemma data_cells_positions rs : forall row r c,
  In (r, c) (cell_positions (data_cells row rs)) ->
  row <= r < row + Z.of_nat (List.length rs) /\ 0 <= c <= 9.
Proof.
  induction rs as [|record rs IH]; intros row r c; [cbn; tauto|].
  cbn [data_cells]. unfold cell_positions. rewrite map_app.
  intros H. apply in_app_or in H as [H|H].
  - apply row_cells_positions in H. cbn [List.length]. lia.
  - apply IH in H. cbn [List.length]. lia.
Qed.

Lemma data_cells_nodup rs : forall row,
  List.NoDup (cell_positions (data_cells row rs)).
Proof.
  induction rs as [|record rs IH]; intros row; [constructor|].
  cbn [data_cells]. unfold cell_positions. rewrite map_app.
  apply List.NoDup_app.
  - apply row_cells_nodup.
  - apply IH.
  - intros [r c] H1 H2.
    apply row_cells_positions in H1. apply data_cells_positions in H2. lia.
Qed.

Lemma row_cells_columns row record c :
  0 <= c <= 9 -> In (row, c) (cell_positions (row_cells row record)).
Proof.
  intros Hc.
  assert (H : c = 0 \/ c = 1 \/ c = 2 \/ c = 3 \/ c = 4 \/ c = 5
              \/ c = 6 \/ c = 7 \/ c = 8 \/ c = 9) by lia.
  unfold cell_positions, row_cells. cbn [map fst snd In].
  repeat (destruct H as [->|H]; [tauto|]). subst c. tauto.
Qed.

Lemma data_cells_rows rs : forall row (k : nat) c,
  (k < List.length rs)%nat -> 0 <= c <= 9 ->
  In (row + Z.of_nat k, c) (cell_positions (data_cells row rs)).
Proof.
  induction rs as [|record rs IH]; intros row k c Hk Hc;
    [cbn in Hk; lia|].
  cbn [data_cells]. unfold cell_positions. rewrite map_app.
  apply in_or_app. destruct k as [|k].
  - left. rewrite Z.add_0_r. apply row_cells_columns, Hc.
  - right. replace (row + Z.of_nat (S k)) with (row + 1 + Z.of_nat k) by lia.
    apply IH; [cbn in Hk; lia|exact Hc].
Qed.

(** X21. The worksheet of the Excel export is written cell by cell and
    no cell is written twice: the headers are in row 0, the record
    number n in row n, each in columns 0 to 9, and the totals in the row
    after an empty one, in columns 5 to 7. *)
Theorem xlsx_cells_written_once (data : withholding_data) :
  let n := Z.of_nat (List.length (records data)) in
  List.NoDup (cell_positions (xlsx_cells data))
  /\ (forall r c,
         In (r, c) (cell_positions (xlsx_cells data)) <->
         0 <= r <= n /\ 0 <= c <= 9 \/ r = n + 2 /\ 5 <= c <= 7).
Proof.
  cbn zeta. unfold xlsx_cells, cell_positions. rewrite !map_app.
  fold (cell_positions (header_cells 0 headers)).
  fold (cell_positions (data_cells 1 (records data))).
  cbn [map fst snd].
  set (n := Z.of_nat (List.length (records data))).
  assert (Hhead : forall r c,
             In (r, c) (cell_positions (header_cells 0 headers))
             <-> r = 0 /\ 0 <= c <= 9).
  { intros r c. split.
    - cbn. intros H.
      repeat (destruct H as [[= <- <-]|H]; [lia|]). destruct H.
    - intros [-> Hc]. apply (row_cells_columns 0
        {| vendor_tin := ""; vendor_name := ""; vendor_address := "";
           atc := ""; tax_rate := 0; base_amount := 0;
           tax_amount_withheld := 0; bill_ref := ""; bill_date := None |})
        in Hc.
      cbn in Hc |- *. exact Hc. }
  assert (Hdata : forall r c,
             In (r, c) (cell_positions (data_cells 1 (records data)))
             <-> 1 <= r <= n /\ 0 <= c <= 9).
  { intros r c. split.
    - intros H. apply data_cells_positions in H. lia.
    - intros [Hr Hc].
      replace r with (1 + Z.of_nat (Z.to_nat (r - 1))) by lia.
      apply data_cells_rows; [|exact Hc]. unfold n in Hr. lia. }
  assert (Htot : forall r c,
             In (r, c) [(n + 2, 5); (n + 2, 6); (n + 2, 7)]
             <-> r = n + 2 /\ 5 <= c <= 7).
  { intros r c. cbn [In]. split.
    - intros [[= <- <-]|[[= <- <-]|[[= <- <-]|[]]]]; lia.
    - intros [-> Hc].
      assert (H : c = 5 \/ c = 6 \/ c = 7) by lia.
      destruct H as [-> | [-> | ->]]; tauto. }
  split.
  - apply List.NoDup_app; [apply header_cells_nodup| |].
    + apply List.NoDup_app; [apply data_cells_nodup| |].
      * repeat (apply List.NoDup_cons;
                [cbn [In]; intros H;
                 repeat (destruct H as [H|H]; [injection H; lia|]);
                 destruct H|]).
        apply List.NoDup_nil.
      * intros [r c] H1 H2. apply Hdata in H1. apply Htot in H2. lia.
    + intros [r c] H1 H2. apply Hhead in H1.
      apply in_app_or in H2 as [H2|H2];
        [apply Hdata in H2|apply Htot in H2]; lia.
  - intros r c. rewrite !in_app_iff, Hhead, Hdata, Htot. lia.
Qed.

End Worksheet.

(** ** Queries of the trial balance *)

Section TrialBalanceQuery.
Import TrialBalanceTool.
Variables (E : env) (params : tb_params) (s : db) (company : res_company).
Variables (given_from given_to : option date).
Local Abbreviation cid := (or_id (t_company_id params) (env_company_id E)).
Local Abbreviation config := (default default_config (configs s !! cid)).
Hypothesis Hcompany : companies E !! cid = Some company.
Hypothesis Henabled : enable_trial_balance config = true.
Hypothesis Hfrom : _parse_date (t_date_from params) = Ok given_from.
Hypothesis Hto : _parse_date (t_date_to params) = Ok given_to.

(** The range of the query: the dates of the request, today for the end
    when the request names none, and the first of January of the year of
    the end for the start when the request names none. *)
Local Abbreviation date_to := (default (today E) given_to).
Local Abbreviation date_from :=
  (default (mkdate (year date_to) 1 1) given_from).
Hypothesis Hyear : 1 <= year date_to <= 9999.

Lemma execute_body_query :
  let result :=
    _get_trial_balance E cid date_from date_to
      (default true (t_hierarchy params))
      (default [] (t_account_types params))
      (default false (t_include_zero params)) in
  exists s1,
    moves s1 = moves s
    /\ executions s1 = executions s
    /\ execute_body E params s
       = if negb (date_le date_from date_to)
         then (Raise (Exn UserError "date_from must be before date_to"), s1)
         else
           (Ok {| r_data := result;
                  r_company := company_name company;
                  r_date_from := str_date date_from;
                  r_date_to := str_date date_to;
                  r_account_count :=
                    Z.of_nat (List.length (tb_accounts result));
                  r_execution_time_ms := elapsed_ms E |},
            if log_all_queries config
            then snd (McpFinanceToolExecution.log_execution E
                        "get_trial_balance" cid (TbParams params)
                        (Some (TbSummary
                                 (Z.of_nat (List.length (tb_accounts result)))))
                        None (elapsed_ms E) st_executed s1)
            else s1).
Proof.
  cbn zeta.
  destruct (get_config_stores E (Some cid) s) as (s1 & Hcfg & _ & Hm & He).
  cbn zeta in Hcfg. rewrite or_id_absorb in Hcfg.
  exists s1. split; [exact Hm|]. split; [exact He|].
  unfold execute_body. cbn zeta.
  rewrite (bind_ok _ _ s company s) by (rewrite Hcompany; reflexivity).
  rewrite (bind_ok _ _ s _ s1 Hcfg).
  rewrite (bind_ok _ _ s1 tt s1) by (rewrite Henabled; reflexivity).
  rewrite (bind_ok _ _ s1 given_from s1)
    by (unfold lift; rewrite Hfrom; reflexivity).
  rewrite (bind_ok _ _ s1 given_to s1)
    by (unfold lift; rewrite Hto; reflexivity).
  rewrite (bind_ok _ _ s1 date_from s1).
  2:{ destruct given_from as [d|]; [reflexivity|].
      unfold lift, new_date. cbn [default from_option id].
      replace ((1 <=? year date_to) && (year date_to <=? 9999)) with true
        by (symmetry; apply andb_true_iff; split; apply Z.leb_le; lia).
      reflexivity. }
  destruct (negb (date_le date_from date_to)) eqn:Hrange.
  - apply bind_raise. reflexivity.
  - rewrite (bind_ok _ _ s1 tt s1) by reflexivity.
    destruct (log_all_queries config).
    + unfold bind at 1.
      match goal with
      | |- context [McpFinanceToolExecution.log_execution
                      ?a ?b ?c ?d ?e ?f ?g ?h s1] =>
          destruct (returns_log_execution a b c d e f g h s1)
            as (o & s2 & Hlog)
      end.
      unfold bind at 1. rewrite Hlog. reflexivity.
    + reflexivity.
Qed.

(** X22. The defaults and the range check of a trial balance query. For
    a company that exists and has the tool enabled, and for dates that
    parse, a query runs over the dates of the request, with today for
    an end that is not given and the first of January of the year of the
    end for a start that is not given; it shows the hierarchy, takes
    every account type and drops the rows of zero balance unless the
    request says otherwise. It is refused with a [UserError] exactly when
    the start is after the end (equal dates pass), and in no case does it
    touch a move. *)
Theorem trial_balance_query_defaults :
  if date_le date_from date_to then
    exists r s2,
      execute E params s = (Ok (Success r), s2)
      /\ r_data r
         = _get_trial_balance E cid date_from date_to
             (default true (t_hierarchy params))
             (default [] (t_account_types params))
             (default false (t_include_zero params))
      /\ r_date_from r = str_date date_from
      /\ r_date_to r = str_date date_to
      /\ moves s2 = moves s
  else
    exists s2,
      execute E params s
      = (Ok (Failure "date_from must be before date_to" "UserError"), s2)
      /\ moves s2 = moves s.
Proof.
  destruct execute_body_query as (s1 & Hm & He & Hbody). cbn zeta in Hbody.
  destruct (date_le date_from date_to); cbn [negb] in Hbody.
  - unfold execute. rewrite (tool_boundary_ok _ _ _ _ _ _ _ _ Hbody).
    eexists. eexists. split; [reflexivity|]. cbn. repeat split.
    destruct (log_all_queries config); [|exact Hm].
    match goal with
    | |- context [McpFinanceToolExecution.log_execution
                    ?a ?b ?c ?d ?e ?f ?g ?h s1] =>
        destruct (keeps_ledger_log_execution a b c d e f g h s1) as [H _]
    end.
    rewrite H. exact Hm.
  - unfold execute. rewrite (tool_boundary_raise _ _ _ _ _ _ _ _ Hbody).
    eexists. split; [reflexivity|].
    destruct (do_log_total E
                (failure_log_call E "get_trial_balance" (t_company_id params)
                   (TbParams params)
                   (Exn UserError "date_from must be before date_to")) s1)
      as (o & _ & Hm1 & _).
    rewrite Hm1. exact Hm.
Qed.

(** X23. The switch [log_all_queries] decides whether a trial balance
    query that succeeds is logged; a query that fails is logged whatever
    the switch says. With the tool registered, a successful query adds
    one record in state [executed] to the log when the switch is set and
    leaves the log as it is when it is not; a query refused for its range
    adds one record in state [failed]. *)
Theorem trial_balance_logging_switch (tool : mcp_finance_tool) :
  McpFinanceToolExecution.search_tool E "get_trial_balance" = Some tool ->
  let s2 := snd (execute E params s) in
  if date_le date_from date_to then
    if log_all_queries config then
      exists r,
        executions s2 = (executions s ++ [r])%list
        /\ ex_tool_id r = tool_rec_id tool
        /\ ex_state r = st_executed
        /\ ex_error_message r = None
    else executions s2 = executions s
  else
    exists r,
      executions s2 = (executions s ++ [r])%list
      /\ ex_tool_id r = tool_rec_id tool
      /\ ex_state r = st_failed
      /\ ex_error_message r = Some "date_from must be before date_to".
Proof.
  intros Htool. cbn zeta.
  destruct execute_body_query as (s1 & Hm & He & Hbody). cbn zeta in Hbody.
  destruct (date_le date_from date_to); cbn [negb] in Hbody.
  - unfold execute. rewrite (tool_boundary_ok _ _ _ _ _ _ _ _ Hbody).
    cbn [snd].
    destruct (log_all_queries config); [|exact He].
    unfold McpFinanceToolExecution.log_execution. rewrite Htool. cbn.
    rewrite He. eexists. split; [reflexivity|]. cbn. auto.
  - unfold execute. rewrite (tool_boundary_raise _ _ _ _ _ _ _ _ Hbody).
    cbn [snd]. unfold do_log, McpFinanceToolExecution.log_execution.
    cbn [failure_log_call lc_tool_name]. rewrite Htool. cbn.
    rewrite He. eexists. split; [reflexivity|]. cbn. auto.
Qed.

End TrialBalanceQuery.

(** ** The rows of the trial balance *)

Section TrialBalanceRows.
Import TrialBalanceTool.

(** The fold of the dict comprehension, from a dict [m]. *)
Lemma totals_fold_lookup (rows : list (Z * (float * float * float))) :
  forall (m : gmap Z amounts) id,
    ~ In id (map fst rows) ->
    fold_left
      (fun m row =>
         let '(id, (d, c, b)) := row in
         <[id := {| a_debit := d; a_credit := c; a_balance := b |}]> m)
      rows m !! id
    = m !! id.
Proof.
  induction rows as [|[k [[d c] b]] rows IH]; intros m id Hid;
    [reflexivity|].
  cbn [fold_left]. rewrite IH.
  - apply lookup_insert_ne. intros ->. apply Hid. cbn. auto.
  - intros H. apply Hid. cbn. auto.
Qed.

(** X24. The totals that the query has fetched reach the rows by the id
    of the account. When the fetched rows have distinct account ids, as
    the rows of a [GROUP BY] have, an account has in [totals_by_account]
    exactly the debit, credit and balance of its fetched row; an account
    without a fetched row has no entry, and counts with zeros. *)
Theorem totals_by_account_lookup
    (rows : list (Z * (float * float * float))) (account : account_account) :
  List.NoDup (map fst rows) ->
  (forall d c b,
      In (account_id account, (d, c, b)) rows ->
      amounts_of (totals_by_account_of rows) account
      = {| a_debit := d; a_credit := c; a_balance := b |})
  /\ (~ In (account_id account) (map fst rows) ->
      totals_by_account_of rows !! account_id account = None
      /\ amounts_of (totals_by_account_of rows) account = zero_amounts).
Proof.
  intros Hnodup. unfold amounts_of, totals_by_account_of. split.
  - intros d c b Hin. generalize (∅ : gmap Z amounts) as m.
    induction rows as [|[k [[d' c'] b']] rows IH]; intros m;
      [destruct Hin|].
    cbn [map fst] in Hnodup. inversion Hnodup as [|? ? Hk Hrest]; subst.
    cbn [fold_left]. destruct Hin as [[= -> -> -> ->]|Hin].
    + rewrite totals_fold_lookup by exact Hk.
      rewrite lookup_insert_eq. reflexivity.
    + apply IH; assumption.
  - intros Hid. rewrite totals_fold_lookup by exact Hid.
    rewrite lookup_empty. auto.
Qed.

(** The small ledger: the account with id 2 has 50 of credit. *)
Lemma totals_by_account_lookup_witness :
  (forall d c b,
      In (2, (d, c, b))
         (aml_totals demo_tb_env 1 (mkdate 2025 1 1) (mkdate 2025 6 30)) ->
      amounts_of
        (totals_by_account_of
           (aml_totals demo_tb_env 1 (mkdate 2025 1 1) (mkdate 2025 6 30)))
        (demo_account 2 "2010" "Payables" "liability")
      = {| a_debit := d; a_credit := c; a_balance := b |})
  /\ (~ In 2 (map fst (aml_totals demo_tb_env 1 (mkdate 2025 1 1)
                         (mkdate 2025 6 30))) ->
      totals_by_account_of
        (aml_totals demo_tb_env 1 (mkdate 2025 1 1) (mkdate 2025 6 30)) !! 2
      = None
      /\ amounts_of
           (totals_by_account_of
              (aml_totals demo_tb_env 1 (mkdate 2025 1 1) (mkdate 2025 6 30)))
           (demo_account 2 "2010" "Payables" "liability")
         = zero_amounts).
Proof.
  apply (totals_by_account_lookup
           (aml_totals demo_tb_env 1 (mkdate 2025 1 1) (mkdate 2025 6 30))
           (demo_account 2 "2010" "Payables" "liability")).
  cbn.
  repeat (apply List.NoDup_cons;
          [cbn [In]; intros H;
           repeat (destruct H as [H|H]; [lia|]); destruct H|]).
  apply List.NoDup_nil.
Defined.

(** X25. The rows of a trial balance are rows of accounts of the
    company. Every row is the row of an account of the ledger that
    belongs to the company and, when the request names account types, has
    one of these types; it has the id, the code, the name, the type and
    the group of that account; there are no more rows than accounts; and
    an empty list of types is no filter. *)
Theorem trial_balance_rows_of_company
    (E : env) (company_id : Z) (date_from date_to : date)
    (hierarchy : bool) (account_types : list string) (include_zero : bool) :
  let tb :=
    _get_trial_balance E company_id date_from date_to
      hierarchy account_types include_zero in
  (forall r,
      In r (tb_accounts tb) ->
      exists a,
        In a (accounts E)
        /\ In company_id (account_company_ids a)
        /\ (account_types = [] \/ In (account_type a) account_types)
        /\ row_account_id r = account_id a
        /\ row_code r = account_code a
        /\ row_name r = account_name a
        /\ row_account_type r = account_type a
        /\ row_internal_group r = internal_group a
        /\ (hierarchy = false <-> row_hierarchy r = None))
  /\ (List.length (tb_accounts tb) <= List.length (accounts E))%nat
  /\ tb_currency tb = currency_name E.
Proof.
  cbn zeta. unfold _get_trial_balance. rewrite build_rows_spec. cbn zeta.
  cbn [tb_accounts tb_currency app]. split; [|split; [|reflexivity]].
  - intros r Hr. apply List.in_map_iff in Hr as (a & <- & Ha).
    apply List.filter_In in Ha as [Ha _].
    apply List.filter_In in Ha as [Ha Hsel].
    apply andb_true_iff in Hsel as [Hco Hty].
    exists a. split; [exact Ha|]. split.
    { apply List.existsb_exists in Hco as (k & Hk & Heq).
      apply Z.eqb_eq in Heq. subst k. exact Hk. }
    split.
    { destruct account_types as [|t ts]; [left; reflexivity|right].
      apply List.existsb_exists in Hty as (k & Hk & Heq).
      apply String.eqb_eq in Heq. subst k. exact Hk. }
    unfold row_of, make_row. cbn. repeat split.
    + intros ->. reflexivity.
    + destruct hierarchy; [discriminate|reflexivity].
  - rewrite length_map. unfold kept_accounts, search_accounts.
    etransitivity; [apply List.filter_length_le|].
    apply List.filter_length_le.
Qed.

End TrialBalanceRows.

(** ** The HTTP endpoints *)

Section Endpoints.
Import McpFinanceController.
Variable E : env.
Variable users : list res_users.
Variable columns : Z -> McpFinanceTool.tool_columns.
Variable xlsxwriter : option (BirComplianceTool.worksheet -> string).
Variable b64encode : string -> string.

Lemma prefix_str_drop (p h : string) :
  String.prefix p h = true -> h = p ++ str_drop (String.length p) h.
Proof.
  revert h. induction p as [|c p IH]; intros h; [reflexivity|].
  destruct h as [|c' h]; cbn [String.prefix]; [discriminate|].
  destruct (ascii_dec c c') as [<-|]; [|discriminate].
  intros H. rewrite append_cons. cbn [String.length str_drop].
  rewrite <- (IH h H). reflexivity.
Qed.

Lemma str_drop_append (p k : string) : str_drop (String.length p) (p ++ k) = k.
Proof.
  induction p as [|c p IH]; [destruct k; reflexivity|].
  rewrite append_cons. cbn [String.length str_drop]. exact IH.
Qed.

(** X26. Who is authenticated. [_check_auth] accepts a request exactly
    when its [Authorization] header is "Bearer " followed by a key of one
    of the users; the user it returns is then the first user who has that
    key. A request with no such header, or with a key that no user has,
    gets one of the two error messages. *)
Theorem check_auth_accepts_bearer_keys (request : http_request) :
  match _check_auth users request with
  | inl user =>
      exists key,
        authorization request = Some ("Bearer " ++ key)
        /\ find (fun u => existsb (String.eqb key) (api_keys u)) users
           = Some user
        /\ In user users
        /\ In key (api_keys user)
  | inr error =>
      (error = "Missing or invalid Authorization header"
       \/ error = "Invalid API key")
      /\ forall key user,
           authorization request = Some ("Bearer " ++ key) ->
           In user users ->
           ~ In key (api_keys user)
  end.
Proof.
  unfold _check_auth.
  destruct (String.prefix "Bearer " (default "" (authorization request)))
    eqn:Hp; cbn [negb].
  - apply prefix_str_drop in Hp. cbn [String.length] in Hp.
    set (key := str_drop 7 (default "" (authorization request))) in *.
    assert (Hh : authorization request = Some ("Bearer " ++ key)).
    { destruct (authorization request) as [h|]; cbn in Hp |- *;
        [congruence|discriminate]. }
    destruct (find (fun u => existsb (String.eqb key) (api_keys u)) users)
      as [user|] eqn:Hf.
    + exists key. split; [exact Hh|]. split; [exact Hf|].
      apply find_some in Hf as [Hin Hk]. split; [exact Hin|].
      apply List.existsb_exists in Hk as (k & Hk & Heq).
      apply String.eqb_eq in Heq. subst k. exact Hk.
    + split; [auto|]. intros key' user Hh' Hin Hk.
      rewrite Hh in Hh'. injection Hh' as Hh'.
      assert (key' = key) as ->.
      { rewrite !append_nil_l in Hh'. symmetry. exact Hh'. }
      pose proof (find_none _ _ Hf user Hin) as Hnone. cbn beta in Hnone.
      assert (existsb (String.eqb key) (api_keys user) = true) as Hex.
      { apply List.existsb_exists. exists key. split; [exact Hk|].
        apply String.eqb_refl. }
      rewrite Hex in Hnone. discriminate Hnone.
  - split; [auto|]. intros key user Hh _ _.
    rewrite Hh in Hp. cbn [default from_option id] in Hp.
    change ("Bearer " ++ key) with (("Bearer ") ++ key) in Hp.
    rewrite prefix_append in Hp. discriminate.
Qed.

(** X27. A request that is not authenticated reaches no tool. When
    [_check_auth] refuses a request, each endpoint answers with the error
    of the check, the HTTP endpoints with status 401, and the store
    is left as it was: no configuration is created, no move is written
    and nothing is logged. *)
Theorem unauthenticated_requests_change_nothing
    (request : http_request) (tool_name error : string) (s : db) :
  _check_auth users request = inr error ->
  list_tools E users columns request s
  = (Ok {| status := 401; data := Error error |}, s)
  /\ tool_schema users request tool_name
     = {| status := 401; data := Error error |}
  /\ execute_tool E users xlsxwriter b64encode request tool_name s
     = (Ok (Error error), s)
  /\ trial_balance E users xlsxwriter b64encode request s
     = (Ok (Error error), s)
  /\ journal_entry E users xlsxwriter b64encode request s
     = (Ok (Error error), s)
  /\ bir_2307 E users xlsxwriter b64encode request s
     = (Ok (Error error), s).
Proof.
  intros H.
  unfold list_tools, tool_schema, execute_tool, trial_balance, journal_entry,
    bir_2307.
  rewrite H. repeat split.
Qed.

(** X28. The generic endpoint and the direct endpoints run the same
    code. For an authenticated request, [execute_tool] under one of the
    three tool names does what the direct endpoint of that tool does for
    a request whose JSON object is the [params] object of the first, or
    the empty object when there is none; under any other name it answers
    "Unknown tool" and changes nothing. In both cases the tool runs as
    the user who owns the key, in the company of that user. *)
Theorem execute_tool_dispatch
    (request : http_request) (user : res_users) (tool_name : string)
    (s : db) :
  _check_auth users request = inl user ->
  let direct := {|
    authorization := authorization request;
    jsonrequest := default empty_object (jsonrequest_params request);
    jsonrequest_params := None |} in
  let run := execute_tool E users xlsxwriter b64encode request tool_name s in
  (tool_name = "get_trial_balance" ->
   run = trial_balance E users xlsxwriter b64encode direct s
   /\ exists r s2,
        run = (Ok (Reply (TbResult r)), s2)
        /\ TrialBalanceTool.execute (with_user E user)
             (as_tb (jsonrequest direct)) s = (Ok r, s2))
  /\ (tool_name = "create_journal_entry" ->
      run = journal_entry E users xlsxwriter b64encode direct s
      /\ exists r s2,
           run = (Ok (Reply (JeResult r)), s2)
           /\ JournalEntryTool.execute (with_user E user)
                (as_je (jsonrequest direct)) s = (Ok r, s2))
  /\ (tool_name = "generate_bir_2307" ->
      run = bir_2307 E users xlsxwriter b64encode direct s
      /\ exists r s2,
           run = (Ok (Reply (BirResult r)), s2)
           /\ BirComplianceTool.execute xlsxwriter b64encode
                (with_user E user) (as_bir (jsonrequest direct)) s
              = (Ok r, s2))
  /\ (tool_map tool_name = None ->
      run = (Ok (Error ("Unknown tool: " ++ tool_name)), s)).
Proof.
  intros Hauth. cbn zeta.
  assert (Hdirect : _check_auth users
                      {| authorization := authorization request;
                         jsonrequest :=
                           default empty_object (jsonrequest_params request);
                         jsonrequest_params := None |}
                    = inl user).
  { unfold _check_auth in *. exact Hauth. }
  split; [|split; [|split]]; try (intros ->; split).
  - unfold execute_tool, trial_balance. rewrite Hauth, Hdirect. reflexivity.
  - unfold execute_tool. rewrite Hauth. cbn [tool_map String.eqb Ascii.eqb
                                              Bool.eqb execute_as].
    cbn [jsonrequest].
    destruct (tool_boundary_total (with_user E user) "get_trial_balance"
                (t_company_id
                   (as_tb (default empty_object (jsonrequest_params request))))
                (TbParams
                   (as_tb (default empty_object (jsonrequest_params request))))
                (TrialBalanceTool.execute_body (with_user E user)
                   (as_tb (default empty_object (jsonrequest_params request))))
                s) as (r & s2 & Hrun).
    exists r, s2. unfold TrialBalanceTool.execute, bind.
    rewrite Hrun. auto.
  - unfold execute_tool, journal_entry. rewrite Hauth, Hdirect. reflexivity.
  - unfold execute_tool. rewrite Hauth. cbn [tool_map String.eqb Ascii.eqb
                                              Bool.eqb execute_as].
    cbn [jsonrequest].
    destruct (tool_boundary_total (with_user E user) "create_journal_entry"
                (p_company_id
                   (as_je (default empty_object (jsonrequest_params request))))
                (JeParams
                   (as_je (default empty_object (jsonrequest_params request))))
                (JournalEntryTool.execute_body (with_user E user)
                   (as_je (default empty_object (jsonrequest_params request))))
                s) as (r & s2 & Hrun).
    exists r, s2. unfold JournalEntryTool.execute, bind.
    rewrite Hrun. auto.
  - unfold execute_tool, bir_2307. rewrite Hauth, Hdirect. reflexivity.
  - unfold execute_tool. rewrite Hauth. cbn [tool_map String.eqb Ascii.eqb
                                              Bool.eqb execute_as].
    cbn [jsonrequest].
    destruct (tool_boundary_total (with_user E user) "generate_bir_2307"
                (b_company_id
                   (as_bir (default empty_object (jsonrequest_params request))))
                (BirParams
                   (as_bir (default empty_object (jsonrequest_params request))))
                (BirComplianceTool.execute_body xlsxwriter b64encode
                   (with_user E user)
                   (as_bir (default empty_object (jsonrequest_params request))))
                s) as (r & s2 & Hrun).
    exists r, s2. unfold BirComplianceTool.execute, bind.
    rewrite Hrun. auto.
  - intros Hmap. unfold execute_tool. rewrite Hauth, Hmap. reflexivity.
Qed.

End Endpoints.

(** ** The properties on the small ledger *)

(** A store without a configuration: the defaults leave the tool off. *)
Lemma journal_entry_refused_unless_enabled_witness :
  exists s2,
    JournalEntryTool.execute (demo_env false)
      (demo_request (mkdate 2025 6 30) balanced_lines) empty_db
    = (Ok (Failure "Journal Entry tool is disabled for this company"
                   "AccessError"), s2)
    /\ moves s2 = moves empty_db
    /\ configs s2 !! 1 = Some default_config.
Proof.
  apply (journal_entry_refused_unless_enabled (demo_env false)
           (demo_request (mkdate 2025 6 30) balanced_lines) empty_db
           demo_company);
    reflexivity.
Defined.

(** An entry that does not balance. *)
Lemma journal_entry_failure_writes_no_move_witness :
  let run :=
    JournalEntryTool.execute (demo_env false)
      (demo_request (mkdate 2025 6 30)
         [ demo_line "6010" 1000 0; demo_line "2010" 0 999.5 ])
      (demo_db (demo_config false 0)) in
  moves (snd run) = moves (demo_db (demo_config false 0)).
Proof.
  intros run.
  apply (journal_entry_failure_writes_no_move (demo_env false)
           (demo_request (mkdate 2025 6 30)
              [ demo_line "6010" 1000 0; demo_line "2010" 0 999.5 ])
           (demo_db (demo_config false 0))
           "Journal entry is not balanced. Total debit: 1000.00, Total credit: 999.50, Difference: 0.50"
           "ValidationError" (snd run)).
  vm_compute. reflexivity.
Defined.

(** A line with a partner that nobody is, and the same line without. *)
Lemma optional_line_keys_never_reject_witness :
  let with_partner :=
    {| l_account := Some (RefStr "6010");
       l_debit := Some 1000%float;
       l_credit := Some 0%float;
       l_name := Some "Rent";
       l_label := None;
       l_partner := Some (RefStr "nobody");
       l_analytic := Some (AnalyticInt 7) |} in
  match JournalEntryTool._build_move_lines (demo_env false) [with_partner] 1,
        JournalEntryTool._build_move_lines (demo_env false)
          [demo_line "6010" 1000 0] 1 with
  | Ok mls, Ok mls' =>
      map ml_account_id mls = map ml_account_id mls'
      /\ map ml_debit mls = map ml_debit mls'
      /\ map ml_credit mls = map ml_credit mls'
  | Raise e, Raise e' => e = e'
  | _, _ => False
  end.
Proof.
  intros with_partner.
  apply (optional_line_keys_never_reject (demo_env false) 1
           [with_partner] [demo_line "6010" 1000 0]).
  repeat constructor.
Defined.

(** A request for a PDF, with a library that writes "workbook". *)
Lemma bir_output_formats_witness :
  exists r s2,
    BirComplianceTool.execute (Some (fun _ => "workbook")) (fun x => x)
      demo_bir_env (demo_bir_request (Some "PDF"))
      (demo_db (demo_config false 0))
    = (Ok (Success r), s2)
    /\ BirComplianceTool.r_file_content r = "workbook"
    /\ BirComplianceTool.r_filename r = "BIR2307_123456789_2025-Q4.xlsx"
    /\ BirComplianceTool.r_output_format r = "pdf"
    /\ BirComplianceTool.r_record_count r = 1
    /\ moves s2 = moves (demo_db (demo_config false 0)).
Proof.
  apply (bir_output_formats (Some (fun _ => "workbook")) (fun x => x)
           demo_bir_env (demo_bir_request (Some "PDF"))
           (demo_db (demo_config false 0)) demo_company "2025-Q4"
           (mkdate 2025 10 1, mkdate 2025 12 31));
    reflexivity.
Defined.

(** The empty request on 2025-06-30. *)
Lemma trial_balance_query_defaults_witness :
  exists r s2,
    TrialBalanceTool.execute demo_tb_env
      (McpFinanceController.as_tb McpFinanceController.empty_object)
      (demo_db (demo_config false 0))
    = (Ok (Success r), s2)
    /\ TrialBalanceTool.r_data r
       = TrialBalanceTool._get_trial_balance demo_tb_env 1
           (mkdate 2025 1 1) (mkdate 2025 6 30) true [] false
    /\ TrialBalanceTool.r_date_from r = "2025-01-01"
    /\ TrialBalanceTool.r_date_to r = "2025-06-30"
    /\ moves s2 = moves (demo_db (demo_config false 0)).
Proof.
  apply (trial_balance_query_defaults demo_tb_env
           (McpFinanceController.as_tb McpFinanceController.empty_object)
           (demo_db (demo_config false 0)) demo_company None None);
    try reflexivity.
  cbn. lia.
Defined.

(** The same request with the switch [log_all_queries] set. *)
Lemma trial_balance_logging_switch_witness :
  exists r,
    executions
      (snd (TrialBalanceTool.execute demo_tb_env
              (McpFinanceController.as_tb McpFinanceController.empty_object)
              (demo_db (demo_config false 0))))
    = (executions (demo_db (demo_config false 0)) ++ [r])%list
    /\ ex_tool_id r = 1
    /\ ex_state r = st_executed
    /\ ex_error_message r = None.
Proof.
  apply (trial_balance_logging_switch demo_tb_env
           (McpFinanceController.as_tb McpFinanceController.empty_object)
           (demo_db (demo_config false 0)) demo_company None None
           ltac:(reflexivity) ltac:(reflexivity) ltac:(reflexivity)
           ltac:(reflexivity) ltac:(cbn; lia)
           {| tool_rec_id := 1; technical_name := "get_trial_balance" |}).
  reflexivity.
Defined.

(** A request without a header, to the journal entry tool. *)
Lemma unauthenticated_requests_change_nothing_witness :
  let error := "Missing or invalid Authorization header" in
  let s := demo_db (demo_config false 0) in
  McpFinanceController.list_tools (demo_env false) [demo_user] demo_columns
    (demo_http None) s
  = (Ok {| McpFinanceController.status := 401;
           McpFinanceController.data := McpFinanceController.Error error |},
     s)
  /\ McpFinanceController.tool_schema [demo_user] (demo_http None)
       "create_journal_entry"
     = {| McpFinanceController.status := 401;
          McpFinanceController.data := McpFinanceController.Error error |}
  /\ McpFinanceController.execute_tool (demo_env false) [demo_user] None
       (fun x => x) (demo_http None) "create_journal_entry" s
     = (Ok (McpFinanceController.Error error), s)
  /\ McpFinanceController.trial_balance (demo_env false) [demo_user] None
       (fun x => x) (demo_http None) s
     = (Ok (McpFinanceController.Error error), s)
  /\ McpFinanceController.journal_entry (demo_env false) [demo_user] None
       (fun x => x) (demo_http None) s
     = (Ok (McpFinanceController.Error error), s)
  /\ McpFinanceController.bir_2307 (demo_env false) [demo_user] None
       (fun x => x) (demo_http None) s
     = (Ok (McpFinanceController.Error error), s).
Proof.
  intros error s.
  apply (unauthenticated_requests_change_nothing (demo_env false) [demo_user]
           demo_columns None (fun x => x) (demo_http None)
           "create_journal_entry" error s).
  reflexivity.
Defined.

(** A request with the key of the user, under a name that is no tool. *)
Lemma execute_tool_dispatch_witness :
  McpFinanceController.execute_tool (demo_env false) [demo_user] None
    (fun x => x) (demo_http (Some "Bearer key-5")) "get_aging_report"
    (demo_db (demo_config false 0))
  = (Ok (McpFinanceController.Error "Unknown tool: get_aging_report"),
     demo_db (demo_config false 0)).
Proof.
  apply (execute_tool_dispatch (demo_env false) [demo_user] None (fun x => x)
           (demo_http (Some "Bearer key-5")) demo_user "get_aging_report"
           (demo_db (demo_config false 0)) ltac:(reflexivity)).
  reflexivity.
Defined.
